(** * CAI web backend: sessions, tasks and notifications

    A shallow embedding of [cai/web/backend]: [models.py],
    [websocket_manager.py], [session_manager.py], [task_manager.py] and
    the endpoints of [main.py] ([send_message], the task and session
    endpoints, the websocket endpoint and the shutdown), with the
    properties of the backend's specification, and further properties of
    the code, stated and proved over it.

    Conventions.
    - A Python dict is a [gmap]; a dict whose order matters (the
      insertion-ordered [tool_commands]) is an association list.
    - [uuid.uuid4()] values are inputs of the operations that draw them.
    - [datetime.utcnow()] reads a logical clock kept in the world; every
      reading advances it.
    - Python exceptions are values of [PyExn]; code that can raise lives in
      the monad [M] (state and exception).
    - A coroutine is cut at its suspension points: the code between two
      [await]s that really suspend is one function on worlds. *)

From Stdlib Require Import String Ascii List Bool Lia.
From stdpp Require Import gmap strings list fin_maps pretty.

Open Scope string_scope.
Open Scope list_scope.

(** ** Python string helpers *)

Module Py.

(** [c.lower()] on the ASCII range. *)
Definition lower_ascii (c : ascii) : ascii :=
  let n := nat_of_ascii c in
  if (65 <=? n)%nat && (n <=? 90)%nat then ascii_of_nat (n + 32) else c.

Fixpoint lower (s : string) : string :=
  match s with
  | EmptyString => EmptyString
  | String c rest => String (lower_ascii c) (lower rest)
  end.

(** [needle in hay] for two strings. *)
Fixpoint contains (needle hay : string) : bool :=
  String.prefix needle hay ||
  match hay with
  | EmptyString => false
  | String _ rest => contains needle rest
  end.

(** [sep.join(l)]. *)
Definition join (sep : string) (l : list string) : string := String.concat sep l.

(** [s[:n]]. *)
Definition take_str (n : nat) (s : string) : string := String.substring 0 n s.

(** A line feed. *)
Definition nl : string := String (ascii_of_nat 10) EmptyString.

(** Truthiness of a string. *)
Definition truthy (s : string) : bool :=
  match s with EmptyString => false | _ => true end.

(** [list(set(l))]: the distinct elements of [l]; Python fixes no order for
    them, and nothing below depends on the one [elements] picks. *)
Definition list_set (l : list string) : list string :=
  elements (list_to_set l : gset string).

(** [str(x)] of the float [n.0], for whole numbers of seconds below 10^16. *)
Definition float_str (n : nat) : string := pretty n +:+ ".0".

End Py.

(** ** models.py *)

Inductive TaskStatus := PENDING | RUNNING | COMPLETED | FAILED | CANCELLED.
Inductive SessionStatus := ACTIVE | IDLE | TERMINATED.

#[global] Instance TaskStatus_eq_dec : EqDecision TaskStatus.
Proof. solve_decision. Defined.

Definition datetime := nat.

(** Entries of [Task.logs]. *)
Inductive LogEntry :=
| LogToolExecuted (tool : string) (timestamp : string)
| LogError (error traceback : string) (timestamp : string).

(** [datetime.isoformat()]: the text of a clock reading. *)
Definition isoformat (t : datetime) : string := pretty t.

Record TokenUsage := {
  prompt_tokens : Z;
  completion_tokens : Z;
  total_tokens : Z
}.

(** [Task.metadata]: the empty dict of a new task is [metadata_empty];
    [_execute_task] stores the four keys at once. *)
Record Metadata := {
  initial_thinking : option string;
  final_response : option string;
  tool_commands : list (string * string);
  tool_outputs : list string
}.

Definition metadata_empty : Metadata :=
  {| initial_thinking := None; final_response := None;
     tool_commands := []; tool_outputs := [] |}.

Record Task := {
  id : string;
  session_id : string;
  message : string;
  status : TaskStatus;
  created_at : datetime;
  started_at : option datetime;
  completed_at : option datetime;
  result : option string;
  error : option string;
  logs : list LogEntry;
  tools_used : list string;
  token_usage : option TokenUsage;
  metadata : Metadata
}.

Record ChatMessage := {
  msg_id : string;
  role : string;
  content : string;
  timestamp : datetime;
  msg_tools_used : list string;
  msg_task_id : option string
}.

(** Field assignments [task.f = v]. *)
Definition with_status (v : TaskStatus) (t : Task) : Task :=
  {| id := id t; session_id := session_id t; message := message t; status := v;
     created_at := created_at t; started_at := started_at t;
     completed_at := completed_at t; result := result t; error := error t;
     logs := logs t; tools_used := tools_used t; token_usage := token_usage t;
     metadata := metadata t |}.

Definition with_started_at (v : option datetime) (t : Task) : Task :=
  {| id := id t; session_id := session_id t; message := message t; status := status t;
     created_at := created_at t; started_at := v;
     completed_at := completed_at t; result := result t; error := error t;
     logs := logs t; tools_used := tools_used t; token_usage := token_usage t;
     metadata := metadata t |}.

Definition with_completed_at (v : option datetime) (t : Task) : Task :=
  {| id := id t; session_id := session_id t; message := message t; status := status t;
     created_at := created_at t; started_at := started_at t;
     completed_at := v; result := result t; error := error t;
     logs := logs t; tools_used := tools_used t; token_usage := token_usage t;
     metadata := metadata t |}.

Definition with_result (v : option string) (t : Task) : Task :=
  {| id := id t; session_id := session_id t; message := message t; status := status t;
     created_at := created_at t; started_at := started_at t;
     completed_at := completed_at t; result := v; error := error t;
     logs := logs t; tools_used := tools_used t; token_usage := token_usage t;
     metadata := metadata t |}.

Definition with_error (v : option string) (t : Task) : Task :=
  {| id := id t; session_id := session_id t; message := message t; status := status t;
     created_at := created_at t; started_at := started_at t;
     completed_at := completed_at t; result := result t; error := v;
     logs := logs t; tools_used := tools_used t; token_usage := token_usage t;
     metadata := metadata t |}.

Definition with_logs (v : list LogEntry) (t : Task) : Task :=
  {| id := id t; session_id := session_id t; message := message t; status := status t;
     created_at := created_at t; started_at := started_at t;
     completed_at := completed_at t; result := result t; error := error t;
     logs := v; tools_used := tools_used t; token_usage := token_usage t;
     metadata := metadata t |}.

Definition with_tools_used (v : list string) (t : Task) : Task :=
  {| id := id t; session_id := session_id t; message := message t; status := status t;
     created_at := created_at t; started_at := started_at t;
     completed_at := completed_at t; result := result t; error := error t;
     logs := logs t; tools_used := v; token_usage := token_usage t;
     metadata := metadata t |}.

Definition with_token_usage (v : option TokenUsage) (t : Task) : Task :=
  {| id := id t; session_id := session_id t; message := message t; status := status t;
     created_at := created_at t; started_at := started_at t;
     completed_at := completed_at t; result := result t; error := error t;
     logs := logs t; tools_used := tools_used t; token_usage := v;
     metadata := metadata t |}.

Definition with_metadata (v : Metadata) (t : Task) : Task :=
  {| id := id t; session_id := session_id t; message := message t; status := status t;
     created_at := created_at t; started_at := started_at t;
     completed_at := completed_at t; result := result t; error := error t;
     logs := logs t; tools_used := tools_used t; token_usage := token_usage t;
     metadata := v |}.

(** The terminal states of a task. *)
Definition terminal (s : TaskStatus) : bool :=
  match s with COMPLETED | FAILED | CANCELLED => true | _ => false end.

(** ** The agent run, as [_execute_task] sees it

    [Runner.run] is an external collaborator.  Its result is a bag of
    attributes that [_execute_task] probes with [hasattr]; an attribute that
    is absent is [None] here, and a text attribute that is present holds its
    text (the empty text when it is falsy). *)

(** What lines 100-106 observe of [tool_args] (the [json.loads] of
    [function.arguments], or the raw text when that fails): its truthiness,
    [str(tool_args['command'])] when ['command' in tool_args], and
    [str(tool_args)]. *)
Record ToolArgs := {
  args_truthy : bool;
  args_command : option string;
  args_shown : string
}.

(** [tool_calls[0].function]. *)
Record FunctionCall := {
  fn_name : string;
  fn_arguments : ToolArgs
}.

(** An element of [raw_item.content]. *)
Record ContentItem := {
  c_text : option string;
  c_content : option string;
  c_str : string
}.

Record RawItem := {
  raw_tool_calls : option (list FunctionCall);
  raw_name : option string;
  raw_content : option (list ContentItem)
}.

(** An element of [result.new_items]; [item_type] and [item_output] hold
    [str(item.type)] and [str(item.output)]. *)
Record Item := {
  item_type : option string;
  item_tool_name : option string;
  item_raw : option RawItem;
  item_output : option string
}.

(** An element of [result.raw_responses]; an absent counter reads 0. *)
Record Response := { usage : option TokenUsage }.

Record RunResult := {
  new_items : list Item;
  raw_responses : list Response
}.

Module Extract.

(** [d[k] = v] on an insertion-ordered dict. *)
Fixpoint dict_set (k v : string) (d : list (string * string)) : list (string * string) :=
  match d with
  | [] => [(k, v)]
  | (k', v') :: rest =>
      if String.eqb k k' then (k, v) :: rest else (k', v') :: dict_set k v rest
  end.

(** The local variables of the extraction loop (lines 63-67). *)
Record Locals := {
  initial_message : string;
  final_message : string;
  seen_tools : list string;
  seen_commands : list (string * string);
  seen_outputs : list string
}.

Definition locals_init : Locals :=
  {| initial_message := ""; final_message := ""; seen_tools := [];
     seen_commands := []; seen_outputs := [] |}.

(** Lines 84-95: the two [elif] arms, taken when [item.tool_name] is absent
    or falsy.  [raw_tool_calls = Some []] is a [tool_calls] attribute that is
    present but empty. *)
Definition resolve_raw (item : Item) : option string * option ToolArgs :=
  match item_raw item with
  | Some raw =>
      match raw_tool_calls raw with
      | Some (call :: _) => (Some (fn_name call), Some (fn_arguments call))
      | Some [] => (None, None)
      | None => (raw_name raw, None)
      end
  | None => (None, None)
  end.

(** Lines 78-95: the tool name and arguments of a tool-call item. *)
Definition resolve_tool (item : Item) : option string * option ToolArgs :=
  match item_tool_name item with
  | Some n => if Py.truthy n then (Some n, None) else resolve_raw item
  | None => resolve_raw item
  end.

(** Lines 100-106: the text stored in [tool_commands]. *)
Definition command_text (tool_name : string) (tool_args : option ToolArgs) : string :=
  match tool_args with
  | Some args =>
      if args_truthy args then
        match String.eqb tool_name "generic_linux_command", args_command args with
        | true, Some cmd => "Executing Command: " +:+ cmd
        | _, _ => "Executing " +:+ tool_name +:+ ": " +:+ Py.take_str 100 (args_shown args)
        end
      else "Executing " +:+ tool_name
  | None => "Executing " +:+ tool_name
  end.

(** Lines 97-106. *)
Definition record_tool (l : Locals) (item : Item) : Locals :=
  match resolve_tool item with
  | (Some tool_name, tool_args) =>
      if Py.truthy tool_name then
        {| initial_message := initial_message l; final_message := final_message l;
           seen_tools := seen_tools l ++ [tool_name];
           seen_commands := dict_set tool_name (command_text tool_name tool_args) (seen_commands l);
           seen_outputs := seen_outputs l |}
      else l
  | (None, _) => l
  end.

(** Lines 115-121. *)
Definition message_text (c : ContentItem) : string :=
  match c_text c with
  | Some t => t
  | None => match c_content c with Some t => t | None => c_str c end
  end.

(** Lines 110-127. *)
Definition record_message (l : Locals) (item : Item) : Locals :=
  match item_raw item with
  | Some raw =>
      match raw_content raw with
      | Some (content_item :: _) =>
          let text := message_text content_item in
          if negb (Py.truthy (initial_message l)) && Py.truthy text then
            {| initial_message := text; final_message := final_message l;
               seen_tools := seen_tools l; seen_commands := seen_commands l;
               seen_outputs := seen_outputs l |}
          else if Py.truthy text && negb (String.eqb text (initial_message l)) then
            {| initial_message := initial_message l; final_message := text;
               seen_tools := seen_tools l; seen_commands := seen_commands l;
               seen_outputs := seen_outputs l |}
          else l
      | _ => l
      end
  | None => l
  end.

(** Lines 131-133. *)
Definition record_output (l : Locals) (item : Item) : Locals :=
  match item_output item with
  | Some out =>
      {| initial_message := initial_message l; final_message := final_message l;
         seen_tools := seen_tools l; seen_commands := seen_commands l;
         seen_outputs := seen_outputs l ++ [Py.take_str 2000 out] |}
  | None => l
  end.

(** Lines 73-133: one turn of the loop, with its [if]/[elif] chain in the
    order of the source. *)
Definition process_item (l : Locals) (item : Item) : Locals :=
  match item_type item with
  | None => l
  | Some ty =>
      let item_type_str := Py.lower ty in
      if Py.contains "tool_call" item_type_str then record_tool l item
      else if Py.contains "message_output" item_type_str
              || Py.contains "message" item_type_str then record_message l item
      else if Py.contains "tool_call_output" item_type_str then record_output l item
      else l
  end.

(** Lines 70-133. *)
Definition process_items (items : list Item) : Locals :=
  fold_left process_item items locals_init.

(** Lines 138-156: the task's primary result, from the loop's variables
    after line 136 has removed the duplicate tool names. *)
Definition task_result (tool_outputs tools_used : list string)
    (final_message initial_message : string) : string :=
  match tool_outputs with
  | _ :: _ => Py.join (Py.nl +:+ Py.nl) tool_outputs
  | [] =>
      match tools_used with
      | _ :: _ => "Executed tools: " +:+ Py.join ", " tools_used
      | [] =>
          let assistant_message :=
            if Py.truthy final_message then final_message else initial_message in
          if Py.truthy assistant_message then assistant_message else "Task completed"
      end
  end.

(** Lines 162-167. *)
Definition build_metadata (l : Locals) : Metadata :=
  {| initial_thinking :=
       if Py.truthy (initial_message l) then Some (initial_message l) else None;
     final_response :=
       if Py.truthy (final_message l) then Some (final_message l) else None;
     tool_commands := seen_commands l;
     tool_outputs := seen_outputs l |}.

(** Lines 185-201: the summed counters, kept only when a total was reported. *)
Definition sum_usage (responses : list Response) : TokenUsage :=
  fold_left
    (fun acc r =>
       match usage r with
       | Some u =>
           {| prompt_tokens := (prompt_tokens acc + prompt_tokens u)%Z;
              completion_tokens := (completion_tokens acc + completion_tokens u)%Z;
              total_tokens := (total_tokens acc + total_tokens u)%Z |}
       | None => acc
       end)
    responses
    {| prompt_tokens := 0; completion_tokens := 0; total_tokens := 0 |}.

Definition extract_usage (old : option TokenUsage) (responses : list Response)
    : option TokenUsage :=
  match responses with
  | [] => old
  | _ =>
      let total := sum_usage responses in
      if (0 <? total_tokens total)%Z then Some total else old
  end.

End Extract.

(** ** Exceptions and effects *)

(** The exceptions that cross the modelled code.  [Exception] stands for any
    exception of a collaborator, with [str(e)] and [traceback.format_exc()].
    [CancelledError] derives from [BaseException]: an [except Exception]
    clause does not catch it. *)
Inductive PyExn :=
| Exception (text traceback : string)
| ValueError (text : string)
| HTTPException (status_code : nat) (detail : string)
| TimeoutError
| CancelledError.

Definition is_Exception (e : PyExn) : bool :=
  match e with CancelledError => false | _ => true end.

(** [str(e)]. *)
Definition exn_str (e : PyExn) : string :=
  match e with
  | Exception text _ => text
  | ValueError text => text
  | HTTPException _ detail => detail
  | TimeoutError => ""
  | CancelledError => ""
  end.

(** [traceback.format_exc()] while [e] is handled. *)
Definition exn_traceback (e : PyExn) : string :=
  match e with
  | Exception _ tb => tb
  | _ => ""
  end.

Inductive Outcome (A : Type) :=
| Ret (a : A)
| Raise (e : PyExn).
Arguments Ret {A} a.
Arguments Raise {A} e.

(** Code over a state [S] that returns or raises. *)
Definition St (S A : Type) : Type := S → Outcome A * S.

Definition ret {S A} (a : A) : St S A := fun s => (Ret a, s).
Definition raise {S A} (e : PyExn) : St S A := fun s => (Raise e, s).
Definition bind {S A B} (m : St S A) (k : A → St S B) : St S B :=
  fun s => match m s with
           | (Ret a, s') => k a s'
           | (Raise e, s') => (Raise e, s')
           end.

(** [try: body / except ... : handler e]; a handler re-raises what none of
    its clauses catches. *)
Definition try_except {S A} (body : St S A) (handler : PyExn → St S A) : St S A :=
  fun s => match body s with
           | (Ret a, s') => (Ret a, s')
           | (Raise e, s') => handler e s'
           end.

(** [try: body / finally: fin]. *)
Definition try_finally {S A} (body : St S A) (fin : St S unit) : St S A :=
  fun s => match body s with
           | (o, s') =>
               match fin s' with
               | (Ret _, s'') => (o, s'')
               | (Raise e, s'') => (Raise e, s'')
               end
           end.

Declare Scope py_scope.
Delimit Scope py_scope with py.
Notation "x ← y ; z" := (bind y (fun x => z))
  (at level 20, y at level 100, z at level 200, only parsing) : py_scope.
Notation "y ;; z" := (bind y (fun _ => z))
  (at level 100, z at level 200, only parsing, right associativity) : py_scope.
Open Scope py_scope.

(** ** websocket_manager.py *)

(** A connection object, known by its identity. *)
Record WebSocket := { ws_id : nat }.

#[global] Instance WebSocket_eq_dec : EqDecision WebSocket.
Proof. solve_decision. Defined.

(** The events sent to observers. *)
Inductive Payload :=
| Connected (session : string)
| TaskUpdate (task : Task)
| TaskCreated (task : Task)
| MessageAdded (msg : ChatMessage) (is_thinking : bool).

(** The far end of a connection: whether it is gone, and what it was sent. *)
Record Peer := {
  peer_closed : bool;
  peer_received : list Payload
}.

(** All far ends, by connection identity. *)
Abbreviation Net := (gmap nat Peer).

Module WebSocketManager.

(** [self.connections]. *)
Abbreviation Connections := (gmap string (list WebSocket)).

(** [websocket.send_json(data)]: raises when the peer is gone. *)
Definition send_json (websocket : WebSocket) (data : Payload) : St Net unit :=
  fun net =>
    match net !! ws_id websocket with
    | Some p =>
        if peer_closed p then (Raise (Exception "connection closed" ""), net)
        else (Ret tt,
              <[ws_id websocket :=
                  {| peer_closed := false;
                     peer_received := peer_received p ++ [data] |}]> net)
    | None => (Raise (Exception "connection closed" ""), net)
    end.

Definition _send_to_websocket (websocket : WebSocket) (data : Payload) : St Net unit :=
  try_except (send_json websocket data)
    (fun e => if is_Exception e then ret tt else raise e).

(** [asyncio.gather] with [return_exceptions=True]: every coroutine runs;
    what one raises is collected, not raised. *)
Fixpoint gather (tasks : list (St Net unit)) : St Net unit :=
  match tasks with
  | [] => ret tt
  | t :: rest => fun net => gather rest (snd (t net))
  end.

Definition broadcast_to_session (connections : Connections) (session : string)
    (data : Payload) : St Net unit :=
  match connections !! session with
  | Some observers =>
      let tasks := map (fun ws => _send_to_websocket ws data) observers in
      match tasks with
      | [] => ret tt
      | _ => gather tasks
      end
  | None => ret tt
  end.

(** [l.remove(x)]: drops the first occurrence, [None] for [ValueError]. *)
Fixpoint list_remove (x : WebSocket) (l : list WebSocket) : option (list WebSocket) :=
  match l with
  | [] => None
  | y :: rest =>
      if decide (x = y) then Some rest
      else match list_remove x rest with
           | Some rest' => Some (y :: rest')
           | None => None
           end
  end.

Definition disconnect (websocket : WebSocket) (session : string) : St Connections unit :=
  fun connections =>
    match connections !! session with
    | Some observers =>
        match list_remove websocket observers with
        | Some [] => (Ret tt, delete session connections)
        | Some rest => (Ret tt, <[session := rest]> connections)
        | None => (Raise (ValueError "list.remove(x): x not in list"), connections)
        end
    | None => (Ret tt, connections)
    end.

(** [connect], after [websocket.accept()]: registers, then acknowledges. *)
Definition connect (websocket : WebSocket) (session : string)
    : St (Connections * Net) unit :=
  fun '(connections, net) =>
    let observers := default [] (connections !! session) in
    let connections' := <[session := observers ++ [websocket]]> connections in
    match _send_to_websocket websocket (Connected session) net with
    | (o, net') => (o, (connections', net'))
    end.

(** Every registration of every bucket.  Python walks the buckets in
    insertion order; sends to different connections commute and the sends
    of one payload to one connection are alike, so the order in which the
    buckets are listed does not show in what the peers receive. *)
Definition all_observers (connections : Connections) : list WebSocket :=
  concat (map snd (map_to_list connections)).

Definition broadcast_to_all (connections : Connections) (data : Payload) : St Net unit :=
  let tasks := map (fun ws => _send_to_websocket ws data) (all_observers connections) in
  match tasks with
  | [] => ret tt
  | _ => gather tasks
  end.

(** [websocket.close()]: raises when the connection is closed already. *)
Definition close (websocket : WebSocket) : St Net unit :=
  fun net =>
    match net !! ws_id websocket with
    | Some p =>
        if peer_closed p then (Raise (Exception "connection closed" ""), net)
        else (Ret tt,
              <[ws_id websocket :=
                  {| peer_closed := true; peer_received := peer_received p |}]> net)
    | None => (Raise (Exception "connection closed" ""), net)
    end.

(** Lines 73-76: [try: await ws.close() / except Exception: pass]. *)
Definition close_quietly (websocket : WebSocket) : St Net unit :=
  try_except (close websocket)
    (fun e => if is_Exception e then ret tt else raise e).

Fixpoint close_each (websockets : list WebSocket) : St Net unit :=
  match websockets with
  | [] => ret tt
  | ws :: rest => close_quietly ws;; close_each rest
  end.

(** [disconnect_all]: the map is cleared once every close has been tried. *)
Definition disconnect_all : St (Connections * Net) unit :=
  fun '(connections, net) =>
    match close_each (all_observers connections) net with
    | (Ret _, net') => (Ret tt, (∅, net'))
    | (Raise e, net') => (Raise e, (connections, net'))
    end.

End WebSocketManager.

(** ** The world: the module-level objects of the backend *)

(** What [Runner.run] does on an input, seen from outside: how long it takes
    and how it ends.  An agent handle is known by that behaviour. *)
Record AgentRun := {
  run_duration : nat;
  run_outcome : Outcome RunResult
}.

Definition Agent := string → AgentRun.

Record Session := {
  sess_id : string;
  name : string;
  agent_type : string;
  model : string;
  sess_status : SessionStatus;
  sess_created_at : datetime;
  updated_at : datetime;
  config : list (string * string);
  agent : Agent;
  messages : list ChatMessage
}.

(** The state of the coroutine behind an [asyncio.Task] of [running_tasks]:
    created and not yet run, suspended in [await Runner.run(...)], or ended
    by a cancellation that came before its first step (its body then never
    runs).  A coroutine that ends any other way has removed its own entry. *)
Inductive CoroState := Scheduled | AwaitingRun | DoneCancelled.

Record Handle := {
  h_state : CoroState;
  h_agent : Agent
}.

(** The two [WebSocketManager] instances: the one [websocket_manager.py]
    creates, which [task_manager.py] imports, and the one [main.py] creates
    for its own use. *)
Inductive Hub := GlobalHub | MainHub.

(** A record of the effects the properties count: assignments to
    [completed_at] and calls of [broadcast_to_session]. *)
Inductive Event :=
| EvCompletedAt (task : string) (at_time : datetime)
| EvBroadcast (hub : Hub) (session : string) (data : Payload).

Record World := {
  clock : nat;
  sessions : gmap string Session;
  tasks : gmap string Task;
  running_tasks : gmap string Handle;
  global_connections : gmap string (list WebSocket);
  main_connections : gmap string (list WebSocket);
  net : Net;
  journal : list Event
}.

Definition world_init : World :=
  {| clock := 0; sessions := ∅; tasks := ∅; running_tasks := ∅;
     global_connections := ∅; main_connections := ∅; net := ∅; journal := [] |}.

Definition set_clock (v : nat) (w : World) : World :=
  {| clock := v; sessions := sessions w; tasks := tasks w;
     running_tasks := running_tasks w; global_connections := global_connections w;
     main_connections := main_connections w; net := net w; journal := journal w |}.

Definition set_sessions (v : gmap string Session) (w : World) : World :=
  {| clock := clock w; sessions := v; tasks := tasks w;
     running_tasks := running_tasks w; global_connections := global_connections w;
     main_connections := main_connections w; net := net w; journal := journal w |}.

Definition set_tasks (v : gmap string Task) (w : World) : World :=
  {| clock := clock w; sessions := sessions w; tasks := v;
     running_tasks := running_tasks w; global_connections := global_connections w;
     main_connections := main_connections w; net := net w; journal := journal w |}.

Definition set_running_tasks (v : gmap string Handle) (w : World) : World :=
  {| clock := clock w; sessions := sessions w; tasks := tasks w;
     running_tasks := v; global_connections := global_connections w;
     main_connections := main_connections w; net := net w; journal := journal w |}.

Definition set_net (v : Net) (w : World) : World :=
  {| clock := clock w; sessions := sessions w; tasks := tasks w;
     running_tasks := running_tasks w; global_connections := global_connections w;
     main_connections := main_connections w; net := v; journal := journal w |}.

Definition set_journal (v : list Event) (w : World) : World :=
  {| clock := clock w; sessions := sessions w; tasks := tasks w;
     running_tasks := running_tasks w; global_connections := global_connections w;
     main_connections := main_connections w; net := net w; journal := v |}.

Definition M (A : Type) : Type := St World A.

(** [datetime.utcnow()]. *)
Definition utcnow : M datetime :=
  fun w => (Ret (clock w), set_clock (S (clock w)) w).

Definition connections_of (hub : Hub) (w : World) : gmap string (list WebSocket) :=
  match hub with
  | GlobalHub => global_connections w
  | MainHub => main_connections w
  end.

(** [hub.broadcast_to_session(session, data)] on the world. *)
Definition broadcast (hub : Hub) (session : string) (data : Payload) : M unit :=
  fun w =>
    let w1 := set_journal (journal w ++ [EvBroadcast hub session data]) w in
    match WebSocketManager.broadcast_to_session (connections_of hub w) session data (net w) with
    | (o, net') => (o, set_net net' w1)
    end.

Definition set_connections (hub : Hub) (v : gmap string (list WebSocket)) (w : World)
    : World :=
  match hub with
  | GlobalHub =>
      {| clock := clock w; sessions := sessions w; tasks := tasks w;
         running_tasks := running_tasks w; global_connections := v;
         main_connections := main_connections w; net := net w; journal := journal w |}
  | MainHub =>
      {| clock := clock w; sessions := sessions w; tasks := tasks w;
         running_tasks := running_tasks w; global_connections := global_connections w;
         main_connections := v; net := net w; journal := journal w |}
  end.

(** [hub.connect(websocket, session)], [hub.disconnect(websocket, session)]
    and [hub.disconnect_all()] on the world. *)
Definition hub_connect (hub : Hub) (websocket : WebSocket) (session : string) : M unit :=
  fun w =>
    match WebSocketManager.connect websocket session (connections_of hub w, net w) with
    | (o, (connections', net')) => (o, set_net net' (set_connections hub connections' w))
    end.

Definition hub_disconnect (hub : Hub) (websocket : WebSocket) (session : string) : M unit :=
  fun w =>
    match WebSocketManager.disconnect websocket session (connections_of hub w) with
    | (o, connections') => (o, set_connections hub connections' w)
    end.

Definition hub_disconnect_all (hub : Hub) : M unit :=
  fun w =>
    match WebSocketManager.disconnect_all (connections_of hub w, net w) with
    | (o, (connections', net')) => (o, set_net net' (set_connections hub connections' w))
    end.

(** ** session_manager.py *)

Module SessionManager.

(** [create_session]; [made] is what [_create_agent] does for the arguments
    (it returns the agent built by the external factory, or raises). *)
Definition create_session (uuid : string) (agent_type model name : string)
    (config : list (string * string)) (made : Outcome Agent) : M Session :=
  match made with
  | Raise e => raise e
  | Ret a =>
      created ← utcnow;
      updated ← utcnow;
      let session :=
        {| sess_id := uuid; name := name; agent_type := agent_type; model := model;
           sess_status := ACTIVE; sess_created_at := created; updated_at := updated;
           config := config; agent := a; messages := [] |} in
      fun w => (Ret session, set_sessions (<[uuid := session]> (sessions w)) w)
  end.

Definition get_session (session : string) (w : World) : option Session :=
  sessions w !! session.

(** [delete_session]: the session object is marked [TERMINATED] and leaves
    the map in the same step, so the mark is seen only by who still holds
    the object. *)
Definition delete_session (session : string) : M bool :=
  fun w =>
    match sessions w !! session with
    | Some _ => (Ret true, set_sessions (delete session (sessions w)) w)
    | None => (Ret false, w)
    end.

(** [get_all_sessions]: the values of the map. *)
Definition get_all_sessions (w : World) : list Session :=
  map snd (map_to_list (sessions w)).

End SessionManager.

(** ** task_manager.py *)

Module TaskManager.

(** [task.f = v] on the task object [tid] of the store. *)
Definition assign (tid : string) (f : Task → Task) : M unit :=
  fun w => (Ret tt, set_tasks (alter f tid (tasks w)) w).

(** [task.completed_at = datetime.utcnow()]. *)
Definition assign_completed_at (tid : string) : M unit :=
  now ← utcnow;
  assign tid (with_completed_at (Some now));;
  fun w => (Ret tt, set_journal (journal w ++ [EvCompletedAt tid now]) w).

Definition _notify_task_update (tid : string) : M unit :=
  fun w =>
    match tasks w !! tid with
    | Some task => broadcast GlobalHub (session_id task) (TaskUpdate task) w
    | None => (Ret tt, w)
    end.

Definition get_task (tid : string) (w : World) : option Task := tasks w !! tid.

Definition create_task (uuid : string) (session message : string) (agent : Agent)
    : M Task :=
  created ← utcnow;
  let task :=
    {| id := uuid; session_id := session; message := message; status := PENDING;
       created_at := created; started_at := None; completed_at := None;
       result := None; error := None; logs := []; tools_used := [];
       token_usage := None; metadata := metadata_empty |} in
  fun w =>
    (Ret task,
     set_running_tasks
       (<[uuid := {| h_state := Scheduled; h_agent := agent |}]> (running_tasks w))
       (set_tasks (<[uuid := task]> (tasks w)) w)).

(** Lines 52-54: up to the suspension in [await Runner.run(...)]. *)
Definition exec_prologue (tid : string) : M unit :=
  assign tid (with_status RUNNING);;
  now ← utcnow;
  assign tid (with_started_at (Some now));;
  _notify_task_update tid.

(** Lines 175-182. *)
Fixpoint tool_logs (tools : list string) : M (list LogEntry) :=
  match tools with
  | [] => ret []
  | tool_name :: rest =>
      now ← utcnow;
      entries ← tool_logs rest;
      ret (LogToolExecuted tool_name (isoformat now) :: entries)
  end.

(** Lines 62-201: what follows a [Runner.run] that returned. *)
Definition exec_success (tid : string) (result : RunResult) : M unit :=
  let l := Extract.process_items (new_items result) in
  let tools_used := Py.list_set (Extract.seen_tools l) in
  let task_result :=
    Extract.task_result (Extract.seen_outputs l) tools_used
      (Extract.final_message l) (Extract.initial_message l) in
  assign tid (with_result (Some task_result));;
  assign tid (with_metadata (Extract.build_metadata l));;
  assign tid (with_status COMPLETED);;
  assign_completed_at tid;;
  assign tid (with_tools_used tools_used);;
  entries ← tool_logs tools_used;
  assign tid (with_logs entries);;
  assign tid (fun t =>
    with_token_usage (Extract.extract_usage (token_usage t) (raw_responses result)) t).

(** Lines 203-206. *)
Definition on_cancelled (tid : string) : M unit :=
  assign tid (with_status CANCELLED);;
  assign tid (with_error (Some "Task was cancelled"));;
  raise CancelledError.

(** Lines 207-215. *)
Definition on_exception (tid : string) (e : PyExn) : M unit :=
  assign tid (with_status FAILED);;
  assign tid (with_error (Some (exn_str e)));;
  now ← utcnow;
  assign tid (fun t =>
    with_logs (logs t ++ [LogError (exn_str e) (exn_traceback e) (isoformat now)]) t).

(** The [except] clauses of [_execute_task], in their order. *)
Definition exec_handler (tid : string) (e : PyExn) : M unit :=
  match e with
  | CancelledError => on_cancelled tid
  | _ => if is_Exception e then on_exception tid e else raise e
  end.

(** Lines 216-223: the [finally] block. *)
Definition finalization (tid : string) : M unit :=
  assign_completed_at tid;;
  (fun w => (Ret tt, set_running_tasks (delete tid (running_tasks w)) w));;
  _notify_task_update tid.

(** [_execute_task(task, agent)], with [run] for [await Runner.run(...)]. *)
Definition _execute_task (tid : string) (run : M RunResult) : M unit :=
  try_finally
    (try_except
       (exec_prologue tid;;
        result ← run;
        exec_success tid result)
       (exec_handler tid))
    (finalization tid).

(** The coroutine from its suspension in [Runner.run] on, resumed with what
    the awaited call gives: a result, an exception, or the [CancelledError]
    thrown into it by a cancellation. *)
Definition exec_resume (tid : string) (resumed : Outcome RunResult) : M unit :=
  try_finally
    (try_except
       (result ← (fun w => (resumed, w)) : M RunResult;
        exec_success tid result)
       (exec_handler tid))
    (finalization tid).

End TaskManager.

(** ** The event loop, as far as the task manager uses it

    [asyncio.create_task] only schedules: the coroutine's first step runs
    when the creator next yields to the loop.  [Task.cancel()] throws
    [CancelledError] into the coroutine at the [await] it is suspended in;
    when it has not started, its body never runs.  A cancellation is
    delivered in the step that requests it, and a broadcast completes
    without another coroutine stepping in. *)

Module Loop.
Import TaskManager.

Definition set_state (tid : string) (st : CoroState) : M unit :=
  fun w =>
    (Ret tt,
     set_running_tasks
       (alter (fun h => {| h_state := st; h_agent := h_agent h |}) tid (running_tasks w)) w).

(** The loop runs the first step of a scheduled coroutine. *)
Definition start (tid : string) : M unit :=
  fun w =>
    match running_tasks w !! tid with
    | Some {| h_state := Scheduled |} =>
        (exec_prologue tid;; set_state tid AwaitingRun) w
    | _ => (Ret tt, w)
    end.

(** The run the coroutine of [tid] is waiting for. *)
Definition awaited_run (tid : string) (w : World) : option AgentRun :=
  match running_tasks w !! tid, tasks w !! tid with
  | Some h, Some task => Some (h_agent h (message task))
  | _, _ => None
  end.

(** The awaited [Runner.run] ends and the loop resumes the coroutine. *)
Definition finish (tid : string) : M unit :=
  fun w =>
    match running_tasks w !! tid, awaited_run tid w with
    | Some {| h_state := AwaitingRun |}, Some run => exec_resume tid (run_outcome run) w
    | _, _ => (Ret tt, w)
    end.

(** [handle.cancel()], with its delivery.  What the coroutine raises on its
    way out stays in the handle. *)
Definition cancel (tid : string) : M unit :=
  fun w =>
    match running_tasks w !! tid with
    | Some {| h_state := Scheduled |} => set_state tid DoneCancelled w
    | Some {| h_state := AwaitingRun |} =>
        (Ret tt, snd (exec_resume tid (Raise CancelledError) w))
    | _ => (Ret tt, w)
    end.

(** What else happens to the awaited task while a caller is suspended in
    [asyncio.wait_for]: nothing, or some other coroutine cancels it first
    ([cancel_task], [cleanup]). *)
Inductive Interference := Undisturbed | CancelledMeanwhile.

(** [await asyncio.wait_for(handle, timeout)] for the handle of [tid], with
    [timeout] in seconds.  A handle already cancelled re-raises its
    [CancelledError].  With [timeout <= 0] the handle is cancelled at once.
    Otherwise the loop runs the coroutine: it ends first when its run takes
    less than [timeout], and is cancelled for [TimeoutError] when not. *)
Definition wait_for (tid : string) (timeout : nat) (env : Interference) : M unit :=
  fun w =>
    match running_tasks w !! tid with
    | None => (Ret tt, w)
    | Some {| h_state := DoneCancelled |} => (Raise CancelledError, w)
    | Some _ =>
        if (timeout =? 0)%nat then (cancel tid;; raise TimeoutError) w
        else
          (start tid;;
           match env with
           | CancelledMeanwhile => cancel tid;; raise CancelledError
           | Undisturbed =>
               fun w1 =>
                 match awaited_run tid w1 with
                 | Some run =>
                     if (run_duration run <? timeout)%nat then finish tid w1
                     else (cancel tid;; raise TimeoutError) w1
                 | None => (Ret tt, w1)
                 end
           end) w
    end.

End Loop.

(** The methods of [TaskManager] that await or cancel a handle. *)
Module TaskManagerApi.
Import TaskManager.

(** The text of the timeout error (line 267). *)
Definition timeout_error (timeout : nat) : string :=
  "Task timed out after " +:+ Py.float_str timeout +:+ " seconds".

(** Lines 259-270: the [except asyncio.TimeoutError] clause. *)
Definition on_timeout (tid : string) (timeout : nat) : M bool :=
  (fun w =>
     match running_tasks w !! tid with
     | Some _ => Loop.cancel tid w
     | None => (Ret tt, w)
     end);;
  (fun w =>
     match tasks w !! tid with
     | Some _ =>
         (assign tid (with_status FAILED);;
          assign tid (with_error (Some (timeout_error timeout)));;
          assign_completed_at tid) w
     | None => (Ret tt, w)
     end);;
  ret false.

Definition wait_for_task (tid : string) (timeout : nat) (env : Loop.Interference)
    : M bool :=
  fun w =>
    match running_tasks w !! tid with
    | None => (Ret true, w)
    | Some _ =>
        try_except
          (Loop.wait_for tid timeout env;; ret true)
          (fun e =>
             match e with
             | TimeoutError => on_timeout tid timeout
             | _ => if is_Exception e then ret false else raise e
             end) w
    end.

Definition cancel_task (tid : string) : M bool :=
  fun w =>
    match running_tasks w !! tid with
    | Some _ => (Loop.cancel tid;; ret true) w
    | None => (Ret false, w)
    end.

Definition get_session_tasks (session : string) (w : World) : list Task :=
  filter (fun task => session_id task = session) (map snd (map_to_list (tasks w))).

(** [cleanup]: every handle of [running_tasks] is cancelled and then
    awaited with [return_exceptions=True]; [_background_tasks] is never
    added to, so its two loops do nothing.  The handles are those present
    when [cleanup] is called. *)
Definition cleanup : M unit :=
  fun w =>
    (Ret tt,
     fold_left (fun acc tid => snd (Loop.cancel tid acc))
       (map fst (map_to_list (running_tasks w))) w).

End TaskManagerApi.

(** ** main.py: [send_message] *)

Module Main.
Import TaskManager TaskManagerApi.

(** The dict returned under ["message"], and sent in [message_added]. *)
Record MessageDescriptor := {
  d_id : string;
  d_role : string;
  d_content : string;
  d_timestamp : string;
  d_tools_used : list string;
  d_task_id : option string
}.

Definition describe (m : ChatMessage) : MessageDescriptor :=
  {| d_id := msg_id m; d_role := role m; d_content := content m;
     d_timestamp := isoformat (timestamp m); d_tools_used := msg_tools_used m;
     d_task_id := msg_task_id m |}.

(** [ChatMessage(role=..., content=..., ...)]: the id and the timestamp come
    from the default factories. *)
Definition new_message (uuid role content : string) (tools : list string)
    (task : option string) : M ChatMessage :=
  now ← utcnow;
  ret {| msg_id := uuid; role := role; content := content; timestamp := now;
         msg_tools_used := tools; msg_task_id := task |}.

(** [session.messages.append(m)]. *)
Definition append_message (session : string) (m : ChatMessage) : M unit :=
  fun w =>
    (Ret tt,
     set_sessions
       (alter (fun s =>
          {| sess_id := sess_id s; name := name s; agent_type := agent_type s;
             model := model s; sess_status := sess_status s;
             sess_created_at := sess_created_at s; updated_at := updated_at s;
             config := config s; agent := agent s;
             messages := messages s ++ [m] |}) session (sessions w)) w).

(** Truthiness of an optional string. *)
Definition some_text (o : option string) : option string :=
  match o with
  | Some s => if Py.truthy s then Some s else None
  | None => None
  end.

(** Lines 142-154. *)
Definition response_content (success : bool) (completed_task : option Task) : string :=
  if negb success then "Task timed out after 2 minutes"
  else
    match completed_task with
    | Some task =>
        match some_text (error task) with
        | Some e => "Error: " +:+ e
        | None =>
            match some_text (final_response (metadata task)) with
            | Some text => text
            | None =>
                match some_text (initial_thinking (metadata task)) with
                | Some text => text
                | None => "Agent completed but no response generated"
                end
            end
        end
    | None => "Agent completed but no response generated"
    end.

(** Lines 159-188: the intermediate message built from the tool commands. *)
Definition send_thinking (session uuid : string) (completed_task : option Task)
    (tools_used_list : list string) : M unit :=
  match completed_task, tools_used_list with
  | Some task, _ :: _ =>
      match tool_commands (metadata task) with
      | [] => ret tt
      | commands =>
          thinking_message ←
            new_message uuid "assistant" (Py.join Py.nl (map snd commands)) [] None;
          append_message session thinking_message;;
          broadcast MainHub session (MessageAdded thinking_message true)
      end
  | _, _ => ret tt
  end.

(** Lines 139-234: the reply, once the wait has returned [success]. *)
Definition respond (session u_thinking u_reply tid : string) (success : bool)
    : M MessageDescriptor :=
  completed_task ← (fun w => (Ret (get_task tid w), w));
  let content := response_content success completed_task in
  let tools_used_list :=
    match completed_task with Some t => tools_used t | None => [] end in
  send_thinking session u_thinking completed_task tools_used_list;;
  assistant_message ←
    new_message u_reply "assistant" content tools_used_list
      (match completed_task, tools_used_list with
       | Some t, _ :: _ => Some (id t)
       | _, _ => None
       end);
  append_message session assistant_message;;
  broadcast MainHub session (MessageAdded assistant_message false);;
  match completed_task, tools_used_list with
  | Some t, _ :: _ => broadcast MainHub session (TaskCreated t)
  | _, _ => ret tt
  end;;
  ret (describe assistant_message).

(** [send_message(session_id, message)]; the four uuids are those of the
    user message, the task, the thinking message and the reply. *)
Definition send_message (session content : string)
    (u_user u_task u_thinking u_reply : string) (env : Loop.Interference)
    : M MessageDescriptor :=
  fun w =>
    match SessionManager.get_session session w with
    | None => (Raise (HTTPException 404 "Session not found"), w)
    | Some s =>
        (user_message ← new_message u_user "user" content [] None;
         append_message session user_message;;
         task ← create_task u_task session content (agent s);
         success ← wait_for_task (id task) 120 env;
         respond session u_thinking u_reply (id task) success) w
    end.

End Main.

(** ** models.py: [TaskResponse] *)

Record TaskResponse := {
  r_id : string;
  r_session_id : string;
  r_message : string;
  r_status : TaskStatus;
  r_created_at : string;
  r_started_at : option string;
  r_completed_at : option string;
  r_result : option string;
  r_error : option string;
  r_tools_used : list string;
  r_duration : option Z
}.

(** [TaskResponse.from_task]: a [datetime] is always truthy, so the tests of
    lines 152, 161 and 162 ask whether the field is set; the duration is the
    difference of the two clock readings. *)
Definition from_task (task : Task) : TaskResponse :=
  {| r_id := id task; r_session_id := session_id task; r_message := message task;
     r_status := status task; r_created_at := isoformat (created_at task);
     r_started_at := isoformat <$> started_at task;
     r_completed_at := isoformat <$> completed_at task;
     r_result := result task; r_error := error task;
     r_tools_used := tools_used task;
     r_duration :=
       match started_at task, completed_at task with
       | Some s, Some c => Some (Z.of_nat c - Z.of_nat s)%Z
       | _, _ => None
       end |}.

(** ** main.py: the other endpoints and the shutdown *)

Module Endpoints.
Import TaskManager TaskManagerApi.

(** Lines 258-264. *)
Definition list_session_tasks (session : string) (w : World) : list TaskResponse :=
  let tasks := get_session_tasks session w in
  let tool_tasks := filter (fun t => tools_used t ≠ []) tasks in
  map from_task tool_tasks.

(** Lines 267-273. *)
Definition get_task (tid : string) : M TaskResponse :=
  fun w =>
    match TaskManager.get_task tid w with
    | Some task => (Ret (from_task task), w)
    | None => (Raise (HTTPException 404 "Task not found"), w)
    end.

(** Lines 276-282. *)
Definition cancel_task (tid : string) : M string :=
  success ← TaskManagerApi.cancel_task tid;
  if success : bool then ret "Task cancelled successfully"
  else raise (HTTPException 404 "Task not found or already completed").

(** Lines 104-110. *)
Definition delete_session (session : string) : M string :=
  success ← SessionManager.delete_session session;
  if success : bool then ret "Session deleted successfully"
  else raise (HTTPException 404 "Session not found").

(** Lines 346-354: an observer is registered with the manager that
    [main.py] creates, and only for a session that exists. *)
Definition websocket_open (websocket : WebSocket) (session : string) : M unit :=
  fun w =>
    match SessionManager.get_session session w with
    | None =>
        match WebSocketManager.close websocket (net w) with
        | (o, net') => (o, set_net net' w)
        end
    | Some _ => hub_connect MainHub websocket session w
    end.

(** Lines 365-366: the clause for [WebSocketDisconnect]. *)
Definition websocket_closed (websocket : WebSocket) (session : string) : M unit :=
  hub_disconnect MainHub websocket session.

(** Lines 38-40: the shutdown half of [lifespan]. *)
Definition shutdown : M unit :=
  cleanup;;
  hub_disconnect_all MainHub.

(** An entry of the list of [list_available_models]. *)
Record ModelInfo := {
  model_id : string;
  model_name : string;
  provider : string
}.

(** Lines 320-329. *)
Definition common_models : list ModelInfo :=
  [ {| model_id := "openrouter/z-ai/glm-4.5-air:free"; model_name := "GLM-4.5-Air (Free)";
       provider := "openrouter" |};
    {| model_id := "gpt-4o"; model_name := "GPT-4 Optimized"; provider := "openai" |};
    {| model_id := "gpt-4o-mini"; model_name := "GPT-4o Mini"; provider := "openai" |};
    {| model_id := "claude-3-5-sonnet"; model_name := "Claude 3.5 Sonnet";
       provider := "anthropic" |};
    {| model_id := "claude-3-5-haiku"; model_name := "Claude 3.5 Haiku";
       provider := "anthropic" |};
    {| model_id := "deepseek-v3"; model_name := "DeepSeek V3"; provider := "deepseek" |};
    {| model_id := "alias0"; model_name := "Alias0"; provider := "alias" |};
    {| model_id := "qwen2.5:14b"; model_name := "Qwen 2.5 14B"; provider := "ollama" |} ].

(** [s.split(sep)[-1]] for a one-character separator, with [acc] the text
    read since the last separator. *)
Fixpoint last_segment_from (acc : string) (sep : ascii) (s : string) : string :=
  match s with
  | EmptyString => acc
  | String c rest =>
      if Ascii.eqb c sep then last_segment_from "" sep rest
      else last_segment_from (acc +:+ String c EmptyString) sep rest
  end.

Definition last_segment (sep : ascii) (s : string) : string :=
  last_segment_from "" sep s.

(** Lines 312-342; [cai_model] is the environment variable [CAI_MODEL]. *)
Definition list_available_models (cai_model : option string) : list ModelInfo * string :=
  let current_model := default "openrouter/z-ai/glm-4.5-air:free" cai_model in
  let models :=
    if bool_decide (current_model ∈ map model_id common_models) then common_models
    else
      {| model_id := current_model;
         model_name :=
           if Py.contains "/" current_model then last_segment "/" current_model
           else current_model;
         provider := "custom" |} :: common_models in
  (models, current_model).

End Endpoints.

(** * Vocabulary of the properties *)

(** How many times the connection [i] is registered in a bucket. *)
Definition registrations (i : nat) (observers : list WebSocket) : nat :=
  length (filter (fun ws => ws_id ws = i) observers).

(** A peer after [k] sends of [data]: a peer that is gone receives nothing. *)
Definition deliver (k : nat) (data : Payload) (p : Peer) : Peer :=
  if peer_closed p then p
  else {| peer_closed := false; peer_received := peer_received p ++ replicate k data |}.

(** The entries of lines 175-182 when the first one reads the clock at [c]. *)
Fixpoint tool_log_entries (c : nat) (tools : list string) : list LogEntry :=
  match tools with
  | [] => []
  | tool_name :: rest =>
      LogToolExecuted tool_name (isoformat c) :: tool_log_entries (S c) rest
  end.

(** The loop's variables for a run, and what lines 136-156 make of them. *)
Definition extracted (result : RunResult) : Extract.Locals :=
  Extract.process_items (new_items result).

Definition extracted_tools (result : RunResult) : list string :=
  Py.list_set (Extract.seen_tools (extracted result)).

Definition extracted_result (result : RunResult) : string :=
  Extract.task_result (Extract.seen_outputs (extracted result)) (extracted_tools result)
    (Extract.final_message (extracted result)) (Extract.initial_message (extracted result)).

(** The task object after lines 62-201, entered with the clock at [c]. *)
Definition succeeded (c : nat) (result : RunResult) (t : Task) : Task :=
  with_token_usage (Extract.extract_usage (token_usage t) (raw_responses result))
    (with_logs (tool_log_entries (S c) (extracted_tools result))
       (with_tools_used (extracted_tools result)
          (with_completed_at (Some c)
             (with_status COMPLETED
                (with_metadata (Extract.build_metadata (extracted result))
                   (with_result (Some (extracted_result result)) t)))))).

(** The task object after lines 203-205. *)
Definition cancelled (t : Task) : Task :=
  with_error (Some "Task was cancelled") (with_status CANCELLED t).

(** The task object after lines 207-215, entered with the clock at [c]. *)
Definition failed (c : nat) (e : PyExn) (t : Task) : Task :=
  with_logs (logs t ++ [LogError (exn_str e) (exn_traceback e) (isoformat c)])
    (with_error (Some (exn_str e)) (with_status FAILED t)).

(** The task object after lines 264-268, entered with the clock at [c]. *)
Definition timed_out (c : nat) (timeout : nat) (t : Task) : Task :=
  with_completed_at (Some c)
    (with_error (Some (TaskManagerApi.timeout_error timeout)) (with_status FAILED t)).

(** The task object after lines 52-53, entered with the clock at [c]. *)
Definition started (c : nat) (t : Task) : Task :=
  with_started_at (Some c) (with_status RUNNING t).

(** A world in which the task object [tid] has become [t'] and the observers
    of the global hub were sent it: the clock stands at [c'], the handles are
    [handles], and [evs] was recorded. *)
Definition updated (tid : string) (t' : Task) (c' : nat) (handles : gmap string Handle)
    (evs : list Event) (w : World) : World :=
  {| clock := c'; sessions := sessions w; tasks := <[tid := t']> (tasks w);
     running_tasks := handles;
     global_connections := global_connections w;
     main_connections := main_connections w;
     net := snd (WebSocketManager.broadcast_to_session (global_connections w)
                   (session_id t') (TaskUpdate t') (net w));
     journal := journal w ++ evs |}.

(** The world after the [finally] block has left the task object as [t']. *)
Definition exited (tid : string) (t' : Task) (c' : nat) (evs : list Event) (w : World)
    : World :=
  updated tid t' c' (delete tid (running_tasks w)) evs w.

(** The terminal-state notifications of a task in a journal, and the
    assignments to its [completed_at]. *)
Definition is_terminal_update (tid : string) (ev : Event) : bool :=
  match ev with
  | EvBroadcast _ _ (TaskUpdate task) => String.eqb (id task) tid && terminal (status task)
  | _ => false
  end.

Definition terminal_updates (tid : string) (evs : list Event) : list Event :=
  List.filter (is_terminal_update tid) evs.

Definition is_completed_at_write (tid : string) (ev : Event) : bool :=
  match ev with
  | EvCompletedAt task _ => String.eqb task tid
  | _ => false
  end.

Definition completed_at_writes (tid : string) (evs : list Event) : nat :=
  length (List.filter (is_completed_at_write tid) evs).

(** The state in which each way out leaves the task. *)
Definition exit_status (resumed : Outcome RunResult) : TaskStatus :=
  match resumed with
  | Ret _ => COMPLETED
  | Raise CancelledError => CANCELLED
  | Raise _ => FAILED
  end.

(** ** The backend as a transition system

    A step is what runs between two points at which another coroutine can
    run: creating a task, the first step of an execution, its resumption when
    the awaited run ends, the delivery of a cancellation, the timeout clause
    of [wait_for_task], or anything that touches neither the tasks nor their
    handles (session and observer bookkeeping, messages, broadcasts). *)
Inductive step : World → World → Prop :=
| step_create_task uuid session message agent w :
    tasks w !! uuid = None →
    step w (snd (TaskManager.create_task uuid session message agent w))
| step_start tid w : step w (snd (Loop.start tid w))
| step_finish tid w : step w (snd (Loop.finish tid w))
| step_cancel tid w : step w (snd (Loop.cancel tid w))
| step_timeout tid timeout w : step w (snd (TaskManagerApi.on_timeout tid timeout w))
| step_elsewhere w w' :
    tasks w' = tasks w → running_tasks w' = running_tasks w → step w w'.

Definition reachable (w : World) : Prop := rtc step world_init w.

(** [completed_at] is set exactly in the terminal states. *)
Definition task_ok (t : Task) : Prop :=
  is_Some (completed_at t) ↔ terminal (status t) = true.

(** A handle belongs to a task, and a coroutine that has not started belongs
    to a task still [PENDING]. *)
Definition handle_ok (w : World) (tid : string) (h : Handle) : Prop :=
  ∃ t, tasks w !! tid = Some t
       ∧ (h_state h = Scheduled → status t = PENDING ∧ completed_at t = None).

(** A task is [RUNNING] only while its coroutine is suspended in the run. *)
Definition running_ok (w : World) (tid : string) (t : Task) : Prop :=
  status t = RUNNING →
  ∃ a, running_tasks w !! tid = Some {| h_state := AwaitingRun; h_agent := a |}.

Record Inv (w : World) : Prop := {
  inv_tasks : ∀ tid t, tasks w !! tid = Some t → task_ok t;
  inv_handles : ∀ tid h, running_tasks w !! tid = Some h → handle_ok w tid h;
  inv_running : ∀ tid t, tasks w !! tid = Some t → running_ok w tid t
}.

(** ** Further vocabulary *)

(** No bucket of a connection map is empty. *)
Definition buckets_ok (connections : gmap string (list WebSocket)) : Prop :=
  ∀ session observers, connections !! session = Some observers → observers ≠ [].

(** A peer after its connection was closed from this side. *)
Definition closed_peer (p : Peer) : Peer :=
  {| peer_closed := true; peer_received := peer_received p |}.

(** The keys of an insertion-ordered dict. *)
Definition dict_keys (d : list (string * string)) : list string := map fst d.

(** The sum of one counter over the responses that report a usage. *)
Definition usage_total (f : TokenUsage → Z) (responses : list Response) : Z :=
  foldr (fun r acc => (from_option f 0 (usage r) + acc)%Z) 0%Z responses.

(** The payloads of [task_update] events. *)
Definition is_task_update (data : Payload) : bool :=
  match data with
  | TaskUpdate _ => true
  | _ => false
  end.

(** Two facts the extraction loop keeps.  The keys of [tool_commands] are the tools seen so far, each once. *)
Definition commands_ok (l : Extract.Locals) : Prop :=
  NoDup (dict_keys (Extract.seen_commands l))
  ∧ ∀ k, k ∈ dict_keys (Extract.seen_commands l) ↔ k ∈ Extract.seen_tools l.

(** A final message comes after an initial one and differs from it. *)
Definition messages_ok (l : Extract.Locals) : Prop :=
  Extract.final_message l ≠ "" →
  Extract.initial_message l ≠ "" ∧ Extract.final_message l ≠ Extract.initial_message l.

(** The steps of the task manager alone. *)
Inductive task_step : World → World → Prop :=
| task_step_create uuid session message agent w :
    tasks w !! uuid = None →
    task_step w (snd (TaskManager.create_task uuid session message agent w))
| task_step_start tid w : task_step w (snd (Loop.start tid w))
| task_step_finish tid w : task_step w (snd (Loop.finish tid w))
| task_step_cancel tid w : task_step w (snd (Loop.cancel tid w))
| task_step_timeout tid timeout w :
    task_step w (snd (TaskManagerApi.on_timeout tid timeout w)).

(** What a task is known by: the fields no step assigns. *)
Definition same_identity (t t' : Task) : Prop :=
  id t' = id t ∧ session_id t' = session_id t ∧ message t' = message t
  ∧ created_at t' = created_at t.

(** An operation keeps a relation between the world it starts in and the
    world it leaves, whether it returns or raises. *)
Definition preserves {A} (R : World → World → Prop) (m : M A) : Prop :=
  ∀ w, R w (snd (m w)).

(** An assignment to one of the fields that do not identify the task. *)
Definition field_update (f : Task → Task) : Prop := ∀ t, same_identity t (f t).

(** The relations that are followed through the operations: the tasks that
    exist keep existing under the same identity; the sessions and the two
    maps of connections are not touched; and, while the module-level
    manager has no connection, nothing is sent. *)
Definition identity_kept (w w' : World) : Prop :=
  ∀ tid t, tasks w !! tid = Some t →
           ∃ t', tasks w' !! tid = Some t' ∧ same_identity t t'.

Definition registry_kept (w w' : World) : Prop :=
  sessions w' = sessions w
  ∧ global_connections w' = global_connections w
  ∧ main_connections w' = main_connections w.

Definition silent (w w' : World) : Prop :=
  global_connections w' = global_connections w
  ∧ (global_connections w = ∅ → net w' = net w).

(** No task appears: every task of [w'] was a task of [w]. *)
Definition born_before (w w' : World) : Prop :=
  ∀ tid t', tasks w' !! tid = Some t' →
            ∃ t, tasks w !! tid = Some t ∧ same_identity t t'.

(** An execution suspended in its run belongs to a task that is [RUNNING]. *)
Definition suspended_ok (w : World) : Prop :=
  ∀ tid a, running_tasks w !! tid = Some {| h_state := AwaitingRun; h_agent := a |} →
           ∃ t, tasks w !! tid = Some t ∧ status t = RUNNING.

(** The session with [ms] appended to its messages. *)
Definition add_messages (ms : list ChatMessage) (s : Session) : Session :=
  {| sess_id := sess_id s; name := name s; agent_type := agent_type s;
     model := model s; sess_status := sess_status s;
     sess_created_at := sess_created_at s; updated_at := updated_at s;
     config := config s; agent := agent s;
     messages := messages s ++ ms |}.

(** Between [w] and [w'] the log of [session] has grown by [ms], and the
    other sessions are as they were. *)
Definition log_extended (session : string) (ms : list ChatMessage) (w w' : World) : Prop :=
  sessions w' !! session = add_messages ms <$> sessions w !! session
  ∧ ∀ other, other ≠ session → sessions w' !! other = sessions w !! other.

(** Between [n] and [n'] every peer kept what it had received and was sent
    only payloads that satisfy [ok], and no peer appeared or disappeared. *)
Definition sent_only (ok : Payload → bool) (n n' : Net) : Prop :=
  ∀ i, ∃ extra,
    peer_received <$> n' !! i = (fun p => peer_received p ++ extra) <$> n !! i
    ∧ forallb ok extra = true.

(** The world of [send_message] once the user's message is in the log
    (lines 121-128). *)
Definition user_message_added (session content u_user : string) (w : World) : World :=
  snd ((user_message ← Main.new_message u_user "user" content [] None;
        Main.append_message session user_message) w).

(** A world in which no coroutine is suspended in a run. *)
Definition nothing_running (w : World) : Prop :=
  (∀ tid t, tasks w !! tid = Some t → status t ≠ RUNNING)
  ∧ (∀ tid h, running_tasks w !! tid = Some h → h_state h = DoneCancelled).

(** ** Sample data *)

Module Sample.

Definition message_item (text : string) : Item :=
  {| item_type := Some "message_output_item"; item_tool_name := None;
     item_raw := Some {| raw_tool_calls := None; raw_name := None;
                         raw_content := Some [ {| c_text := Some text; c_content := None;
                                                  c_str := "" |} ] |};
     item_output := None |}.

Definition tool_item (tool : string) : Item :=
  {| item_type := Some "tool_call_item"; item_tool_name := None;
     item_raw := Some {| raw_tool_calls := None; raw_name := Some tool;
                         raw_content := None |};
     item_output := None |}.

Definition output_item (out : string) : Item :=
  {| item_type := Some "tool_call_output_item"; item_tool_name := None;
     item_raw := None; item_output := Some out |}.

(** An agent that answers at once, one that uses a tool twice, and one that
    needs longer than the two minutes [send_message] waits. *)
Definition echo : Agent := fun _ =>
  {| run_duration := 3;
     run_outcome := Ret {| new_items := [message_item "hi there"]; raw_responses := [] |} |}.

Definition scanner : Agent := fun _ =>
  {| run_duration := 3;
     run_outcome :=
       Ret {| new_items := [tool_item "nmap"; output_item "22/tcp open";
                            tool_item "nmap"; message_item "done"];
              raw_responses := [] |} |}.

Definition slow : Agent := fun _ =>
  {| run_duration := 500;
     run_outcome := Ret {| new_items := [message_item "hi there"]; raw_responses := [] |} |}.

(** A world with one session, and the worlds after a task was created in it. *)
Definition with_session (a : Agent) : World :=
  snd (SessionManager.create_session "s1" "echo" "m1" "demo" [] (Ret a) world_init).

Definition with_task (a : Agent) : World :=
  snd (TaskManager.create_task "t1" "s1" "hello" a (with_session a)).

End Sample.

(** * Properties *)

(** Reduce the projections and setters of a world given by its fields. *)
Ltac world_simpl :=
  unfold exited, updated, set_net, set_clock, set_journal, set_tasks,
    set_running_tasks, set_sessions in *;
  cbn [clock sessions tasks running_tasks global_connections main_connections
       net journal fst snd] in *.


(** ** Sessions *)

Section Sessions.
Import SessionManager.

(** C7: [delete_session] answers whether the session existed; after it the
    session is absent, and deleting again answers [false]. *)
Theorem delete_session_idempotent (session : string) (w : World) :
  let r := delete_session session w in
  fst r = Ret (bool_decide (is_Some (get_session session w)))
  ∧ get_session session (snd r) = None
  ∧ fst (delete_session session (snd r)) = Ret false.
Proof.
  cbv zeta. unfold delete_session, get_session.
  destruct (sessions w !! session) as [s|] eqn:E; simpl.
  - rewrite lookup_delete_eq. auto.
  - rewrite E. auto.
Qed.

(** A created session is found until it is deleted. *)
Lemma create_then_get uuid agent_type model name config a w :
  let r := create_session uuid agent_type model name config (Ret a) w in
  ∃ s, fst r = Ret s ∧ sess_id s = uuid ∧ get_session uuid (snd r) = Some s.
Proof.
  cbv zeta. eexists. unfold create_session, get_session, bind, utcnow; simpl.
  split; [reflexivity|]. split; [reflexivity|]. apply lookup_insert_eq.
Qed.

End Sessions.

(** ** Observers *)

Section Observers.
Import WebSocketManager.

Lemma list_remove_None ws (l : list WebSocket) : ws ∉ l → list_remove ws l = None.
Proof.
  induction l as [|y l IH]; intros Hn; simpl; [reflexivity|].
  destruct (decide (ws = y)) as [->|Hne].
  - exfalso. apply Hn. left.
  - rewrite IH; [reflexivity|]. intros Hin. apply Hn. by right.
Qed.

Lemma list_remove_Some ws (l : list WebSocket) : ws ∈ l → is_Some (list_remove ws l).
Proof.
  induction l as [|y l IH]; intros Hin; simpl.
  - by apply elem_of_nil in Hin.
  - destruct (decide (ws = y)); [eauto|].
    apply elem_of_cons in Hin as [?|Hin]; [done|].
    destruct (IH Hin) as [r ->]. eauto.
Qed.

(** C10: with a bucket for the session, disconnecting an observer that is
    not in it raises ([list.remove]) and changes nothing; without a bucket,
    [disconnect] returns and changes nothing. *)
Theorem disconnect_unregistered (ws : WebSocket) (session : string)
    (connections : Connections) :
  (∀ observers, connections !! session = Some observers → ws ∉ observers →
     ∃ text, disconnect ws session connections = (Raise (ValueError text), connections))
  ∧ (connections !! session = None →
     disconnect ws session connections = (Ret tt, connections)).
Proof.
  unfold disconnect. split.
  - intros observers -> Hn. rewrite (list_remove_None _ _ Hn). eauto.
  - intros ->. reflexivity.
Qed.

Lemma disconnect_unregistered_witness :
  let connections : Connections := {[ "s1" := [ {| ws_id := 1 |} ] ]} in
  (∃ text, disconnect {| ws_id := 2 |} "s1" connections
           = (Raise (ValueError text), connections))
  ∧ disconnect {| ws_id := 2 |} "s2" connections = (Ret tt, connections).
Proof.
  intros connections.
  destruct (disconnect_unregistered {| ws_id := 2 |} "s1" connections) as [H1 _].
  destruct (disconnect_unregistered {| ws_id := 2 |} "s2" connections) as [_ H2].
  split.
  - apply (H1 [ {| ws_id := 1 |} ]); [reflexivity|].
    intros Hin. apply list_elem_of_singleton in Hin. discriminate.
  - apply H2. reflexivity.
Defined.

(** A registered observer is removed without an error. *)
Lemma disconnect_registered ws session (connections : Connections) observers :
  connections !! session = Some observers → ws ∈ observers →
  fst (disconnect ws session connections) = Ret tt.
Proof.
  intros E Hin. unfold disconnect. rewrite E.
  destruct (list_remove_Some _ _ Hin) as [r ->]. by destruct r.
Qed.

End Observers.

(** ** Broadcast *)

Section Broadcast.
Import WebSocketManager.

Lemma deliver_zero data p : deliver 0 data p = p.
Proof.
  unfold deliver. destruct p as [[] r]; simpl; [reflexivity|].
  by rewrite app_nil_r.
Qed.

Lemma send_lookup ws data (net : Net) i :
  snd (_send_to_websocket ws data net) !! i
  = (if decide (ws_id ws = i) then deliver 1 data else (fun p => p)) <$> net !! i.
Proof.
  unfold _send_to_websocket, try_except, send_json.
  destruct (net !! ws_id ws) as [p|] eqn:E.
  - destruct (peer_closed p) eqn:C; simpl.
    + case_decide; subst; [|by destruct (net !! i)].
      rewrite E. simpl. unfold deliver. by rewrite C.
    + case_decide; subst.
      * rewrite lookup_insert_eq, E. simpl. unfold deliver. by rewrite C.
      * rewrite lookup_insert_ne by done. by destruct (net !! i).
  - simpl. case_decide; subst; [by rewrite E|by destruct (net !! i)].
Qed.

Lemma deliver_succ k data p : deliver k data (deliver 1 data p) = deliver (S k) data p.
Proof.
  unfold deliver. destruct (peer_closed p) eqn:C; simpl; [by rewrite C|].
  by rewrite <- app_assoc.
Qed.

(** Every registered send is made, whatever the other sends do. *)
Lemma gather_sends data (observers : list WebSocket) (net : Net) :
  let r := gather (map (fun ws => _send_to_websocket ws data) observers) net in
  fst r = Ret tt
  ∧ ∀ i, snd r !! i = deliver (registrations i observers) data <$> net !! i.
Proof.
  cbv zeta. revert net.
  induction observers as [|ws l IH]; intros net0; simpl.
  - split; [reflexivity|]. intros i. unfold registrations. simpl.
    destruct (net0 !! i) as [p|]; simpl; [|reflexivity]. by rewrite deliver_zero.
  - destruct (IH (snd (_send_to_websocket ws data net0))) as [IH1 IH2].
    split; [exact IH1|]. intros i. rewrite IH2, send_lookup.
    unfold registrations. rewrite filter_cons.
    destruct (net0 !! i) as [p|]; simpl; [|reflexivity].
    case_decide; simpl; [|reflexivity]. by rewrite deliver_succ.
Qed.

(** C6: [broadcast_to_session] never raises; every observer of the session
    whose connection is alive is sent the payload (once per registration),
    whether or not the sends to the other observers fail; and for a session
    without observers nothing is sent. *)
Theorem broadcast_isolates_failures (connections : Connections) (session : string)
    (data : Payload) (net0 : Net) :
  let r := broadcast_to_session connections session data net0 in
  fst r = Ret tt
  ∧ (∀ observers ws p,
       connections !! session = Some observers → ws ∈ observers →
       net0 !! ws_id ws = Some p → peer_closed p = false →
       (1 ≤ registrations (ws_id ws) observers)%nat
       ∧ snd r !! ws_id ws
         = Some {| peer_closed := false;
                   peer_received :=
                     peer_received p ++ replicate (registrations (ws_id ws) observers) data |})
  ∧ (default [] (connections !! session) = [] → snd r = net0).
Proof.
  cbv zeta. unfold broadcast_to_session.
  destruct (connections !! session) as [observers|] eqn:E; simpl.
  - assert (G := gather_sends data observers net0). cbv zeta in G.
    destruct observers as [|ws0 l].
    + simpl. split; [reflexivity|]. split; [|reflexivity].
      intros ? ? ? [= <-] Hin. by apply elem_of_nil in Hin.
    + remember (ws0 :: l) as obs. destruct G as [G1 G2].
      assert (Hm : match map (fun ws => _send_to_websocket ws data) obs with
                   | [] => ret tt
                   | _ :: _ => gather (map (fun ws => _send_to_websocket ws data) obs)
                   end net0 = gather (map (fun ws => _send_to_websocket ws data) obs) net0).
      { subst obs. reflexivity. }
      rewrite Hm. split; [exact G1|]. split; [|subst; discriminate].
      intros observers ws p [= <-] Hin Hp Hopen. split.
      * unfold registrations.
        assert (ws ∈ filter (fun x => ws_id x = ws_id ws) obs) as Hf
          by (apply list_elem_of_filter; auto).
        destruct (filter _ obs); [by apply elem_of_nil in Hf|simpl; lia].
      * rewrite G2, Hp. simpl. unfold deliver. by rewrite Hopen.
  - split; [reflexivity|]. split; [|reflexivity]. intros; discriminate.
Qed.

Lemma broadcast_isolates_failures_witness :
  let connections : Connections :=
    {[ "s1" := [ {| ws_id := 1 |}; {| ws_id := 2 |} ] ]} in
  let net0 : Net :=
    {[ 1 := {| peer_closed := true; peer_received := [] |};
       2 := {| peer_closed := false; peer_received := [] |} ]} in
  snd (broadcast_to_session connections "s1" (Connected "s1") net0) !! 2
  = Some {| peer_closed := false; peer_received := [Connected "s1"] |}
  ∧ snd (broadcast_to_session connections "s2" (Connected "s2") net0) = net0.
Proof.
  intros connections net0.
  destruct (broadcast_isolates_failures connections "s1" (Connected "s1") net0)
    as (_ & H & _).
  destruct (broadcast_isolates_failures connections "s2" (Connected "s2") net0)
    as (_ & _ & H').
  split.
  - refine (proj2 (H [ {| ws_id := 1 |}; {| ws_id := 2 |} ] {| ws_id := 2 |}
                     {| peer_closed := false; peer_received := [] |} _ _ _ _)).
    + reflexivity.
    + apply list_elem_of_In. simpl. auto.
    + reflexivity.
    + reflexivity.
  - apply H'. reflexivity.
Defined.

End Broadcast.

(** ** The segments of [_execute_task] *)

Arguments Py.list_set : simpl never.
Arguments Extract.process_items : simpl never.
Arguments Extract.task_result : simpl never.
Arguments Extract.extract_usage : simpl never.
Arguments isoformat : simpl never.
Arguments TaskManagerApi.timeout_error : simpl never.

Section Segments.
Import TaskManager.


Lemma alter_known {A} (f : A → A) (m : gmap string A) i x :
  m !! i = Some x → alter f i m = <[i := f x]> m.
Proof.
  intros E. apply map_eq. intros j. destruct (decide (i = j)) as [<-|Hne].
  - by rewrite lookup_alter_eq, lookup_insert_eq, E.
  - by rewrite lookup_alter_ne, lookup_insert_ne.
Qed.

Lemma broadcast_returns (connections : gmap string (list WebSocket)) session data
    (net0 : Net) :
  fst (WebSocketManager.broadcast_to_session connections session data net0) = Ret tt.
Proof.
  unfold WebSocketManager.broadcast_to_session.
  destruct (connections !! session) as [[|ws l]|]; try reflexivity.
  apply (gather_sends data (ws :: l) net0).
Qed.

Lemma tool_logs_eq tools w :
  tool_logs tools w
  = (Ret (tool_log_entries (clock w) tools), set_clock (clock w + length tools) w).
Proof.
  revert w. induction tools as [|x tools IH]; intros w; simpl.
  - unfold ret. destruct w; unfold set_clock; simpl. do 2 f_equal. lia.
  - unfold bind at 1. simpl. unfold bind at 1. rewrite IH. unfold ret. simpl.
    f_equal. destruct w; unfold set_clock; simpl. f_equal. lia.
Qed.

Lemma exec_success_eq tid result w :
  exec_success tid result w
  = (Ret tt,
     set_clock (S (clock w) + length (extracted_tools result))
       (set_journal (journal w ++ [EvCompletedAt tid (clock w)])
          (set_tasks (alter (succeeded (clock w) result) tid (tasks w)) w))).
Proof.
  unfold exec_success. fold (extracted result). fold (extracted_tools result).
  fold (extracted_result result).
  cbv [assign_completed_at assign utcnow bind]. rewrite tool_logs_eq.
  destruct w as [c ss ts rs gc mc n j].
  cbv [set_clock set_journal set_tasks clock sessions tasks running_tasks
       global_connections main_connections net journal].
  f_equal. f_equal. rewrite !alter_alter_eq. reflexivity.
Qed.

Lemma notify_eq tid w t :
  tasks w !! tid = Some t →
  _notify_task_update tid w
  = (Ret tt,
     set_net (snd (WebSocketManager.broadcast_to_session (global_connections w)
                     (session_id t) (TaskUpdate t) (net w)))
       (set_journal (journal w ++ [EvBroadcast GlobalHub (session_id t) (TaskUpdate t)]) w)).
Proof.
  intros E. unfold _notify_task_update, broadcast. rewrite E.
  cbv [connections_of].
  pose proof (broadcast_returns (global_connections w) (session_id t) (TaskUpdate t) (net w)) as R.
  destruct (WebSocketManager.broadcast_to_session _ _ _ _) as [o n']. simpl in R. subst o.
  reflexivity.
Qed.

Lemma exec_prologue_eq tid w t :
  tasks w !! tid = Some t →
  exec_prologue tid w
  = (Ret tt,
     updated tid (started (clock w) t) (S (clock w)) (running_tasks w)
       [EvBroadcast GlobalHub (session_id t) (TaskUpdate (started (clock w) t))] w).
Proof.
  destruct w as [c ss ts rs gc mc n j]. world_simpl. intros E.
  unfold exec_prologue. cbv [assign utcnow bind]. world_simpl.
  rewrite alter_alter_eq, (alter_known _ _ _ _ E).
  erewrite notify_eq by (world_simpl; apply lookup_insert_eq).
  reflexivity.
Qed.

Lemma finalization_eq tid w t :
  tasks w !! tid = Some t →
  finalization tid w
  = (Ret tt,
     exited tid (with_completed_at (Some (clock w)) t) (S (clock w))
       [EvCompletedAt tid (clock w);
        EvBroadcast GlobalHub (session_id t)
          (TaskUpdate (with_completed_at (Some (clock w)) t))] w).
Proof.
  destruct w as [c ss ts rs gc mc n j]. world_simpl. intros E.
  unfold finalization. cbv [assign_completed_at assign utcnow bind]. world_simpl.
  rewrite (alter_known _ _ _ _ E).
  erewrite notify_eq by (world_simpl; apply lookup_insert_eq).
  world_simpl. by rewrite <- app_assoc.
Qed.

(** The three ways out of [_execute_task] once it is suspended in
    [Runner.run]: all of them end in the [finally] block. *)
Lemma exec_resume_returned tid result w t :
  tasks w !! tid = Some t →
  let c := clock w in
  let c2 := S c + length (extracted_tools result) in
  let t' := with_completed_at (Some c2) (succeeded c result t) in
  exec_resume tid (Ret result) w
  = (Ret tt,
     exited tid t' (S c2)
       [EvCompletedAt tid c; EvCompletedAt tid c2;
        EvBroadcast GlobalHub (session_id t) (TaskUpdate t')] w).
Proof.
  destruct w as [c ss ts rs gc mc n j]. world_simpl. intros E.
  unfold exec_resume, try_finally, try_except.
  cbv [bind]. rewrite exec_success_eq. world_simpl.
  rewrite (alter_known _ _ _ _ E).
  erewrite finalization_eq by (world_simpl; apply lookup_insert_eq).
  world_simpl. rewrite insert_insert_eq, <- app_assoc. reflexivity.
Qed.

Lemma exec_resume_raised tid e w t :
  tasks w !! tid = Some t → is_Exception e = true →
  let c := clock w in
  let t' := with_completed_at (Some (S c)) (failed c e t) in
  exec_resume tid (Raise e) w
  = (Ret tt,
     exited tid t' (S (S c))
       [EvCompletedAt tid (S c); EvBroadcast GlobalHub (session_id t) (TaskUpdate t')] w).
Proof.
  destruct w as [c ss ts rs gc mc n j]. world_simpl. intros E He.
  unfold exec_resume, try_finally, try_except.
  cbv [bind]. unfold exec_handler.
  assert (Hh : (match e with
                | CancelledError => on_cancelled tid
                | _ => if is_Exception e then on_exception tid e else raise e
                end) = on_exception tid e) by (destruct e; try reflexivity; discriminate).
  rewrite Hh. unfold on_exception. cbv [assign utcnow bind]. world_simpl.
  rewrite !alter_alter_eq, (alter_known _ _ _ _ E).
  erewrite finalization_eq by (world_simpl; apply lookup_insert_eq).
  world_simpl. rewrite insert_insert_eq. reflexivity.
Qed.

Lemma exec_resume_cancelled tid w t :
  tasks w !! tid = Some t →
  let c := clock w in
  let t' := with_completed_at (Some c) (cancelled t) in
  exec_resume tid (Raise CancelledError) w
  = (Raise CancelledError,
     exited tid t' (S c)
       [EvCompletedAt tid c; EvBroadcast GlobalHub (session_id t) (TaskUpdate t')] w).
Proof.
  destruct w as [c ss ts rs gc mc n j]. world_simpl. intros E.
  unfold exec_resume, try_finally, try_except.
  cbv [bind exec_handler on_cancelled assign raise]. world_simpl.
  rewrite !alter_alter_eq, (alter_known _ _ _ _ E).
  erewrite finalization_eq by (world_simpl; apply lookup_insert_eq).
  world_simpl. rewrite insert_insert_eq. reflexivity.
Qed.

(** [_execute_task] is its first step followed by the resumption. *)
Lemma execute_task_split tid (resumed : Outcome RunResult) w t :
  tasks w !! tid = Some t →
  _execute_task tid (fun w' => (resumed, w')) w
  = exec_resume tid resumed (snd (exec_prologue tid w)).
Proof.
  intros E. unfold _execute_task, exec_resume, try_finally, try_except.
  cbv [bind]. rewrite (exec_prologue_eq _ _ _ E). reflexivity.
Qed.

End Segments.

(** ** What a successful run leaves in the task *)

Section Extraction.
Import TaskManager.

Lemma prefix_app (a b s : string) :
  String.prefix (a +:+ b) s = true → String.prefix a s = true.
Proof.
  revert s. induction a as [|c a IH]; intros s; [by destruct s|].
  change (String c a +:+ b) with (String c (a +:+ b)).
  destruct s as [|d s]; simpl; [discriminate|].
  destruct (Ascii.ascii_dec c d); [apply IH|discriminate].
Qed.

Lemma contains_app (a b s : string) :
  Py.contains (a +:+ b) s = true → Py.contains a s = true.
Proof.
  induction s as [|d s IH]; cbn [Py.contains].
  - rewrite !orb_false_r. apply prefix_app.
  - intros H. apply orb_true_iff in H as [H|H]; apply orb_true_iff.
    + left. exact (prefix_app _ _ _ H).
    + right. exact (IH H).
Qed.

(** The test of line 77 holds whenever the test of line 130 does, so the
    loop never reaches lines 131-133. *)
Lemma process_item_outputs l item :
  Extract.seen_outputs (Extract.process_item l item) = Extract.seen_outputs l.
Proof.
  unfold Extract.process_item. destruct (item_type item) as [ty|]; [|reflexivity].
  cbv zeta. destruct (Py.contains "tool_call" (Py.lower ty)) eqn:C1.
  - unfold Extract.record_tool. destruct (Extract.resolve_tool item) as [[n|] a]; [|reflexivity].
    destruct (Py.truthy n); reflexivity.
  - destruct (Py.contains "message_output" (Py.lower ty) || Py.contains "message" (Py.lower ty)).
    + unfold Extract.record_message. destruct (item_raw item) as [raw|]; [|reflexivity].
      destruct (raw_content raw) as [[|ci ?]|]; try reflexivity.
      destruct (negb _ && _); [reflexivity|]. destruct (_ && _); reflexivity.
    + destruct (Py.contains "tool_call_output" (Py.lower ty)) eqn:C2; [|reflexivity].
      apply (contains_app "tool_call" "_output") in C2. congruence.
Qed.

Lemma tool_outputs_never_recorded (items : list Item) :
  Extract.seen_outputs (Extract.process_items items) = [].
Proof.
  unfold Extract.process_items.
  assert (G : ∀ l, Extract.seen_outputs (fold_left Extract.process_item items l)
                   = Extract.seen_outputs l).
  { induction items as [|item items IH]; intros l; simpl; [reflexivity|].
    rewrite IH. apply process_item_outputs. }
  rewrite G. reflexivity.
Qed.

(** Hence the result of a run is chosen from the tool names and the
    messages only. *)
Lemma result_without_outputs (run_result : RunResult) :
  extracted_result run_result
  = Extract.task_result [] (extracted_tools run_result)
      (Extract.final_message (extracted run_result))
      (Extract.initial_message (extracted run_result)).
Proof.
  unfold extracted_result, extracted. by rewrite tool_outputs_never_recorded.
Qed.

(** A run that calls a tool twice, with an output in between: the output is
    not kept, and the result names the tool once. *)
Lemma scanner_result :
  extracted_result
    {| new_items := [Sample.tool_item "nmap"; Sample.output_item "22/tcp open";
                     Sample.tool_item "nmap"; Sample.message_item "done"];
       raw_responses := [] |}
  = "Executed tools: nmap".
Proof. vm_compute. reflexivity. Qed.

Lemma task_result_priority (outputs tools : list string) (final initial : string) :
  let r := Extract.task_result outputs tools final initial in
  (outputs ≠ [] → r = Py.join (Py.nl +:+ Py.nl) outputs)
  ∧ (outputs = [] → tools ≠ [] → r = "Executed tools: " +:+ Py.join ", " tools)
  ∧ (outputs = [] → tools = [] → final ≠ "" → r = final)
  ∧ (outputs = [] → tools = [] → final = "" → initial ≠ "" → r = initial)
  ∧ (outputs = [] → tools = [] → final = "" → initial = "" → r = "Task completed").
Proof.
  cbv zeta. unfold Extract.task_result. repeat split.
  - destruct outputs; [congruence|reflexivity].
  - intros -> Ht. destruct tools; [congruence|reflexivity].
  - intros -> -> Hf. destruct final; [congruence|reflexivity].
  - intros -> -> -> Hi. destruct initial; [congruence|reflexivity].
  - intros -> -> -> ->. reflexivity.
Qed.

(** C4: the primary result follows the priority tool outputs, then tool
    names, then the final message, then the initial message, then the
    placeholder; and a run that returns stores exactly that choice, made from
    the loop's variables, in [task.result]. *)
Theorem result_priority :
  (∀ (outputs tools : list string) (final initial : string),
     let r := Extract.task_result outputs tools final initial in
     (outputs ≠ [] → r = Py.join (Py.nl +:+ Py.nl) outputs)
     ∧ (outputs = [] → tools ≠ [] → r = "Executed tools: " +:+ Py.join ", " tools)
     ∧ (outputs = [] → tools = [] → final ≠ "" → r = final)
     ∧ (outputs = [] → tools = [] → final = "" → initial ≠ "" → r = initial)
     ∧ (outputs = [] → tools = [] → final = "" → initial = "" → r = "Task completed"))
  ∧ (∀ (tid : string) (run_result : RunResult) (w : World) (t : Task),
       tasks w !! tid = Some t →
       ∃ t', tasks (snd (exec_resume tid (Ret run_result) w)) !! tid = Some t'
             ∧ status t' = COMPLETED
             ∧ result t'
               = Some (Extract.task_result
                         (Extract.seen_outputs (extracted run_result)) (tools_used t')
                         (Extract.final_message (extracted run_result))
                         (Extract.initial_message (extracted run_result)))).
Proof.
  split; [exact task_result_priority|].
  intros tid run_result w t E. rewrite (exec_resume_returned _ _ _ _ E).
  eexists. split; [apply lookup_insert_eq|]. split; reflexivity.
Qed.

Lemma result_priority_witness :
  Extract.task_result ["file1"; "file2"] ["nmap"] "done" "thinking"
  = "file1" +:+ Py.nl +:+ Py.nl +:+ "file2"
  ∧ Extract.task_result [] ["nmap"] "done" "thinking" = "Executed tools: nmap"
  ∧ Extract.task_result [] [] "done" "thinking" = "done"
  ∧ Extract.task_result [] [] "" "thinking" = "thinking"
  ∧ Extract.task_result [] [] "" "" = "Task completed".
Proof.
  destruct result_priority as [P _].
  split; [|split; [|split; [|split]]].
  - apply (P ["file1"; "file2"] ["nmap"] "done" "thinking"). discriminate.
  - apply (P [] ["nmap"] "done" "thinking"); [reflexivity|discriminate].
  - apply (P [] [] "done" "thinking"); [reflexivity|reflexivity|discriminate].
  - apply (P [] [] "" "thinking"); [reflexivity|reflexivity|reflexivity|discriminate].
  - apply (P [] [] "" ""); reflexivity.
Defined.

(** C9: after a run that returns, the task is [COMPLETED] and its
    [tools_used] holds each tool name the run reported exactly once. *)
Theorem tools_used_no_duplicates (tid : string) (run_result : RunResult) (w : World)
    (t : Task) :
  tasks w !! tid = Some t →
  ∃ t', tasks (snd (exec_resume tid (Ret run_result) w)) !! tid = Some t'
        ∧ status t' = COMPLETED
        ∧ NoDup (tools_used t')
        ∧ ∀ tool, tool ∈ tools_used t'
                  ↔ tool ∈ Extract.seen_tools (Extract.process_items (new_items run_result)).
Proof.
  intros E. rewrite (exec_resume_returned _ _ _ _ E).
  eexists. split; [apply lookup_insert_eq|]. split; [reflexivity|].
  cbn [tools_used with_completed_at succeeded with_token_usage with_logs with_tools_used].
  unfold extracted_tools, Py.list_set, extracted. split.
  - apply NoDup_elements.
  - intros tool. rewrite elem_of_elements, elem_of_list_to_set. reflexivity.
Qed.

End Extraction.

(** ** The loop's steps *)

Section LoopSteps.
Import TaskManager TaskManagerApi.

Lemma start_scheduled tid w a t :
  running_tasks w !! tid = Some {| h_state := Scheduled; h_agent := a |} →
  tasks w !! tid = Some t →
  Loop.start tid w
  = (Ret tt,
     updated tid (started (clock w) t) (S (clock w))
       (<[tid := {| h_state := AwaitingRun; h_agent := a |}]> (running_tasks w))
       [EvBroadcast GlobalHub (session_id t) (TaskUpdate (started (clock w) t))] w).
Proof.
  intros Eh Et. unfold Loop.start. rewrite Eh. cbv [bind].
  rewrite (exec_prologue_eq _ _ _ Et).
  destruct w as [c ss ts rs gc mc n j]. unfold Loop.set_state. world_simpl.
  rewrite (alter_known _ _ _ _ Eh). reflexivity.
Qed.

Lemma start_awaiting tid w a :
  running_tasks w !! tid = Some {| h_state := AwaitingRun; h_agent := a |} →
  Loop.start tid w = (Ret tt, w).
Proof. intros Eh. unfold Loop.start. by rewrite Eh. Qed.

Lemma cancel_scheduled tid w a :
  running_tasks w !! tid = Some {| h_state := Scheduled; h_agent := a |} →
  Loop.cancel tid w
  = (Ret tt,
     set_running_tasks
       (<[tid := {| h_state := DoneCancelled; h_agent := a |}]> (running_tasks w)) w).
Proof.
  intros Eh. unfold Loop.cancel. rewrite Eh. unfold Loop.set_state.
  rewrite (alter_known _ _ _ _ Eh). reflexivity.
Qed.

Lemma cancel_awaiting tid w a t :
  running_tasks w !! tid = Some {| h_state := AwaitingRun; h_agent := a |} →
  tasks w !! tid = Some t →
  Loop.cancel tid w
  = (Ret tt,
     exited tid (with_completed_at (Some (clock w)) (cancelled t)) (S (clock w))
       [EvCompletedAt tid (clock w);
        EvBroadcast GlobalHub (session_id t)
          (TaskUpdate (with_completed_at (Some (clock w)) (cancelled t)))] w).
Proof.
  intros Eh Et. unfold Loop.cancel. rewrite Eh.
  rewrite (exec_resume_cancelled _ _ _ Et). reflexivity.
Qed.

Lemma cancel_done tid w a :
  running_tasks w !! tid = Some {| h_state := DoneCancelled; h_agent := a |} →
  Loop.cancel tid w = (Ret tt, w).
Proof. intros Eh. unfold Loop.cancel. by rewrite Eh. Qed.

Lemma cancel_absent tid w :
  running_tasks w !! tid = None → Loop.cancel tid w = (Ret tt, w).
Proof. intros Eh. unfold Loop.cancel. by rewrite Eh. Qed.

Lemma finish_awaiting tid w a t :
  running_tasks w !! tid = Some {| h_state := AwaitingRun; h_agent := a |} →
  tasks w !! tid = Some t →
  Loop.finish tid w = exec_resume tid (run_outcome (a (message t))) w.
Proof.
  intros Eh Et. unfold Loop.finish, Loop.awaited_run. rewrite Eh, Et. reflexivity.
Qed.

(** The [except asyncio.TimeoutError] clause, entered after the awaited
    handle has been cancelled: the handle is gone or done. *)
Lemma on_timeout_eq tid timeout w t :
  tasks w !! tid = Some t →
  (running_tasks w !! tid = None
   ∨ ∃ a, running_tasks w !! tid = Some {| h_state := DoneCancelled; h_agent := a |}) →
  on_timeout tid timeout w
  = (Ret false,
     set_journal (journal w ++ [EvCompletedAt tid (clock w)])
       (set_clock (S (clock w))
          (set_tasks (<[tid := timed_out (clock w) timeout t]> (tasks w)) w))).
Proof.
  intros Et Eh. unfold on_timeout. cbv [bind].
  assert (Hc : match running_tasks w !! tid with
               | Some _ => Loop.cancel tid w
               | None => (Ret tt, w)
               end = (Ret tt, w)).
  { destruct Eh as [Eh|[a Eh]]; rewrite Eh; [reflexivity|].
    by apply (cancel_done _ _ a). }
  rewrite Hc, Et. cbv [assign_completed_at assign utcnow bind ret].
  destruct w as [c ss ts rs gc mc n j]. world_simpl.
  rewrite !alter_alter_eq, (alter_known _ _ _ _ Et). reflexivity.
Qed.

(** A wait that starts before the coroutine does lets it take its first
    step, and is from there on a wait for a suspended coroutine. *)
Lemma wait_for_task_scheduled tid timeout env w a t :
  running_tasks w !! tid = Some {| h_state := Scheduled; h_agent := a |} →
  tasks w !! tid = Some t → timeout ≠ 0 →
  wait_for_task tid timeout env w
  = wait_for_task tid timeout env (snd (Loop.start tid w)).
Proof.
  intros Eh Et Hz. apply Nat.eqb_neq in Hz.
  rewrite (start_scheduled _ _ _ _ Eh Et).
  unfold wait_for_task, try_except, Loop.wait_for. cbv [bind]. rewrite Eh, Hz.
  rewrite (start_scheduled _ _ _ _ Eh Et). world_simpl.
  rewrite lookup_insert_eq. cbv iota beta.
  erewrite start_awaiting by (world_simpl; apply lookup_insert_eq). reflexivity.
Qed.

Lemma wait_timeout_awaiting tid timeout w a t :
  running_tasks w !! tid = Some {| h_state := AwaitingRun; h_agent := a |} →
  tasks w !! tid = Some t →
  (timeout ≤ run_duration (a (message t)))%nat →
  wait_for_task tid timeout Loop.Undisturbed w
  = on_timeout tid timeout (snd (Loop.cancel tid w)).
Proof.
  intros Eh Et Hd.
  unfold wait_for_task, try_except, Loop.wait_for. cbv [bind raise]. rewrite Eh.
  destruct (timeout =? 0)%nat eqn:Hz.
  - rewrite (cancel_awaiting _ _ _ _ Eh Et). reflexivity.
  - rewrite (start_awaiting _ _ _ Eh). cbv beta iota.
    unfold Loop.awaited_run. rewrite Eh, Et. cbv beta iota. cbn [h_agent].
    assert ((run_duration (a (message t)) <? timeout)%nat = false) as -> by (apply Nat.ltb_ge; lia).
    rewrite (cancel_awaiting _ _ _ _ Eh Et). reflexivity.
Qed.

Lemma wait_timeout_unstarted tid w a t :
  running_tasks w !! tid = Some {| h_state := Scheduled; h_agent := a |} →
  tasks w !! tid = Some t →
  wait_for_task tid 0 Loop.Undisturbed w
  = on_timeout tid 0 (snd (Loop.cancel tid w)).
Proof.
  intros Eh Et.
  unfold wait_for_task, try_except, Loop.wait_for. cbv [bind raise]. rewrite Eh.
  cbn [Nat.eqb]. rewrite (cancel_scheduled _ _ _ Eh). reflexivity.
Qed.

Lemma wait_completion_awaiting tid timeout w a t :
  running_tasks w !! tid = Some {| h_state := AwaitingRun; h_agent := a |} →
  tasks w !! tid = Some t →
  (run_duration (a (message t)) < timeout)%nat →
  wait_for_task tid timeout Loop.Undisturbed w
  = match exec_resume tid (run_outcome (a (message t))) w with
    | (Ret _, w') => (Ret true, w')
    | (Raise e, w') => (Raise e, w')
    end.
Proof.
  intros Eh Et Hd.
  unfold wait_for_task, try_except, Loop.wait_for. cbv [bind raise ret]. rewrite Eh.
  assert ((timeout =? 0)%nat = false) as -> by (apply Nat.eqb_neq; lia).
  rewrite (start_awaiting _ _ _ Eh). cbv beta iota.
  unfold Loop.awaited_run. rewrite Eh, Et. cbv beta iota. cbn [h_agent].
  assert ((run_duration (a (message t)) <? timeout)%nat = true) as -> by (apply Nat.ltb_lt; lia).
  rewrite (finish_awaiting _ _ _ _ Eh Et).
  destruct (run_outcome (a (message t))) as [r|e].
  - rewrite (exec_resume_returned _ _ _ _ Et). reflexivity.
  - destruct (is_Exception e) eqn:He.
    + rewrite (exec_resume_raised _ _ _ _ Et He). reflexivity.
    + destruct e; try discriminate.
      rewrite (exec_resume_cancelled _ _ _ Et). reflexivity.
Qed.

Lemma wait_cancelled_awaiting tid timeout w a t :
  running_tasks w !! tid = Some {| h_state := AwaitingRun; h_agent := a |} →
  tasks w !! tid = Some t → timeout ≠ 0 →
  wait_for_task tid timeout Loop.CancelledMeanwhile w
  = (Raise CancelledError, snd (Loop.cancel tid w)).
Proof.
  intros Eh Et Hz. apply Nat.eqb_neq in Hz.
  unfold wait_for_task, try_except, Loop.wait_for. cbv [bind raise]. rewrite Eh, Hz.
  rewrite (start_awaiting _ _ _ Eh). cbv beta iota.
  rewrite (cancel_awaiting _ _ _ _ Eh Et). reflexivity.
Qed.

End LoopSteps.

(** ** Waiting with a timeout *)

Section Waiting.
Import TaskManager TaskManagerApi.

(** The state the timeout clause leaves, for a coroutine suspended in its
    run. *)
Lemma wait_awaiting_timeout tid timeout w a t :
  running_tasks w !! tid = Some {| h_state := AwaitingRun; h_agent := a |} →
  tasks w !! tid = Some t →
  (timeout ≤ run_duration (a (message t)))%nat →
  let r := wait_for_task tid timeout Loop.Undisturbed w in
  fst r = Ret false
  ∧ tasks (snd r) !! tid
    = Some (timed_out (S (clock w)) timeout
              (with_completed_at (Some (clock w)) (cancelled t)))
  ∧ running_tasks (snd r) !! tid = None
  ∧ journal (snd r)
    = journal w
      ++ [EvCompletedAt tid (clock w);
          EvBroadcast GlobalHub (session_id t)
            (TaskUpdate (with_completed_at (Some (clock w)) (cancelled t)));
          EvCompletedAt tid (S (clock w))].
Proof.
  intros Eh Et Hd r. subst r.
  rewrite (wait_timeout_awaiting _ _ _ _ _ Eh Et Hd), (cancel_awaiting _ _ _ _ Eh Et).
  cbn [snd].
  erewrite on_timeout_eq.
  2:{ unfold exited, updated. cbn [tasks]. apply lookup_insert_eq. }
  2:{ left. unfold exited, updated. cbn [running_tasks]. apply lookup_delete_eq. }
  destruct w as [c ss ts rs gc mc n j]. world_simpl.
  split; [reflexivity|]. split; [by rewrite insert_insert_eq, lookup_insert_eq|].
  split; [apply lookup_delete_eq|]. by rewrite <- app_assoc.
Qed.

(** The state a wait finds when the run ends before the timeout. *)
Lemma wait_awaiting_returned tid timeout w a t run_result :
  running_tasks w !! tid = Some {| h_state := AwaitingRun; h_agent := a |} →
  tasks w !! tid = Some t →
  (run_duration (a (message t)) < timeout)%nat →
  run_outcome (a (message t)) = Ret run_result →
  wait_for_task tid timeout Loop.Undisturbed w
  = (Ret true, snd (exec_resume tid (Ret run_result) w)).
Proof.
  intros Eh Et Hd Ho. rewrite (wait_completion_awaiting _ _ _ _ _ Eh Et Hd), Ho.
  rewrite (exec_resume_returned _ _ _ _ Et). reflexivity.
Qed.

Lemma wait_awaiting_raised tid timeout w a t e :
  running_tasks w !! tid = Some {| h_state := AwaitingRun; h_agent := a |} →
  tasks w !! tid = Some t →
  (run_duration (a (message t)) < timeout)%nat →
  run_outcome (a (message t)) = Raise e → is_Exception e = true →
  wait_for_task tid timeout Loop.Undisturbed w
  = (Ret true, snd (exec_resume tid (Raise e) w)).
Proof.
  intros Eh Et Hd Ho He. rewrite (wait_completion_awaiting _ _ _ _ _ Eh Et Hd), Ho.
  rewrite (exec_resume_raised _ _ _ _ Et He). reflexivity.
Qed.

(** What the timeout property says of a wait, for a suspended coroutine. *)
Lemma wait_awaiting_spec tid timeout w a t :
  running_tasks w !! tid = Some {| h_state := AwaitingRun; h_agent := a |} →
  tasks w !! tid = Some t →
  let run := a (message t) in
  let r := wait_for_task tid timeout Loop.Undisturbed w in
  ((timeout < run_duration run)%nat →
     fst r = Ret false
     ∧ ∃ t', tasks (snd r) !! tid = Some t' ∧ status t' = FAILED
             ∧ error t' = Some (timeout_error timeout) ∧ is_Some (completed_at t'))
  ∧ ((run_duration run < timeout)%nat →
     (∀ run_result, run_outcome run = Ret run_result →
        fst r = Ret true
        ∧ ∃ t', tasks (snd r) !! tid = Some t' ∧ status t' = COMPLETED
                ∧ error t' = error t ∧ is_Some (completed_at t'))
     ∧ (∀ e, run_outcome run = Raise e → is_Exception e = true →
        fst r = Ret true
        ∧ ∃ t', tasks (snd r) !! tid = Some t' ∧ status t' = FAILED
                ∧ error t' = Some (exn_str e) ∧ is_Some (completed_at t'))).
Proof.
  intros Eh Et run r. subst run r. split; [|split].
  - intros Hd.
    destruct (wait_awaiting_timeout tid timeout w a t Eh Et) as (R1 & R2 & _); [lia|].
    split; [exact R1|]. eexists. split; [exact R2|]. repeat split. by eexists.
  - intros run_result Ho. rewrite (wait_awaiting_returned _ _ _ _ _ _ Eh Et H Ho).
    split; [reflexivity|]. cbn [snd]. rewrite (exec_resume_returned _ _ _ _ Et).
    eexists. split; [apply lookup_insert_eq|]. repeat split. by eexists.
  - intros e Ho He. rewrite (wait_awaiting_raised _ _ _ _ _ _ Eh Et H Ho He).
    split; [reflexivity|]. cbn [snd]. rewrite (exec_resume_raised _ _ _ _ Et He).
    eexists. split; [apply lookup_insert_eq|]. repeat split. by eexists.
Qed.

(** C1: for a task in flight and left alone by other callers, a wait whose
    timeout is shorter than the run returns [false] and leaves the task
    [FAILED] with the timeout error and [completed_at] set; a wait whose
    timeout is longer than the run returns [true] and leaves the task
    [COMPLETED], or [FAILED] with the error of the run. *)
Theorem wait_for_task_timeout (tid : string) (timeout : nat) (w : World)
    (h : Handle) (t : Task) :
  running_tasks w !! tid = Some h → h_state h ≠ DoneCancelled →
  tasks w !! tid = Some t →
  let run := h_agent h (message t) in
  let r := wait_for_task tid timeout Loop.Undisturbed w in
  ((timeout < run_duration run)%nat →
     fst r = Ret false
     ∧ ∃ t', tasks (snd r) !! tid = Some t' ∧ status t' = FAILED
             ∧ error t' = Some (timeout_error timeout) ∧ is_Some (completed_at t'))
  ∧ ((run_duration run < timeout)%nat →
     (∀ run_result, run_outcome run = Ret run_result →
        fst r = Ret true
        ∧ ∃ t', tasks (snd r) !! tid = Some t' ∧ status t' = COMPLETED
                ∧ error t' = error t ∧ is_Some (completed_at t'))
     ∧ (∀ e, run_outcome run = Raise e → is_Exception e = true →
        fst r = Ret true
        ∧ ∃ t', tasks (snd r) !! tid = Some t' ∧ status t' = FAILED
                ∧ error t' = Some (exn_str e) ∧ is_Some (completed_at t'))).
Proof.
  intros Eh Hst Et. destruct h as [[| |] a]; cbn [h_state h_agent] in *;
    [|exact (wait_awaiting_spec tid timeout w a t Eh Et)|congruence].
  destruct (decide (timeout = 0)) as [->|Hz].
  - cbv zeta. split; [|intros; lia]. intros _.
    rewrite (wait_timeout_unstarted _ _ _ _ Eh Et), (cancel_scheduled _ _ _ Eh).
    cbn [snd].
    erewrite on_timeout_eq.
    2:{ unfold set_running_tasks. cbn [tasks]. exact Et. }
    2:{ right. exists a. unfold set_running_tasks. cbn [running_tasks].
        apply lookup_insert_eq. }
    split; [reflexivity|]. world_simpl.
    eexists. split; [apply lookup_insert_eq|]. repeat split. by eexists.
  - cbv zeta. rewrite (wait_for_task_scheduled _ _ _ _ _ _ Eh Et Hz).
    rewrite (start_scheduled _ _ _ _ Eh Et). cbn [snd].
    apply (wait_awaiting_spec tid timeout _ a (started (clock w) t)).
    + unfold updated. cbn [running_tasks]. apply lookup_insert_eq.
    + unfold updated. cbn [tasks]. apply lookup_insert_eq.
Qed.

End Waiting.

(** ** Witnesses on the sample data *)

Section Samples.
Import TaskManager TaskManagerApi.

Lemma wait_for_task_timeout_witness :
  fst (wait_for_task "t1" 120 Loop.Undisturbed (Sample.with_task Sample.slow)) = Ret false
  ∧ fst (wait_for_task "t1" 120 Loop.Undisturbed (Sample.with_task Sample.echo)) = Ret true.
Proof.
  split.
  - refine (proj1 (proj1 (wait_for_task_timeout "t1" 120 (Sample.with_task Sample.slow)
                            {| h_state := Scheduled; h_agent := Sample.slow |}
                            _ _ _ _) _)).
    + vm_compute. reflexivity.
    + discriminate.
    + vm_compute. reflexivity.
    + vm_compute. lia.
  - refine (proj1 (proj1 (proj2 (wait_for_task_timeout "t1" 120
                                   (Sample.with_task Sample.echo)
                                   {| h_state := Scheduled; h_agent := Sample.echo |}
                                   _ _ _ _) _) _ _)).
    + vm_compute. reflexivity.
    + discriminate.
    + vm_compute. reflexivity.
    + vm_compute. lia.
    + vm_compute. reflexivity.
Defined.

Lemma tools_used_no_duplicates_witness :
  ∃ t', tasks (snd (exec_resume "t1"
                      (run_outcome (Sample.scanner "hello"))
                      (Sample.with_task Sample.scanner))) !! "t1" = Some t'
        ∧ status t' = COMPLETED ∧ NoDup (tools_used t').
Proof.
  destruct (tools_used_no_duplicates "t1"
              {| new_items := [Sample.tool_item "nmap"; Sample.output_item "22/tcp open";
                               Sample.tool_item "nmap"; Sample.message_item "done"];
                 raw_responses := [] |}
              (Sample.with_task Sample.scanner)
              {| id := "t1"; session_id := "s1"; message := "hello"; status := PENDING;
                 created_at := 2; started_at := None; completed_at := None;
                 result := None; error := None; logs := []; tools_used := [];
                 token_usage := None; metadata := metadata_empty |})
    as (t' & E & S & N & _).
  - vm_compute. reflexivity.
  - exists t'. auto.
Defined.

End Samples.

(** ** Creating a task *)

Section Creation.
Import TaskManager TaskManagerApi.

Lemma create_task_eq uuid session message agent w :
  create_task uuid session message agent w
  = (Ret {| id := uuid; session_id := session; message := message; status := PENDING;
            created_at := clock w; started_at := None; completed_at := None;
            result := None; error := None; logs := []; tools_used := [];
            token_usage := None; metadata := metadata_empty |},
     set_running_tasks
       (<[uuid := {| h_state := Scheduled; h_agent := agent |}]> (running_tasks w))
       (set_tasks
          (<[uuid := {| id := uuid; session_id := session; message := message;
                        status := PENDING; created_at := clock w; started_at := None;
                        completed_at := None; result := None; error := None;
                        logs := []; tools_used := []; token_usage := None;
                        metadata := metadata_empty |}]> (tasks w))
          (set_clock (S (clock w)) w))).
Proof. reflexivity. Qed.

(** What [create_task] returns and leaves behind. *)
Lemma create_task_lookups uuid session msg agent w :
  let r := create_task uuid session msg agent w in
  ∃ t, fst r = Ret t
       ∧ status t = PENDING ∧ completed_at t = None
       ∧ id t = uuid ∧ message t = msg
       ∧ tasks (snd r) !! uuid = Some t
       ∧ running_tasks (snd r) !! uuid = Some {| h_state := Scheduled; h_agent := agent |}.
Proof.
  cbv zeta. rewrite create_task_eq. eexists. split; [reflexivity|].
  world_simpl. rewrite !lookup_insert_eq. repeat split.
Qed.

(** The task that [create_task] returns is [PENDING]: the caller sees it in
    that state until it yields to the loop. *)
Lemma create_task_returns_pending :
  ∃ t, fst (create_task "t1" "s1" "hello" Sample.echo (Sample.with_session Sample.echo))
       = Ret t
       ∧ status t = PENDING
       ∧ status <$> get_task "t1" (Sample.with_task Sample.echo) = Some PENDING.
Proof. eexists. split; [reflexivity|]. split; [reflexivity|]. vm_compute. reflexivity. Qed.

(** C5, as the code has it: [create_task] stores the task in [PENDING],
    registers a coroutine that has not started, and returns the task still
    [PENDING]; the first step of the coroutine, which the loop runs once the
    caller yields, makes it [RUNNING] and suspends in the agent run. *)
Theorem create_task_schedules (uuid session message : string) (agent : Agent)
    (w : World) :
  let r := create_task uuid session message agent w in
  ∃ t, fst r = Ret t
       ∧ status t = PENDING
       ∧ tasks (snd r) !! uuid = Some t
       ∧ running_tasks (snd r) !! uuid = Some {| h_state := Scheduled; h_agent := agent |}
       ∧ status <$> tasks (snd (Loop.start uuid (snd r))) !! uuid = Some RUNNING
       ∧ running_tasks (snd (Loop.start uuid (snd r))) !! uuid
         = Some {| h_state := AwaitingRun; h_agent := agent |}.
Proof.
  cbv zeta.
  destruct (create_task_lookups uuid session message agent w)
    as (t & Hr & Hs & _ & _ & _ & Et & Eh).
  exists t. split; [exact Hr|]. split; [exact Hs|]. split; [exact Et|].
  split; [exact Eh|].
  rewrite (start_scheduled _ _ _ _ Eh Et). unfold updated. cbn [snd tasks running_tasks].
  rewrite !lookup_insert_eq. split; reflexivity.
Qed.

End Creation.

(** ** Finalization *)

Section Finalization.
Import TaskManager TaskManagerApi.

(** Whatever resumes the coroutine, it leaves through the [finally] block:
    the last two effects are the assignment of line 218 and the
    notification of line 223, and before them no notification is sent. *)
Lemma exec_resume_exits tid resumed w t :
  tasks w !! tid = Some t →
  ∃ o t' c pre,
    exec_resume tid resumed w
    = (o, exited tid t' (S c)
            (pre ++ [EvCompletedAt tid c;
                     EvBroadcast GlobalHub (session_id t) (TaskUpdate t')]) w)
    ∧ completed_at t' = Some c ∧ id t' = id t
    ∧ status t' = exit_status resumed
    ∧ pre = match resumed with Ret _ => [EvCompletedAt tid (clock w)] | Raise _ => [] end
    ∧ o = match resumed with Raise CancelledError => Raise CancelledError | _ => Ret tt end.
Proof.
  intros Et. destruct resumed as [run_result|e].
  - rewrite (exec_resume_returned _ _ _ _ Et).
    eexists _, _, _, [EvCompletedAt tid (clock w)].
    split; [reflexivity|]. repeat split.
  - destruct (is_Exception e) eqn:He.
    + rewrite (exec_resume_raised _ _ _ _ Et He). do 3 eexists. exists [].
      split; [reflexivity|]. repeat split; by destruct e.
    + destruct e; try discriminate.
      rewrite (exec_resume_cancelled _ _ _ Et). do 3 eexists. exists [].
      split; [reflexivity|]. repeat split.
Qed.

Lemma terminal_exit_status resumed : terminal (exit_status resumed) = true.
Proof. destruct resumed as [?|[]]; reflexivity. Qed.

(** C3: however the awaited run ends (a result, an exception or a
    cancellation), [_execute_task] leaves the task in a terminal state with
    [completed_at] set and its handle removed, and broadcasts exactly one
    terminal-state notification to the task's session: the one of the
    [finally] block, sent right after it has assigned [completed_at]. *)
Theorem one_terminal_notification (tid : string) (resumed : Outcome RunResult)
    (w : World) (t : Task) :
  tasks w !! tid = Some t → id t = tid →
  let r := _execute_task tid (fun w' => (resumed, w')) w in
  ∃ t' c pre,
    journal (snd r)
    = journal w
      ++ pre ++ [EvCompletedAt tid c; EvBroadcast GlobalHub (session_id t) (TaskUpdate t')]
    ∧ terminal_updates tid pre = []
    ∧ terminal_updates tid
        (pre ++ [EvCompletedAt tid c; EvBroadcast GlobalHub (session_id t) (TaskUpdate t')])
      = [EvBroadcast GlobalHub (session_id t) (TaskUpdate t')]
    ∧ tasks (snd r) !! tid = Some t'
    ∧ status t' = exit_status resumed
    ∧ terminal (status t') = true
    ∧ completed_at t' = Some c
    ∧ running_tasks (snd r) !! tid = None.
Proof.
  intros Et Hid r. subst r.
  rewrite (execute_task_split _ _ _ _ Et), (exec_prologue_eq _ _ _ Et). cbn [snd].
  set (w1 := updated _ _ _ _ _ _).
  assert (Et1 : tasks w1 !! tid = Some (started (clock w) t))
    by (unfold w1, updated; cbn [tasks]; apply lookup_insert_eq).
  destruct (exec_resume_exits tid resumed w1 _ Et1) as (o & t' & c & pre & -> & Hc & Hi & Hs & Hp & _).
  exists t', c.
  exists (EvBroadcast GlobalHub (session_id t) (TaskUpdate (started (clock w) t)) :: pre).
  assert (Hpre : terminal_updates tid
                   (EvBroadcast GlobalHub (session_id t) (TaskUpdate (started (clock w) t)) :: pre)
                 = []).
  { subst pre. unfold terminal_updates. cbn [List.filter is_terminal_update].
    cbn [started with_started_at with_status status terminal]. rewrite andb_false_r.
    by destruct resumed. }
  assert (Hlast : is_terminal_update tid
                    (EvBroadcast GlobalHub (session_id t) (TaskUpdate t')) = true).
  { cbn [is_terminal_update]. rewrite Hi. cbn [started with_started_at with_status id].
    rewrite Hid, String.eqb_refl, Hs. apply terminal_exit_status. }
  split.
  { unfold w1, exited, updated. cbn [snd journal session_id started with_started_at with_status].
    by rewrite <- app_assoc. }
  split; [exact Hpre|]. split.
  { unfold terminal_updates in *. rewrite List.filter_app, Hpre.
    cbn [List.filter is_terminal_update app]. fold (is_terminal_update tid
      (EvBroadcast GlobalHub (session_id t) (TaskUpdate t'))). by rewrite Hlast. }
  split; [unfold exited, updated; cbn [snd tasks]; apply lookup_insert_eq|].
  split; [exact Hs|]. split; [rewrite Hs; apply terminal_exit_status|].
  split; [exact Hc|].
  unfold exited, updated. cbn [snd running_tasks]. apply lookup_delete_eq.
Qed.

Lemma one_terminal_notification_witness :
  ∃ t', terminal_updates "t1"
          (journal (snd (_execute_task "t1" (fun w' => (Raise CancelledError, w'))
                           (Sample.with_task Sample.echo))))
        = [EvBroadcast GlobalHub "s1" (TaskUpdate t')]
        ∧ status t' = CANCELLED.
Proof.
  destruct (one_terminal_notification "t1" (Raise CancelledError)
              (Sample.with_task Sample.echo)
              {| id := "t1"; session_id := "s1"; message := "hello"; status := PENDING;
                 created_at := 2; started_at := None; completed_at := None;
                 result := None; error := None; logs := []; tools_used := [];
                 token_usage := None; metadata := metadata_empty |})
    as (t' & c & pre & Hj & _ & Hu & _ & Hs & _).
  - vm_compute. reflexivity.
  - reflexivity.
  - exists t'. split; [|exact Hs].
    rewrite Hj. unfold terminal_updates in *. rewrite List.filter_app, Hu.
    reflexivity.
Defined.

End Finalization.

(** ** The reply of [send_message] *)

Section Reply.
Import TaskManager TaskManagerApi Main.

Lemma broadcast_eq hub session data w :
  broadcast hub session data w
  = (Ret tt,
     set_net (snd (WebSocketManager.broadcast_to_session (connections_of hub w)
                     session data (net w)))
       (set_journal (journal w ++ [EvBroadcast hub session data]) w)).
Proof.
  unfold broadcast.
  pose proof (broadcast_returns (connections_of hub w) session data (net w)) as R.
  destruct (WebSocketManager.broadcast_to_session _ _ _ _) as [o n']. simpl in R.
  by subst o.
Qed.

Lemma send_thinking_returns session uuid completed_task tools w :
  ∃ w', send_thinking session uuid completed_task tools w = (Ret tt, w')
        ∧ tasks w' = tasks w ∧ running_tasks w' = running_tasks w.
Proof.
  unfold send_thinking. destruct completed_task as [t|]; [|by eexists].
  destruct tools as [|tool tools]; [by eexists|].
  destruct (tool_commands (metadata t)) as [|cmd cmds]; [by eexists|].
  cbv [bind new_message utcnow ret append_message]. rewrite broadcast_eq.
  eexists. split; [reflexivity|]. split; reflexivity.
Qed.

(** Lines 139-234 always return a descriptor of an assistant message whose
    content is chosen by lines 142-154. *)
Lemma respond_returns session u_thinking u_reply tid success w :
  ∃ d w', respond session u_thinking u_reply tid success w = (Ret d, w')
          ∧ d_id d = u_reply ∧ d_role d = "assistant"
          ∧ d_content d = response_content success (get_task tid w)
          ∧ tasks w' = tasks w ∧ running_tasks w' = running_tasks w.
Proof.
  unfold respond. cbv [bind].
  destruct (send_thinking_returns session u_thinking (get_task tid w)
              match get_task tid w with Some t => tools_used t | None => [] end w)
    as (w1 & -> & Ht1 & Hr1).
  cbv [new_message utcnow ret append_message bind]. rewrite broadcast_eq.
  destruct (get_task tid w) as [t|]; [destruct (tools_used t)|];
    rewrite ?broadcast_eq; do 2 eexists; (split; [reflexivity|]);
    repeat split; assumption.
Qed.

(** The content lines 142-154 choose. *)
Lemma response_content_cases (success : bool) (t : Task) :
  response_content false (Some t) = "Task timed out after 2 minutes"
  ∧ (∀ e, error t = Some e → e ≠ "" →
       response_content true (Some t) = "Error: " +:+ e)
  ∧ (Main.some_text (error t) = None → ∀ text, final_response (metadata t) = Some text →
       text ≠ "" → response_content true (Some t) = text)
  ∧ (Main.some_text (error t) = None → Main.some_text (final_response (metadata t)) = None →
       ∀ text, initial_thinking (metadata t) = Some text → text ≠ "" →
       response_content true (Some t) = text)
  ∧ (Main.some_text (error t) = None → Main.some_text (final_response (metadata t)) = None →
       Main.some_text (initial_thinking (metadata t)) = None →
       response_content true (Some t) = "Agent completed but no response generated").
Proof.
  unfold response_content. cbn [negb]. split; [reflexivity|]. split; [|split; [|split]].
  - intros e -> He. destruct e; [congruence|reflexivity].
  - intros -> text -> Ht. destruct text; [congruence|reflexivity].
  - intros -> -> text -> Ht. destruct text; [congruence|reflexivity].
  - intros -> -> ->. reflexivity.
Qed.

(** A wait on a task just created, which another caller cancels meanwhile,
    raises [CancelledError]: the [except Exception] clause of
    [wait_for_task] does not catch it. *)
Lemma wait_after_create_cancelled uuid session message agent timeout w :
  timeout ≠ 0 →
  ∃ w', wait_for_task uuid timeout Loop.CancelledMeanwhile
          (snd (create_task uuid session message agent w))
        = (Raise CancelledError, w').
Proof.
  intros Hz. destruct (create_task_lookups uuid session message agent w)
    as (t & _ & _ & _ & _ & _ & Et & Eh).
  rewrite (wait_for_task_scheduled _ _ _ _ _ _ Eh Et Hz).
  rewrite (start_scheduled _ _ _ _ Eh Et). cbn [snd].
  erewrite wait_cancelled_awaiting; [by eexists| | |exact Hz].
  - unfold updated. cbn [running_tasks]. apply lookup_insert_eq.
  - unfold updated. cbn [tasks]. apply lookup_insert_eq.
Qed.

(** C8, where the code departs from it: when the task of a request is
    cancelled by another caller while the request waits, [send_message]
    raises [CancelledError] instead of returning a message descriptor. *)
Theorem send_message_cancelled_raises (session content : string)
    (u_user u_task u_thinking u_reply : string) (w : World) (s : Session) :
  SessionManager.get_session session w = Some s →
  fst (send_message session content u_user u_task u_thinking u_reply
         Loop.CancelledMeanwhile w)
  = Raise CancelledError.
Proof.
  intros Hs. unfold send_message. rewrite Hs.
  cbv [bind new_message utcnow ret append_message].
  match goal with
  | |- context [create_task ?u ?se ?m ?a ?W] =>
      destruct (wait_after_create_cancelled u se m a 120 W) as [w' Hw]; [discriminate|];
      rewrite (create_task_eq u se m a W) in *
  end.
  cbn [snd id] in *. rewrite Hw. reflexivity.
Qed.

Lemma send_message_cancelled_raises_witness :
  fst (send_message "s1" "hello" "u1" "t1" "u2" "u3" Loop.CancelledMeanwhile
         (Sample.with_session Sample.echo))
  = Raise CancelledError.
Proof.
  apply (send_message_cancelled_raises "s1" "hello" "u1" "t1" "u2" "u3"
           (Sample.with_session Sample.echo)
           {| sess_id := "s1"; name := "demo"; agent_type := "echo"; model := "m1";
              sess_status := ACTIVE; sess_created_at := 0; updated_at := 1;
              config := []; agent := Sample.echo; messages := [] |}).
  vm_compute. reflexivity.
Defined.

End Reply.

(** ** The invariant of the transition system *)

Section Invariant.
Import TaskManager TaskManagerApi.

Lemma Inv_init : Inv world_init.
Proof. split; intros tid ?; unfold world_init; cbn; rewrite lookup_empty; discriminate. Qed.

(** The invariant reads only the tasks and their handles. *)
Lemma Inv_elsewhere w w' :
  Inv w → tasks w' = tasks w → running_tasks w' = running_tasks w → Inv w'.
Proof.
  intros [I1 I2 I3] Ht Hr. split.
  - intros tid t. rewrite Ht. apply I1.
  - intros tid h. rewrite Hr. intros E. destruct (I2 _ _ E) as (t & Et & P).
    exists t. by rewrite Ht.
  - intros tid t. rewrite Ht. intros E Hs. unfold running_ok in *. rewrite Hr.
    exact (I3 _ _ E Hs).
Qed.

(** The task of [tid] reaches a state that is not [RUNNING] and its handle
    is removed. *)
Lemma Inv_exit w w' tid t' :
  Inv w → tasks w' = <[tid := t']> (tasks w) →
  running_tasks w' = delete tid (running_tasks w) →
  task_ok t' → status t' ≠ RUNNING → Inv w'.
Proof.
  intros [I1 I2 I3] Ht Hr Hok Hs. split.
  - intros k t. rewrite Ht. destruct (decide (tid = k)) as [<-|Hne].
    + rewrite lookup_insert_eq. by intros [= <-].
    + rewrite lookup_insert_ne by done. apply I1.
  - intros k h. rewrite Hr. destruct (decide (tid = k)) as [<-|Hne].
    + by rewrite lookup_delete_eq.
    + rewrite lookup_delete_ne by done. intros E.
      destruct (I2 _ _ E) as (t & Et & P). exists t. by rewrite Ht, lookup_insert_ne.
  - intros k t. rewrite Ht. unfold running_ok. rewrite Hr.
    destruct (decide (tid = k)) as [<-|Hne].
    + rewrite lookup_insert_eq. intros [= <-] Hrun. congruence.
    + rewrite lookup_insert_ne, lookup_delete_ne by done. apply I3.
Qed.

(** The task of [tid] changes to a state that is not [RUNNING] while its
    handle, if any, is not that of a coroutine still to start. *)
Lemma Inv_mark w w' tid t' :
  Inv w → tasks w' = <[tid := t']> (tasks w) →
  running_tasks w' = running_tasks w →
  task_ok t' → status t' ≠ RUNNING →
  (∀ h, running_tasks w !! tid = Some h → h_state h ≠ Scheduled) → Inv w'.
Proof.
  intros [I1 I2 I3] Ht Hr Hok Hs Hh. split.
  - intros k t. rewrite Ht. destruct (decide (tid = k)) as [<-|Hne].
    + rewrite lookup_insert_eq. by intros [= <-].
    + rewrite lookup_insert_ne by done. apply I1.
  - intros k h. rewrite Hr. intros E. destruct (decide (tid = k)) as [<-|Hne].
    + exists t'. rewrite Ht, lookup_insert_eq. split; [reflexivity|].
      intros Hsch. by destruct (Hh _ E).
    + destruct (I2 _ _ E) as (t & Et & P). exists t. by rewrite Ht, lookup_insert_ne.
  - intros k t. rewrite Ht. unfold running_ok. rewrite Hr.
    destruct (decide (tid = k)) as [<-|Hne].
    + rewrite lookup_insert_eq. intros [= <-] Hrun. congruence.
    + rewrite lookup_insert_ne by done. apply I3.
Qed.

(** The first step of the coroutine of [tid]. *)
Lemma Inv_start w w' tid a t c :
  Inv w → running_tasks w !! tid = Some {| h_state := Scheduled; h_agent := a |} →
  tasks w !! tid = Some t →
  tasks w' = <[tid := started c t]> (tasks w) →
  running_tasks w' = <[tid := {| h_state := AwaitingRun; h_agent := a |}]> (running_tasks w) →
  Inv w'.
Proof.
  intros [I1 I2 I3] Eh Et Ht Hr.
  destruct (I2 _ _ Eh) as (t0 & Et0 & P). rewrite Et in Et0. injection Et0 as <-.
  destruct (P eq_refl) as [Hp Hc]. split.
  - intros k x. rewrite Ht. destruct (decide (tid = k)) as [<-|Hne].
    + rewrite lookup_insert_eq. intros [= <-]. unfold task_ok.
      cbn [started with_started_at with_status completed_at status terminal].
      rewrite Hc. split; [intros [? ?]|]; discriminate.
    + rewrite lookup_insert_ne by done. apply I1.
  - intros k h. rewrite Hr. destruct (decide (tid = k)) as [<-|Hne].
    + rewrite lookup_insert_eq. intros [= <-]. exists (started c t).
      rewrite Ht, lookup_insert_eq. split; [reflexivity|]. discriminate.
    + rewrite lookup_insert_ne by done. intros E.
      destruct (I2 _ _ E) as (x & Ex & Q). exists x. by rewrite Ht, lookup_insert_ne.
  - intros k x. rewrite Ht. unfold running_ok. rewrite Hr.
    destruct (decide (tid = k)) as [<-|Hne].
    + rewrite !lookup_insert_eq. intros _ _. by exists a.
    + rewrite !lookup_insert_ne by done. apply I3.
Qed.

(** A cancellation that comes before the first step. *)
Lemma Inv_cancel_scheduled w w' tid a :
  Inv w → running_tasks w !! tid = Some {| h_state := Scheduled; h_agent := a |} →
  tasks w' = tasks w →
  running_tasks w' = <[tid := {| h_state := DoneCancelled; h_agent := a |}]> (running_tasks w) →
  Inv w'.
Proof.
  intros [I1 I2 I3] Eh Ht Hr. split.
  - intros k t. rewrite Ht. apply I1.
  - intros k h. rewrite Hr. destruct (decide (tid = k)) as [<-|Hne].
    + rewrite lookup_insert_eq. intros [= <-].
      destruct (I2 _ _ Eh) as (t & Et & _). exists t. rewrite Ht.
      split; [exact Et|]. discriminate.
    + rewrite lookup_insert_ne by done. intros E.
      destruct (I2 _ _ E) as (t & Et & P). exists t. by rewrite Ht.
  - intros k t. rewrite Ht. unfold running_ok. rewrite Hr. intros Et Hrun.
    destruct (I3 _ _ Et Hrun) as [a' Ea'].
    destruct (decide (tid = k)) as [<-|Hne]; [congruence|].
    rewrite lookup_insert_ne by done. eauto.
Qed.

(** A new task and its scheduled coroutine. *)
Lemma Inv_create w w' uuid t a :
  Inv w → status t = PENDING → completed_at t = None →
  tasks w' = <[uuid := t]> (tasks w) →
  running_tasks w' = <[uuid := {| h_state := Scheduled; h_agent := a |}]> (running_tasks w) →
  Inv w'.
Proof.
  intros [I1 I2 I3] Hp Hc Ht Hr. split.
  - intros k x. rewrite Ht. destruct (decide (uuid = k)) as [<-|Hne].
    + rewrite lookup_insert_eq. intros [= <-]. unfold task_ok. rewrite Hc, Hp.
      split; [intros [? ?]|]; discriminate.
    + rewrite lookup_insert_ne by done. apply I1.
  - intros k h. rewrite Hr. destruct (decide (uuid = k)) as [<-|Hne].
    + rewrite lookup_insert_eq. intros [= <-]. exists t.
      by rewrite Ht, lookup_insert_eq.
    + rewrite lookup_insert_ne by done. intros E.
      destruct (I2 _ _ E) as (x & Ex & Q). exists x. by rewrite Ht, lookup_insert_ne.
  - intros k x. rewrite Ht. unfold running_ok. rewrite Hr.
    destruct (decide (uuid = k)) as [<-|Hne].
    + rewrite lookup_insert_eq. intros [= <-] Hrun. congruence.
    + rewrite !lookup_insert_ne by done. apply I3.
Qed.

Lemma task_ok_exit t' c resumed :
  completed_at t' = Some c → status t' = exit_status resumed →
  task_ok t' ∧ status t' ≠ RUNNING.
Proof.
  intros Hc Hs. unfold task_ok. rewrite Hc, Hs, terminal_exit_status.
  split; [split; eauto|]. by destruct resumed as [?|[]].
Qed.

Lemma start_preserves tid w : Inv w → Inv (snd (Loop.start tid w)).
Proof.
  intros I. destruct (running_tasks w !! tid) as [[[| |] a]|] eqn:Eh.
  - destruct (inv_handles _ I _ _ Eh) as (t & Et & _).
    rewrite (start_scheduled _ _ _ _ Eh Et).
    eapply (Inv_start w _ tid a t); eauto; reflexivity.
  - by rewrite (start_awaiting _ _ _ Eh).
  - unfold Loop.start. by rewrite Eh.
  - unfold Loop.start. by rewrite Eh.
Qed.

Lemma resume_preserves tid resumed w t :
  Inv w → tasks w !! tid = Some t → Inv (snd (exec_resume tid resumed w)).
Proof.
  intros I Et.
  destruct (exec_resume_exits tid resumed w t Et) as (o & t' & c & pre & -> & Hc & _ & Hs & _).
  destruct (task_ok_exit _ _ _ Hc Hs) as [Hok Hnr].
  eapply (Inv_exit w _ tid t'); eauto; reflexivity.
Qed.

Lemma finish_preserves tid w : Inv w → Inv (snd (Loop.finish tid w)).
Proof.
  intros I. destruct (running_tasks w !! tid) as [[[| |] a]|] eqn:Eh.
  - unfold Loop.finish. rewrite Eh. by destruct (Loop.awaited_run tid w).
  - destruct (inv_handles _ I _ _ Eh) as (t & Et & _).
    rewrite (finish_awaiting _ _ _ _ Eh Et). by apply (resume_preserves _ _ _ t).
  - unfold Loop.finish. rewrite Eh. by destruct (Loop.awaited_run tid w).
  - unfold Loop.finish. by rewrite Eh.
Qed.

(** A cancellation always returns, keeps the invariant, and leaves no
    coroutine of [tid] that could still start. *)
Lemma cancel_cases tid w :
  Inv w →
  fst (Loop.cancel tid w) = Ret tt
  ∧ Inv (snd (Loop.cancel tid w))
  ∧ ∀ h, running_tasks (snd (Loop.cancel tid w)) !! tid = Some h →
         h_state h = DoneCancelled.
Proof.
  intros I. destruct (running_tasks w !! tid) as [[[| |] a]|] eqn:Eh.
  - rewrite (cancel_scheduled _ _ _ Eh). split; [reflexivity|]. split.
    + eapply (Inv_cancel_scheduled w _ tid a); eauto; reflexivity.
    + unfold set_running_tasks. cbn [snd running_tasks]. rewrite lookup_insert_eq.
      by intros h [= <-].
  - destruct (inv_handles _ I _ _ Eh) as (t & Et & _).
    rewrite (cancel_awaiting _ _ _ _ Eh Et). split; [reflexivity|]. split.
    + eapply (Inv_exit w _ tid (with_completed_at (Some (clock w)) (cancelled t)));
        [exact I|reflexivity|reflexivity| |discriminate].
      unfold task_ok. cbn. split; eauto.
    + unfold exited, updated. cbn [snd running_tasks]. rewrite lookup_delete_eq.
      discriminate.
  - rewrite (cancel_done _ _ _ Eh). split; [reflexivity|]. split; [exact I|].
    cbn [snd]. rewrite Eh. by intros h [= <-].
  - rewrite (cancel_absent _ _ Eh). split; [reflexivity|]. split; [exact I|].
    cbn [snd]. rewrite Eh. discriminate.
Qed.

(** The timeout clause is a cancellation followed by lines 264-268. *)
Lemma on_timeout_split tid timeout w :
  Inv w →
  on_timeout tid timeout w
  = let w1 := snd (Loop.cancel tid w) in
    match tasks w1 !! tid with
    | Some t =>
        (Ret false,
         set_journal (journal w1 ++ [EvCompletedAt tid (clock w1)])
           (set_clock (S (clock w1))
              (set_tasks (<[tid := timed_out (clock w1) timeout t]> (tasks w1)) w1)))
    | None => (Ret false, w1)
    end.
Proof.
  intros I. destruct (cancel_cases tid w I) as (Hc & _ & _).
  unfold on_timeout. cbv [bind].
  assert (E : match running_tasks w !! tid with
              | Some _ => Loop.cancel tid w
              | None => (Ret tt, w)
              end = (Ret tt, snd (Loop.cancel tid w))).
  { destruct (running_tasks w !! tid) eqn:Eh.
    - destruct (Loop.cancel tid w) as [o w1]. cbn in Hc. by subst o.
    - by rewrite (cancel_absent _ _ Eh). }
  rewrite E. cbv zeta. set (w1 := snd (Loop.cancel tid w)).
  destruct (tasks w1 !! tid) as [t|] eqn:Et; [|reflexivity].
  cbv [assign_completed_at assign utcnow bind ret].
  destruct w1 as [c ss ts rs gc mc n j]. world_simpl.
  rewrite !alter_alter_eq, (alter_known _ _ _ _ Et). reflexivity.
Qed.

Lemma on_timeout_preserves tid timeout w :
  Inv w → Inv (snd (on_timeout tid timeout w)).
Proof.
  intros I. rewrite (on_timeout_split _ _ _ I). cbv zeta.
  destruct (cancel_cases tid w I) as (_ & I1 & Hh).
  destruct (tasks (snd (Loop.cancel tid w)) !! tid) as [t|] eqn:Et; [|exact I1].
  eapply (Inv_mark _ _ tid (timed_out _ timeout t)); [exact I1|reflexivity|reflexivity| | |].
  - unfold task_ok. cbn. split; eauto.
  - discriminate.
  - intros h Eh. rewrite (Hh _ Eh). discriminate.
Qed.

Lemma create_preserves uuid session message agent w :
  Inv w → Inv (snd (create_task uuid session message agent w)).
Proof.
  intros I. rewrite create_task_eq.
  eapply (Inv_create w _ uuid); [exact I| | |reflexivity|reflexivity]; reflexivity.
Qed.

Lemma step_preserves w w' : Inv w → step w w' → Inv w'.
Proof.
  intros I H. destruct H as [uuid session message agent w _|tid w|tid w|tid w
                            |tid timeout w|w w' Ht Hr].
  - by apply create_preserves.
  - by apply start_preserves.
  - by apply finish_preserves.
  - by apply cancel_cases.
  - by apply on_timeout_preserves.
  - by apply (Inv_elsewhere w).
Qed.

Lemma steps_preserve w w' : Inv w → rtc step w w' → Inv w'.
Proof. intros I H. induction H; eauto using step_preserves. Qed.

Lemma reachable_Inv w : reachable w → Inv w.
Proof. apply steps_preserve, Inv_init. Qed.

End Invariant.

(** ** The operations of the backend are sequences of steps *)

Section Operations.
Import TaskManager TaskManagerApi Main.

Lemma cancel_returns tid w : fst (Loop.cancel tid w) = Ret tt.
Proof.
  unfold Loop.cancel. destruct (running_tasks w !! tid) as [[[| |] a]|]; reflexivity.
Qed.

Lemma cancel_task_steps tid w : rtc step w (snd (cancel_task tid w)).
Proof.
  unfold cancel_task. destruct (running_tasks w !! tid); [|apply rtc_refl].
  cbv [bind ret]. pose proof (cancel_returns tid w) as R.
  destruct (Loop.cancel tid w) as [o w1] eqn:E. cbn in R. subst o. cbn [snd].
  apply rtc_once. replace w1 with (snd (Loop.cancel tid w)) by (by rewrite E).
  apply step_cancel.
Qed.

(** With [timeout <= 0] the awaited handle is cancelled at once. *)
Lemma wait_zero tid env w st a :
  running_tasks w !! tid = Some {| h_state := st; h_agent := a |} →
  st ≠ DoneCancelled →
  wait_for_task tid 0 env w = on_timeout tid 0 (snd (Loop.cancel tid w)).
Proof.
  intros Eh Hst. unfold wait_for_task, try_except, Loop.wait_for.
  cbv [bind raise]. rewrite Eh. pose proof (cancel_returns tid w) as R.
  destruct (Loop.cancel tid w) as [o w1] eqn:E. cbn in R. subst o.
  destruct st; [| |congruence]; reflexivity.
Qed.

Lemma timeout_steps tid timeout w :
  rtc step w (snd (on_timeout tid timeout (snd (Loop.cancel tid w)))).
Proof.
  eapply rtc_l; [apply (step_cancel tid)|]. apply rtc_once, step_timeout.
Qed.

Lemma wait_awaiting_steps tid timeout env w a t :
  running_tasks w !! tid = Some {| h_state := AwaitingRun; h_agent := a |} →
  tasks w !! tid = Some t →
  rtc step w (snd (wait_for_task tid timeout env w)).
Proof.
  intros Eh Et. destruct (decide (timeout = 0)) as [->|Hz].
  { rewrite (wait_zero _ _ _ _ _ Eh) by discriminate. apply timeout_steps. }
  destruct env.
  - destruct (decide (run_duration (a (message t)) < timeout)%nat) as [Hd|Hd].
    + rewrite (wait_completion_awaiting _ _ _ _ _ Eh Et Hd).
      rewrite <- (finish_awaiting _ _ _ _ Eh Et).
      replace (snd (let (o, w') := Loop.finish tid w in
                    match o with Ret _ => (Ret true, w') | Raise e => (Raise e, w') end))
        with (snd (Loop.finish tid w)) by (by destruct (Loop.finish tid w) as [[]]).
      apply rtc_once, step_finish.
    + rewrite (wait_timeout_awaiting _ _ _ _ _ Eh Et) by lia. apply timeout_steps.
  - rewrite (wait_cancelled_awaiting _ _ _ _ _ Eh Et Hz). cbn [snd].
    apply rtc_once, step_cancel.
Qed.

Lemma wait_for_task_steps tid timeout env w :
  Inv w → rtc step w (snd (wait_for_task tid timeout env w)).
Proof.
  intros I. destruct (running_tasks w !! tid) as [[[| |] a]|] eqn:Eh.
  - destruct (inv_handles _ I _ _ Eh) as (t & Et & _).
    destruct (decide (timeout = 0)) as [->|Hz].
    { rewrite (wait_zero _ _ _ _ _ Eh) by discriminate. apply timeout_steps. }
    rewrite (wait_for_task_scheduled _ _ _ _ _ _ Eh Et Hz).
    eapply rtc_l; [apply (step_start tid)|].
    rewrite (start_scheduled _ _ _ _ Eh Et). cbn [snd].
    eapply (wait_awaiting_steps tid timeout env _ a (started (clock w) t));
      unfold updated; cbn [running_tasks tasks]; apply lookup_insert_eq.
  - destruct (inv_handles _ I _ _ Eh) as (t & Et & _).
    by apply (wait_awaiting_steps _ _ _ _ a t).
  - unfold wait_for_task, try_except, Loop.wait_for. cbv [bind]. rewrite Eh.
    apply rtc_refl.
  - unfold wait_for_task. rewrite Eh. apply rtc_refl.
Qed.

(** A request is a sequence of steps: bookkeeping, the creation of its
    task, the wait and the reply. *)
Lemma send_message_steps session content u_user u_task u_thinking u_reply env w :
  Inv w → tasks w !! u_task = None →
  rtc step w (snd (send_message session content u_user u_task u_thinking u_reply env w)).
Proof.
  intros I Hfresh. unfold send_message.
  destruct (SessionManager.get_session session w) as [s|]; [|apply rtc_refl].
  cbv [bind new_message utcnow ret append_message].
  match goal with
  | |- context [create_task ?u ?se ?m ?a ?W] => set (W0 := W)
  end.
  assert (S0 : step w W0) by (apply step_elsewhere; reflexivity).
  assert (I0 : Inv W0) by (eapply step_preserves; eauto).
  assert (S1 : step W0 (snd (create_task u_task session content (agent s) W0)))
    by (apply step_create_task; exact Hfresh).
  assert (I1 : Inv (snd (create_task u_task session content (agent s) W0)))
    by (eapply step_preserves; eauto).
  pose proof (wait_for_task_steps u_task 120 env _ I1) as S2.
  rewrite (create_task_eq u_task session content (agent s) W0) in *.
  cbn [snd id] in *.
  match goal with
  | |- context [wait_for_task u_task 120 env ?W] => set (W1 := W) in *
  end.
  destruct (wait_for_task u_task 120 env W1) as [[success|e] W2]; cbn [snd] in *.
  - destruct (respond_returns session u_thinking u_reply u_task success W2)
      as (d & W3 & -> & _ & _ & _ & Ht & Hr). cbn [snd].
    eapply rtc_l; [exact S0|]. eapply rtc_l; [exact S1|].
    eapply rtc_trans; [exact S2|]. apply rtc_once, step_elsewhere; assumption.
  - eapply rtc_l; [exact S0|]. eapply rtc_l; [exact S1|]. exact S2.
Qed.

End Operations.

(** ** [completed_at] *)

Section CompletedAt.
Import TaskManager TaskManagerApi Main.

Lemma completed_at_writes_app tid (a b : list Event) :
  completed_at_writes tid (a ++ b) = completed_at_writes tid a + completed_at_writes tid b.
Proof. unfold completed_at_writes. by rewrite List.filter_app, length_app. Qed.

(** A request whose run returns assigns [completed_at] twice (lines 171 and
    218), and one that times out assigns it twice as well (line 218 in the
    cancelled execution, then line 268). *)
Lemma completed_at_assigned_again :
  List.filter (is_completed_at_write "t1")
    (journal (snd (send_message "s1" "hello" "u1" "t1" "u2" "u3" Loop.Undisturbed
                     (Sample.with_session Sample.echo))))
  = [EvCompletedAt "t1" 5; EvCompletedAt "t1" 6]
  ∧ List.filter (is_completed_at_write "t1")
      (journal (snd (send_message "s1" "hello" "u1" "t1" "u2" "u3" Loop.Undisturbed
                       (Sample.with_session Sample.slow))))
    = [EvCompletedAt "t1" 5; EvCompletedAt "t1" 6].
Proof. split; vm_compute; reflexivity. Qed.

(** C2, as the code has it: in every reachable world, [completed_at] is set
    exactly for the tasks in a terminal state; it is not assigned once only:
    an execution that ends with a result assigns it twice and one that ends
    with an exception or a cancellation once, and the timeout clause of
    [wait_for_task] assigns it again after the cancelled execution has. *)
Theorem completed_at_iff_terminal :
  (∀ w, reachable w →
     ∀ tid t, tasks w !! tid = Some t →
              (is_Some (completed_at t) ↔ terminal (status t) = true))
  ∧ (∀ tid resumed w t, tasks w !! tid = Some t →
       completed_at_writes tid (journal (snd (exec_resume tid resumed w)))
       = completed_at_writes tid (journal w)
         + match resumed with Ret _ => 2 | Raise _ => 1 end)
  ∧ (∀ tid timeout w a t,
       running_tasks w !! tid = Some {| h_state := AwaitingRun; h_agent := a |} →
       tasks w !! tid = Some t →
       (timeout ≤ run_duration (a (message t)))%nat →
       completed_at_writes tid
         (journal (snd (wait_for_task tid timeout Loop.Undisturbed w)))
       = completed_at_writes tid (journal w) + 2).
Proof.
  split; [|split].
  - intros w R tid t Et. exact (inv_tasks _ (reachable_Inv _ R) _ _ Et).
  - intros tid resumed w t Et.
    destruct (exec_resume_exits tid resumed w t Et) as (o & t' & c & pre & -> & _ & _ & _ & -> & _).
    unfold exited, updated. cbn [snd journal].
    rewrite !completed_at_writes_app. f_equal.
    unfold completed_at_writes.
    destruct resumed; cbn [List.filter is_completed_at_write app length];
      rewrite ?String.eqb_refl; reflexivity.
  - intros tid timeout w a t Eh Et Hd.
    destruct (wait_awaiting_timeout tid timeout w a t Eh Et Hd) as (_ & _ & _ & ->).
    rewrite completed_at_writes_app. f_equal.
    unfold completed_at_writes. cbn [List.filter is_completed_at_write length].
    rewrite String.eqb_refl. reflexivity.
Qed.

Lemma completed_at_iff_terminal_witness :
  let w := snd (Loop.finish "t1" (snd (Loop.start "t1" (Sample.with_task Sample.echo)))) in
  ∃ t, tasks w !! "t1" = Some t
       ∧ (is_Some (completed_at t) ↔ terminal (status t) = true)
       ∧ status t = COMPLETED.
Proof.
  intros w.
  assert (R : reachable w).
  { unfold reachable, w.
    eapply rtc_l; [apply (step_elsewhere world_init (Sample.with_session Sample.echo));
                   reflexivity|].
    eapply rtc_l; [apply (step_create_task "t1" "s1" "hello" Sample.echo);
                   vm_compute; reflexivity|].
    eapply rtc_l; [apply (step_start "t1")|].
    apply rtc_once, (step_finish "t1"). }
  destruct (tasks w !! "t1") as [t|] eqn:Et; [|vm_compute in Et; discriminate].
  exists t. split; [reflexivity|]. split.
  - exact (proj1 completed_at_iff_terminal w R "t1" t Et).
  - vm_compute in Et. injection Et as <-. reflexivity.
Defined.

End CompletedAt.

(** ** Requests that are left alone *)

Section Undisturbed.
Import TaskManager TaskManagerApi Main.

(** Unless the run itself ends in a cancellation, an undisturbed wait on a
    task just created returns: [false] exactly when the run needs the whole
    timeout or more. *)
Lemma wait_after_create_returns uuid session msg agent timeout w :
  timeout ≠ 0 → run_outcome (agent msg) ≠ Raise CancelledError →
  ∃ b w', wait_for_task uuid timeout Loop.Undisturbed
            (snd (create_task uuid session msg agent w))
          = (Ret b, w')
          ∧ (b = false ↔ (timeout ≤ run_duration (agent msg))%nat).
Proof.
  intros Hz Hrun.
  destruct (create_task_lookups uuid session msg agent w)
    as (t & _ & _ & _ & _ & Hm & Et & Eh).
  rewrite (wait_for_task_scheduled _ _ _ _ _ _ Eh Et Hz).
  rewrite (start_scheduled _ _ _ _ Eh Et). cbn [snd].
  set (w1 := updated _ _ _ _ _ _).
  assert (Eh1 : running_tasks w1 !! uuid = Some {| h_state := AwaitingRun; h_agent := agent |})
    by (unfold w1, updated; cbn [running_tasks]; apply lookup_insert_eq).
  assert (Et1 : tasks w1 !! uuid = Some (started (clock (snd (create_task uuid session msg agent w))) t))
    by (unfold w1, updated; cbn [tasks]; apply lookup_insert_eq).
  assert (Hm1 : message (started (clock (snd (create_task uuid session msg agent w))) t) = msg)
    by exact Hm.
  destruct (decide (run_duration (agent msg) < timeout)%nat) as [Hd|Hd].
  - rewrite (wait_completion_awaiting _ _ _ _ _ Eh1 Et1) by (rewrite Hm1; exact Hd).
    rewrite Hm1.
    destruct (exec_resume_exits uuid (run_outcome (agent msg)) w1 _ Et1)
      as (o & t' & c & pre & -> & _ & _ & _ & _ & ->).
    destruct (run_outcome (agent msg)) as [r|e] eqn:Ho.
    + do 2 eexists. split; [reflexivity|]. split; [discriminate|lia].
    + destruct e; try congruence; do 2 eexists;
        (split; [reflexivity|]); (split; [discriminate|lia]).
  - rewrite (wait_timeout_awaiting _ _ _ _ _ Eh1 Et1) by (rewrite Hm1; lia).
    rewrite (cancel_awaiting _ _ _ _ Eh1 Et1). cbn [snd].
    erewrite on_timeout_eq.
    2:{ unfold exited, updated. cbn [tasks]. apply lookup_insert_eq. }
    2:{ left. unfold exited, updated. cbn [running_tasks]. apply lookup_delete_eq. }
    do 2 eexists. split; [reflexivity|]. split; [lia|reflexivity].
Qed.

(** A request that no one disturbs gets its descriptor: an assistant
    message whose content is chosen by lines 142-154 from what the wait
    returned and left in the task. *)
Lemma send_message_undisturbed session content u_user u_task u_thinking u_reply w s :
  SessionManager.get_session session w = Some s →
  run_outcome (agent s content) ≠ Raise CancelledError →
  ∃ d b w',
    fst (send_message session content u_user u_task u_thinking u_reply
           Loop.Undisturbed w) = Ret d
    ∧ d_id d = u_reply ∧ d_role d = "assistant"
    ∧ d_content d = response_content b (get_task u_task w')
    ∧ (b = false ↔ (120 ≤ run_duration (agent s content))%nat).
Proof.
  intros Hs Hrun. unfold send_message. rewrite Hs.
  cbv [bind new_message utcnow ret append_message].
  match goal with
  | |- context [create_task ?u ?se ?m ?a ?W] =>
      destruct (wait_after_create_returns u se m a 120 W) as (b & w' & Hw & Hb);
        [discriminate|exact Hrun|];
      rewrite (create_task_eq u se m a W) in *
  end.
  cbn [snd id] in *. rewrite Hw.
  destruct (respond_returns session u_thinking u_reply u_task b w')
    as (d & w3 & -> & Hi & Hr & Hc & _).
  exists d, b, w'. auto.
Qed.

End Undisturbed.

(** ** Registering and removing observers *)

Section Registry.
Import WebSocketManager.

Lemma send_returns ws data (net0 : Net) : fst (_send_to_websocket ws data net0) = Ret tt.
Proof.
  unfold _send_to_websocket, try_except, send_json.
  destruct (net0 !! ws_id ws) as [p|]; [destruct (peer_closed p)|]; reflexivity.
Qed.

Lemma list_remove_last ws (l : list WebSocket) :
  ws ∉ l → list_remove ws (l ++ [ws]) = Some l.
Proof.
  induction l as [|y l IH]; intros Hn; simpl.
  - by rewrite decide_True.
  - rewrite decide_False by (intros ->; apply Hn; left).
    rewrite IH; [reflexivity|]. intros Hin. apply Hn. by right.
Qed.

(** [list.remove] drops the first occurrence and keeps the order of the
    rest. *)
Lemma list_remove_split ws (l r : list WebSocket) :
  list_remove ws l = Some r →
  ∃ l1 l2, l = l1 ++ ws :: l2 ∧ r = l1 ++ l2 ∧ ws ∉ l1.
Proof.
  revert r. induction l as [|y l IH]; intros r; simpl; [discriminate|].
  destruct (decide (ws = y)) as [->|Hne].
  - intros [= <-]. exists [], l. split; [reflexivity|]. split; [reflexivity|].
    apply not_elem_of_nil.
  - destruct (list_remove ws l) as [r'|] eqn:E; [|discriminate].
    intros [= <-]. destruct (IH r' eq_refl) as (l1 & l2 & -> & -> & Hn).
    exists (y :: l1), l2. split; [reflexivity|]. split; [reflexivity|].
    intros Hin. apply elem_of_cons in Hin as [?|?]; [congruence|done].
Qed.

Lemma registrations_app i (a b : list WebSocket) :
  registrations i (a ++ b) = registrations i a + registrations i b.
Proof. unfold registrations. by rewrite filter_app, length_app. Qed.

Lemma registrations_cons i ws (l : list WebSocket) :
  registrations i (ws :: l)
  = (if decide (ws_id ws = i) then 1 else 0) + registrations i l.
Proof.
  unfold registrations. rewrite filter_cons. by destruct (decide (ws_id ws = i)).
Qed.

Lemma registrations_zero i (l : list WebSocket) :
  registrations i l = 0 ↔ ∀ ws, ws ∈ l → ws_id ws ≠ i.
Proof.
  unfold registrations. split.
  - intros H ws Hin Hi.
    assert (ws ∈ filter (fun x => ws_id x = i) l) as Hf by (apply list_elem_of_filter; auto).
    destruct (filter _ l); [by apply elem_of_nil in Hf|discriminate].
  - intros H. induction l as [|y l IH]; [reflexivity|].
    rewrite filter_cons. destruct (decide (ws_id y = i)) as [Hy|Hy].
    + exfalso. apply (H y); [left|exact Hy].
    + apply IH. intros ws Hin. apply H. by right.
Qed.

(** X1: an observer that was not registered for the session is, after
    [connect] and then [disconnect], no longer registered, and the map of
    connections is what it was before: a bucket created by [connect] is
    deleted again, and an older bucket gets its content back. *)
Theorem connect_disconnect_round_trip (ws : WebSocket) (session : string)
    (connections : Connections) (net0 : Net) :
  ws ∉ default [] (connections !! session) →
  connections !! session ≠ Some [] →
  let r := connect ws session (connections, net0) in
  fst r = Ret tt
  ∧ fst (snd r) !! session = Some (default [] (connections !! session) ++ [ws])
  ∧ disconnect ws session (fst (snd r)) = (Ret tt, connections).
Proof.
  intros Hn Hne. cbv zeta. unfold connect.
  pose proof (send_returns ws (Connected session) net0) as R.
  destruct (_send_to_websocket ws (Connected session) net0) as [o n']. cbn in R. subst o.
  cbn [fst snd]. split; [reflexivity|]. split; [apply lookup_insert_eq|].
  unfold disconnect. rewrite lookup_insert_eq, (list_remove_last _ _ Hn).
  destruct (connections !! session) as [[|x l]|] eqn:E;
    cbv [from_option Datatypes.id] in *.
  - congruence.
  - rewrite insert_insert_eq, insert_id; [reflexivity|exact E].
  - rewrite delete_insert_eq, delete_id; [reflexivity|exact E].
Qed.

Lemma connect_disconnect_round_trip_witness :
  let connections : Connections := {[ "s1" := [ {| ws_id := 1 |} ] ]} in
  disconnect {| ws_id := 2 |} "s1"
    (fst (snd (connect {| ws_id := 2 |} "s1" (connections, ∅))))
  = (Ret tt, connections)
  ∧ disconnect {| ws_id := 2 |} "s2"
      (fst (snd (connect {| ws_id := 2 |} "s2" (connections, ∅))))
    = (Ret tt, connections).
Proof.
  intros connections. split.
  - apply (connect_disconnect_round_trip {| ws_id := 2 |} "s1" connections ∅).
    + vm_compute. intros H. apply list_elem_of_In in H. simpl in H.
      destruct H as [H|[]]. discriminate.
    + vm_compute. discriminate.
  - apply (connect_disconnect_round_trip {| ws_id := 2 |} "s2" connections ∅).
    + vm_compute. apply not_elem_of_nil.
    + vm_compute. discriminate.
Defined.

(** X2: no bucket is ever empty.  When it holds before, it holds after
    [connect] and after [disconnect], whether [disconnect] returns or
    raises: the bucket that loses its last observer is deleted. *)
Theorem buckets_never_empty (ws : WebSocket) (session : string)
    (connections : Connections) (net0 : Net) :
  buckets_ok connections →
  buckets_ok (fst (snd (connect ws session (connections, net0))))
  ∧ buckets_ok (snd (disconnect ws session connections)).
Proof.
  intros B. split.
  - unfold connect. destruct (_send_to_websocket ws (Connected session) net0) as [o n'].
    cbn [fst snd]. intros s obs. destruct (decide (session = s)) as [<-|Hs].
    + rewrite lookup_insert_eq. intros [= <-]. by destruct (default [] _).
    + rewrite lookup_insert_ne by done. apply B.
  - unfold disconnect. destruct (connections !! session) as [observers|] eqn:E; [|exact B].
    destruct (list_remove ws observers) as [[|x rest]|]; cbn [snd]; [| |exact B].
    + intros s obs. destruct (decide (session = s)) as [<-|Hs].
      * by rewrite lookup_delete_eq.
      * rewrite lookup_delete_ne by done. apply B.
    + intros s obs. destruct (decide (session = s)) as [<-|Hs].
      * rewrite lookup_insert_eq. by intros [= <-].
      * rewrite lookup_insert_ne by done. apply B.
Qed.

Lemma buckets_never_empty_witness :
  let connections : Connections := {[ "s1" := [ {| ws_id := 1 |} ] ]} in
  buckets_ok (fst (snd (connect {| ws_id := 1 |} "s1" (connections, ∅))))
  ∧ buckets_ok (snd (disconnect {| ws_id := 1 |} "s1" connections)).
Proof.
  intros connections.
  apply (buckets_never_empty _ _ connections ∅).
  intros s obs. unfold connections. destruct (decide ("s1" = s)) as [<-|Hs].
  - rewrite lookup_singleton_eq. by intros [= <-].
  - rewrite lookup_singleton_ne by done. discriminate.
Defined.

(** X3: [disconnect] of a registered observer returns; the bucket loses the
    first registration of that observer and nothing else, the order of the
    others is kept, and the buckets of the other sessions are untouched. *)
Theorem disconnect_removes_one_registration (ws : WebSocket) (session : string)
    (connections : Connections) (observers : list WebSocket) :
  connections !! session = Some observers → ws ∈ observers →
  let r := disconnect ws session connections in
  fst r = Ret tt
  ∧ (∃ before after,
       observers = before ++ ws :: after ∧ (ws ∉ before)
       ∧ default [] (snd r !! session) = before ++ after)
  ∧ (∀ i, registrations i (default [] (snd r !! session))
           + (if decide (ws_id ws = i) then 1 else 0)
          = registrations i observers)
  ∧ (∀ other, other ≠ session → snd r !! other = connections !! other).
Proof.
  intros E Hin. cbv zeta. unfold disconnect. rewrite E.
  destruct (list_remove_Some _ _ Hin) as [r Er]. rewrite Er.
  destruct (list_remove_split _ _ _ Er) as (l1 & l2 & -> & -> & Hn).
  assert (Hb : default [] ((match l1 ++ l2 with
                            | [] => (Ret tt, delete session connections)
                            | _ :: _ => (Ret tt, <[session := l1 ++ l2]> connections)
                            end : Outcome unit * Connections).2 !! session) = l1 ++ l2).
  { destruct (l1 ++ l2) eqn:El; cbn [snd].
    - by rewrite lookup_delete_eq.
    - by rewrite lookup_insert_eq. }
  split; [by destruct (l1 ++ l2)|]. split; [|split].
  - exists l1, l2. split; [reflexivity|]. split; [exact Hn|]. exact Hb.
  - intros i. rewrite Hb, !registrations_app, registrations_cons. lia.
  - intros other Ho. destruct (l1 ++ l2); cbn [snd].
    + by rewrite lookup_delete_ne.
    + by rewrite lookup_insert_ne.
Qed.

Lemma disconnect_removes_one_registration_witness :
  let connections : Connections :=
    {[ "s1" := [ {| ws_id := 1 |}; {| ws_id := 2 |}; {| ws_id := 1 |} ] ]} in
  registrations 1 (default [] (snd (disconnect {| ws_id := 1 |} "s1" connections) !! "s1")) + 1
  = 2.
Proof.
  intros connections.
  destruct (disconnect_removes_one_registration {| ws_id := 1 |} "s1" connections
              [ {| ws_id := 1 |}; {| ws_id := 2 |}; {| ws_id := 1 |} ])
    as (_ & _ & H & _).
  - reflexivity.
  - apply list_elem_of_In. simpl. auto.
  - exact (H 1).
Defined.

End Registry.

(** ** Who is sent what *)

Section Delivery.
Import WebSocketManager.

(** What a broadcast leaves at every connection. *)
Lemma broadcast_lookup (connections : Connections) session data (net0 : Net) i :
  snd (broadcast_to_session connections session data net0) !! i
  = deliver (registrations i (default [] (connections !! session))) data <$> net0 !! i.
Proof.
  unfold broadcast_to_session.
  destruct (connections !! session) as [observers|]; cbv [from_option Datatypes.id].
  - pose proof (proj2 (gather_sends data observers net0) i) as G.
    destruct observers as [|ws l]; [|exact G].
    cbn [map ret snd]. destruct (net0 !! i) as [p|]; cbn; [|reflexivity].
    by rewrite deliver_zero.
  - cbn [ret snd]. destruct (net0 !! i) as [p|]; cbn; [|reflexivity].
    by rewrite deliver_zero.
Qed.

(** X4: an observer whose peer is alive is acknowledged by [connect] and
    is from then on reached by every broadcast to its session: after the
    acknowledgement it receives the payload once for each of its
    registrations, the new one included. *)
Theorem connected_observer_is_reached (ws : WebSocket) (session : string)
    (connections : Connections) (net0 : Net) (p : Peer) (data : Payload) :
  net0 !! ws_id ws = Some p → peer_closed p = false →
  let r := connect ws session (connections, net0) in
  let k := registrations (ws_id ws) (default [] (connections !! session)) in
  snd (snd r) !! ws_id ws
  = Some {| peer_closed := false; peer_received := peer_received p ++ [Connected session] |}
  ∧ snd (broadcast_to_session (fst (snd r)) session data (snd (snd r))) !! ws_id ws
    = Some {| peer_closed := false;
              peer_received :=
                peer_received p ++ Connected session :: replicate (S k) data |}.
Proof.
  intros Hp Hopen. cbv zeta. unfold connect.
  pose proof (send_lookup ws (Connected session) net0 (ws_id ws)) as L.
  destruct (_send_to_websocket ws (Connected session) net0) as [o n']. cbn [fst snd] in *.
  rewrite decide_True, Hp in L by reflexivity. cbn in L.
  unfold deliver in L. rewrite Hopen in L. cbn in L. split; [exact L|].
  rewrite broadcast_lookup, lookup_insert_eq, L. cbn [from_option Datatypes.id fmap option_fmap option_map].
  unfold deliver. cbn [peer_closed peer_received].
  rewrite registrations_app, registrations_cons, decide_True by reflexivity.
  unfold registrations at 2. cbn [filter list_filter length].
  rewrite <- app_assoc. cbn [app]. do 3 f_equal.
  replace (registrations (ws_id ws) (default [] (connections !! session)) + (1 + 0))
    with (S (registrations (ws_id ws) (default [] (connections !! session)))) by lia.
  reflexivity.
Qed.

Lemma connected_observer_is_reached_witness :
  let net0 : Net := {[ 1 := {| peer_closed := false; peer_received := [] |} ]} in
  let r := connect {| ws_id := 1 |} "s1" (∅, net0) in
  snd (broadcast_to_session (fst (snd r)) "s1" (Connected "again") (snd (snd r))) !! 1
  = Some {| peer_closed := false;
            peer_received := [Connected "s1"; Connected "again"] |}.
Proof.
  intros net0 r.
  exact (proj2 (connected_observer_is_reached {| ws_id := 1 |} "s1" ∅ net0
                  {| peer_closed := false; peer_received := [] |} (Connected "again")
                  eq_refl eq_refl)).
Defined.

(** X5: what a broadcast to a session does not do: a connection that is
    not registered for the session receives nothing, a peer that is gone
    stays as it is, and no peer appears or disappears. *)
Theorem broadcast_stays_in_session (connections : Connections) (session : string)
    (data : Payload) (net0 : Net) :
  let r := broadcast_to_session connections session data net0 in
  (∀ i, (∀ ws, ws ∈ default [] (connections !! session) → ws_id ws ≠ i) →
        snd r !! i = net0 !! i)
  ∧ (∀ i p, net0 !! i = Some p → peer_closed p = true → snd r !! i = Some p)
  ∧ (∀ i, snd r !! i = None ↔ net0 !! i = None).
Proof.
  cbv zeta. split; [|split].
  - intros i Hi. rewrite broadcast_lookup.
    rewrite (proj2 (registrations_zero i _) Hi).
    destruct (net0 !! i) as [p|]; cbn; [|reflexivity]. by rewrite deliver_zero.
  - intros i p Hp Hc. rewrite broadcast_lookup, Hp. cbn. unfold deliver. by rewrite Hc.
  - intros i. rewrite broadcast_lookup. by destruct (net0 !! i).
Qed.

Lemma all_observers_elem (connections : Connections) session observers ws :
  connections !! session = Some observers → ws ∈ observers →
  ws ∈ all_observers connections.
Proof.
  intros E Hin. unfold all_observers. apply list_elem_of_In, in_concat.
  exists observers. split; [|by apply list_elem_of_In].
  apply in_map_iff. exists (session, observers). split; [reflexivity|].
  apply list_elem_of_In, elem_of_map_to_list, E.
Qed.

Lemma registrations_pos (ws : WebSocket) (l : list WebSocket) :
  ws ∈ l → (1 ≤ registrations (ws_id ws) l)%nat.
Proof.
  intros Hin. unfold registrations.
  assert (ws ∈ filter (fun x => ws_id x = ws_id ws) l) as Hf
    by (apply list_elem_of_filter; auto).
  destruct (filter _ l); [by apply elem_of_nil in Hf|cbn; lia].
Qed.

(** X6: [broadcast_to_all] never raises and sends the payload once for
    every registration of every bucket: each observer of any session whose
    peer is alive receives it at least once, whatever happens to the other
    sends, and with no connection at all nothing is sent. *)
Theorem broadcast_to_all_reaches_everyone (connections : Connections) (data : Payload)
    (net0 : Net) :
  let r := broadcast_to_all connections data net0 in
  fst r = Ret tt
  ∧ (∀ i, snd r !! i
          = deliver (registrations i (all_observers connections)) data <$> net0 !! i)
  ∧ (∀ session observers ws p,
       connections !! session = Some observers → ws ∈ observers →
       net0 !! ws_id ws = Some p → peer_closed p = false →
       ∃ k, (1 ≤ k)%nat
            ∧ snd r !! ws_id ws
              = Some {| peer_closed := false;
                        peer_received := peer_received p ++ replicate k data |})
  ∧ (connections = ∅ → snd r = net0).
Proof.
  cbv zeta.
  assert (E : broadcast_to_all connections data net0
              = gather (map (fun ws => _send_to_websocket ws data)
                          (all_observers connections)) net0).
  { unfold broadcast_to_all. by destruct (all_observers connections). }
  rewrite E. destruct (gather_sends data (all_observers connections) net0) as [G1 G2].
  split; [exact G1|]. split; [exact G2|]. split.
  - intros session observers ws p Ec Hin Hp Hopen.
    exists (registrations (ws_id ws) (all_observers connections)). split.
    + eapply registrations_pos, all_observers_elem; eauto.
    + rewrite G2, Hp. cbn. unfold deliver. by rewrite Hopen.
  - intros ->. unfold all_observers. by rewrite map_to_list_empty.
Qed.

Lemma closed_peer_idem p : closed_peer (closed_peer p) = closed_peer p.
Proof. reflexivity. Qed.

Lemma close_quietly_lookup ws (net0 : Net) i :
  fst (close_quietly ws net0) = Ret tt
  ∧ snd (close_quietly ws net0) !! i
    = (if decide (ws_id ws = i) then closed_peer else (fun p => p)) <$> net0 !! i.
Proof.
  unfold close_quietly, try_except, close.
  destruct (net0 !! ws_id ws) as [p|] eqn:E.
  - destruct (peer_closed p) eqn:C; cbn.
    + split; [reflexivity|]. case_decide; subst; [|by destruct (net0 !! i)].
      rewrite E. cbn. f_equal. destruct p as [c r]. cbn in C. by subst c.
    + split; [reflexivity|]. case_decide; subst.
      * by rewrite lookup_insert_eq, E.
      * rewrite lookup_insert_ne by done. by destruct (net0 !! i).
  - cbn. split; [reflexivity|]. case_decide; subst; [by rewrite E|by destruct (net0 !! i)].
Qed.

Lemma close_each_lookup (l : list WebSocket) (net0 : Net) :
  fst (close_each l net0) = Ret tt
  ∧ ∀ i, snd (close_each l net0) !! i
         = (fun p => if decide (registrations i l = 0) then p else closed_peer p)
           <$> net0 !! i.
Proof.
  revert net0. induction l as [|ws l IH]; intros net0.
  - split; [reflexivity|]. intros i. cbn. by destruct (net0 !! i).
  - cbn [close_each]. unfold bind.
    destruct (close_quietly_lookup ws net0 0) as [R _].
    destruct (close_quietly ws net0) as [o n1] eqn:Eq. cbn in R. subst o.
    destruct (IH n1) as [IH1 IH2]. split; [exact IH1|]. intros i. rewrite IH2.
    pose proof (proj2 (close_quietly_lookup ws net0 i)) as L. rewrite Eq in L. cbn [snd] in L.
    rewrite L, registrations_cons.
    destruct (net0 !! i) as [p|]; cbn; [|reflexivity]. f_equal.
    destruct (decide (ws_id ws = i)); destruct (decide (registrations i l = 0)) as [H0|H0];
      rewrite ?H0; cbn; repeat case_decide; try reflexivity; lia.
Qed.

(** X7: [disconnect_all] never raises, whatever the closes do; it closes
    the peer of every registered connection, keeps what each peer had
    received, leaves the other peers alone and empties the map, so that a
    later broadcast sends nothing. *)
Theorem disconnect_all_closes_and_clears (connections : Connections) (net0 : Net) :
  let r := disconnect_all (connections, net0) in
  fst r = Ret tt
  ∧ fst (snd r) = ∅
  ∧ (∀ i, snd (snd r) !! i
          = (fun p => if decide (registrations i (all_observers connections) = 0)
                      then p else closed_peer p) <$> net0 !! i)
  ∧ (∀ session observers ws p,
       connections !! session = Some observers → ws ∈ observers →
       net0 !! ws_id ws = Some p →
       snd (snd r) !! ws_id ws = Some (closed_peer p))
  ∧ (∀ session data,
       snd (broadcast_to_session (fst (snd r)) session data (snd (snd r))) = snd (snd r)).
Proof.
  cbv zeta. unfold disconnect_all.
  destruct (close_each_lookup (all_observers connections) net0) as [C1 C2].
  destruct (close_each (all_observers connections) net0) as [o n'] eqn:E.
  cbn in C1. subst o. cbn [fst snd] in *.
  split; [reflexivity|]. split; [reflexivity|]. split; [exact C2|]. split.
  - intros session observers ws p Ec Hin Hp. rewrite C2, Hp. cbn. f_equal.
    rewrite decide_False; [reflexivity|].
    pose proof (registrations_pos ws _ (all_observers_elem _ _ _ _ Ec Hin)). lia.
  - intros session data. unfold broadcast_to_session. by rewrite lookup_empty.
Qed.

End Delivery.

(** ** More on what a run leaves in the task *)

Section RunRecord.
Import TaskManager.

Lemma dict_set_keys k v (d : list (string * string)) :
  (k ∈ dict_keys d → dict_keys (Extract.dict_set k v d) = dict_keys d)
  ∧ (k ∉ dict_keys d → dict_keys (Extract.dict_set k v d) = dict_keys d ++ [k]).
Proof.
  unfold dict_keys. induction d as [|[k' v'] d IH]; cbn [Extract.dict_set map fst].
  - split; [intros H; by apply elem_of_nil in H|reflexivity].
  - destruct (String.eqb_spec k k') as [->|Hne]; cbn [map fst].
    + split; [reflexivity|]. intros H. exfalso. apply H. left.
    + destruct IH as [IH1 IH2]. split.
      * intros H. apply elem_of_cons in H as [?|H]; [congruence|]. by rewrite IH1.
      * intros H. rewrite IH2; [reflexivity|]. intros Hin. apply H. by right.
Qed.

Lemma truthy_true s : Py.truthy s = true ↔ s ≠ "".
Proof. destruct s; cbn; split; congruence. Qed.

Lemma record_tool_commands l item : commands_ok l → commands_ok (Extract.record_tool l item).
Proof.
  intros [Hd Hk]. unfold Extract.record_tool.
  destruct (Extract.resolve_tool item) as [[n|] a]; [|by split].
  destruct (Py.truthy n); [|by split].
  unfold commands_ok. cbn [Extract.seen_commands Extract.seen_tools].
  destruct (dict_set_keys n (Extract.command_text n a) (Extract.seen_commands l)) as [K1 K2].
  destruct (decide (n ∈ dict_keys (Extract.seen_commands l))) as [Hin|Hin].
  - rewrite (K1 Hin). split; [exact Hd|]. intros k. rewrite elem_of_app, Hk.
    split; [auto|]. intros [?|H1]; [done|]. apply list_elem_of_singleton in H1. subst.
    by apply Hk.
  - rewrite (K2 Hin). split.
    + apply NoDup_app. split; [exact Hd|]. split; [|apply NoDup_singleton].
      intros x Hx H1. apply list_elem_of_singleton in H1. by subst.
    + intros k. rewrite !elem_of_app, Hk. reflexivity.
Qed.

Lemma record_tool_messages l item : messages_ok l → messages_ok (Extract.record_tool l item).
Proof.
  intros H. unfold Extract.record_tool.
  destruct (Extract.resolve_tool item) as [[n|] a]; [|exact H].
  destruct (Py.truthy n); exact H.
Qed.

Lemma record_message_commands l item :
  commands_ok l → commands_ok (Extract.record_message l item).
Proof.
  intros H. unfold Extract.record_message.
  destruct (item_raw item) as [raw|]; [|exact H].
  destruct (raw_content raw) as [[|ci ?]|]; try exact H.
  cbv zeta. destruct (negb _ && _); [exact H|]. destruct (_ && _); exact H.
Qed.

Lemma record_message_messages l item :
  messages_ok l → messages_ok (Extract.record_message l item).
Proof.
  intros H. unfold Extract.record_message.
  destruct (item_raw item) as [raw|]; [|exact H].
  destruct (raw_content raw) as [[|ci ?]|]; try exact H.
  cbv zeta. set (text := Extract.message_text ci).
  destruct (Py.truthy (Extract.initial_message l)) eqn:Ti; cbn [negb andb].
  - destruct (Py.truthy text) eqn:Tt; cbn [andb]; [|exact H].
    destruct (String.eqb_spec text (Extract.initial_message l)) as [Heq|Hne];
      cbn [negb]; [exact H|].
    unfold messages_ok. cbn [Extract.final_message Extract.initial_message].
    intros _. split; [by apply truthy_true|exact Hne].
  - destruct (Py.truthy text) eqn:Tt; cbn [andb]; [|exact H].
    unfold messages_ok. cbn [Extract.final_message Extract.initial_message].
    intros Hf. exfalso. apply H in Hf as [Hi _]. apply truthy_true in Hi. congruence.
Qed.

Lemma record_output_ok l item :
  (commands_ok l → commands_ok (Extract.record_output l item))
  ∧ (messages_ok l → messages_ok (Extract.record_output l item)).
Proof.
  unfold Extract.record_output. destruct (item_output item); split; auto.
Qed.

Lemma process_item_ok l item :
  commands_ok l ∧ messages_ok l →
  commands_ok (Extract.process_item l item) ∧ messages_ok (Extract.process_item l item).
Proof.
  intros [Hc Hm]. unfold Extract.process_item.
  destruct (item_type item) as [ty|]; [|by split]. cbv zeta.
  destruct (Py.contains "tool_call" (Py.lower ty)).
  { split; [by apply record_tool_commands|by apply record_tool_messages]. }
  destruct (_ || _).
  { split; [by apply record_message_commands|by apply record_message_messages]. }
  destruct (Py.contains "tool_call_output" (Py.lower ty)); [|by split].
  split; by apply record_output_ok.
Qed.

Lemma process_items_ok (items : list Item) :
  commands_ok (Extract.process_items items) ∧ messages_ok (Extract.process_items items).
Proof.
  unfold Extract.process_items.
  assert (G : ∀ l, commands_ok l ∧ messages_ok l →
                   commands_ok (fold_left Extract.process_item items l)
                   ∧ messages_ok (fold_left Extract.process_item items l)).
  { induction items as [|item items IH]; intros l H; cbn [fold_left]; [exact H|].
    apply IH, process_item_ok, H. }
  apply G. split.
  - split; [apply NoDup_nil_2|]. intros k. reflexivity.
  - intros H. by exfalso.
Qed.

(** X8: after a run that returns, [metadata.tool_commands] has exactly one
    entry for each tool of [tools_used], whatever the items of the run and
    however often a tool was called: its keys are [tools_used] up to
    order. *)
Theorem tool_commands_match_tools_used (tid : string) (run_result : RunResult)
    (w : World) (t : Task) :
  tasks w !! tid = Some t →
  ∃ t', tasks (snd (exec_resume tid (Ret run_result) w)) !! tid = Some t'
        ∧ NoDup (dict_keys (tool_commands (metadata t')))
        ∧ dict_keys (tool_commands (metadata t')) ≡ₚ tools_used t'.
Proof.
  intros E. rewrite (exec_resume_returned _ _ _ _ E).
  eexists. split; [apply lookup_insert_eq|].
  cbn [metadata tools_used with_completed_at succeeded with_token_usage with_logs
       with_tools_used with_status with_metadata Extract.build_metadata tool_commands].
  destruct (process_items_ok (new_items run_result)) as [[Hd Hk] _].
  split; [exact Hd|]. unfold extracted_tools, Py.list_set, extracted.
  apply NoDup_Permutation; [exact Hd|apply NoDup_elements|].
  intros k. rewrite elem_of_elements, elem_of_list_to_set. apply Hk.
Qed.

Lemma tool_commands_match_tools_used_witness :
  ∃ t', tasks (snd (exec_resume "t1" (run_outcome (Sample.scanner "hello"))
                      (Sample.with_task Sample.scanner))) !! "t1" = Some t'
        ∧ dict_keys (tool_commands (metadata t')) ≡ₚ tools_used t'.
Proof.
  destruct (tool_commands_match_tools_used "t1"
              {| new_items := [Sample.tool_item "nmap"; Sample.output_item "22/tcp open";
                               Sample.tool_item "nmap"; Sample.message_item "done"];
                 raw_responses := [] |}
              (Sample.with_task Sample.scanner)
              {| id := "t1"; session_id := "s1"; message := "hello"; status := PENDING;
                 created_at := 2; started_at := None; completed_at := None;
                 result := None; error := None; logs := []; tools_used := [];
                 token_usage := None; metadata := metadata_empty |})
    as (t' & E & _ & P).
  - vm_compute. reflexivity.
  - exists t'. split; [exact E|exact P].
Defined.

(** X9: after a run that returns, [metadata.final_response] is set only
    together with [metadata.initial_thinking], and the two differ: a message
    that repeats the first one is never taken for the final response. *)
Theorem final_response_differs (tid : string) (run_result : RunResult)
    (w : World) (t : Task) :
  tasks w !! tid = Some t →
  ∃ t', tasks (snd (exec_resume tid (Ret run_result) w)) !! tid = Some t'
        ∧ ∀ final, final_response (metadata t') = Some final →
            final ≠ ""
            ∧ ∃ initial, initial_thinking (metadata t') = Some initial
                         ∧ initial ≠ "" ∧ final ≠ initial.
Proof.
  intros E. rewrite (exec_resume_returned _ _ _ _ E).
  eexists. split; [apply lookup_insert_eq|].
  cbn [metadata with_completed_at succeeded with_token_usage with_logs
       with_tools_used with_status with_metadata Extract.build_metadata
       final_response initial_thinking].
  destruct (process_items_ok (new_items run_result)) as [_ Hm]. fold (extracted run_result) in Hm.
  intros final.
  destruct (Py.truthy (Extract.final_message (extracted run_result))) eqn:Tf; [|discriminate].
  intros [= <-]. apply truthy_true in Tf. destruct (Hm Tf) as [Hi Hne].
  split; [exact Tf|]. exists (Extract.initial_message (extracted run_result)).
  apply truthy_true in Hi. rewrite Hi. apply truthy_true in Hi. auto.
Qed.

Lemma final_response_differs_witness :
  ∃ t', tasks (snd (exec_resume "t1"
                      (Ret {| new_items := [Sample.message_item "plan";
                                            Sample.message_item "plan";
                                            Sample.message_item "answer"];
                              raw_responses := [] |})
                      (Sample.with_task Sample.echo))) !! "t1" = Some t'
        ∧ ∀ final, final_response (metadata t') = Some final → final ≠ "".
Proof.
  destruct (final_response_differs "t1"
              {| new_items := [Sample.message_item "plan"; Sample.message_item "plan";
                               Sample.message_item "answer"];
                 raw_responses := [] |}
              (Sample.with_task Sample.echo)
              {| id := "t1"; session_id := "s1"; message := "hello"; status := PENDING;
                 created_at := 2; started_at := None; completed_at := None;
                 result := None; error := None; logs := []; tools_used := [];
                 token_usage := None; metadata := metadata_empty |})
    as (t' & E & H).
  - vm_compute. reflexivity.
  - exists t'. split; [exact E|]. intros final Hf. exact (proj1 (H final Hf)).
Defined.

(** X10: no run leaves a tool output in the task.  Every item whose type
    contains [tool_call_output] also contains [tool_call], so it is handled
    as a tool call: after a run that returns, [metadata.tool_outputs] is
    empty, and an item that carries an output and no tool name changes
    nothing at all. *)
Theorem tool_outputs_stay_empty :
  (∀ (tid : string) (run_result : RunResult) (w : World) (t : Task),
     tasks w !! tid = Some t →
     ∃ t', tasks (snd (exec_resume tid (Ret run_result) w)) !! tid = Some t'
           ∧ tool_outputs (metadata t') = [])
  ∧ (∀ (l : Extract.Locals) (ty out : string),
       Py.contains "tool_call_output" (Py.lower ty) = true →
       Extract.process_item l
         {| item_type := Some ty; item_tool_name := None; item_raw := None;
            item_output := Some out |} = l).
Proof.
  split.
  - intros tid run_result w t E. rewrite (exec_resume_returned _ _ _ _ E).
    eexists. split; [apply lookup_insert_eq|].
    cbn [metadata with_completed_at succeeded with_token_usage with_logs
         with_tools_used with_status with_metadata Extract.build_metadata tool_outputs].
    apply tool_outputs_never_recorded.
  - intros l ty out C. unfold Extract.process_item. cbn [item_type]. cbv zeta.
    rewrite (contains_app "tool_call" "_output" _ C). reflexivity.
Qed.

Lemma usage_fold (responses : list Response) (acc : TokenUsage) :
  let total :=
    fold_left
      (fun acc r =>
         match usage r with
         | Some u =>
             {| prompt_tokens := (prompt_tokens acc + prompt_tokens u)%Z;
                completion_tokens := (completion_tokens acc + completion_tokens u)%Z;
                total_tokens := (total_tokens acc + total_tokens u)%Z |}
         | None => acc
         end) responses acc in
  prompt_tokens total = (prompt_tokens acc + usage_total prompt_tokens responses)%Z
  ∧ completion_tokens total
    = (completion_tokens acc + usage_total completion_tokens responses)%Z
  ∧ total_tokens total = (total_tokens acc + usage_total total_tokens responses)%Z.
Proof.
  cbv zeta. revert acc. induction responses as [|r rs IH]; intros acc; cbn [fold_left].
  - unfold usage_total. cbn. lia.
  - destruct (IH match usage r with
                 | Some u =>
                     {| prompt_tokens := (prompt_tokens acc + prompt_tokens u)%Z;
                        completion_tokens := (completion_tokens acc + completion_tokens u)%Z;
                        total_tokens := (total_tokens acc + total_tokens u)%Z |}
                 | None => acc
                 end) as (H1 & H2 & H3).
    rewrite H1, H2, H3. unfold usage_total. cbn [foldr].
    destruct (usage r) as [u|]; cbn; lia.
Qed.

(** X11: the token usage a run leaves is the sum, counter by counter, of
    what its responses report, a response without usage counting for
    nothing; it is stored only when the summed total is positive, and
    otherwise the task keeps the usage it had. *)
Theorem token_usage_is_summed (tid : string) (run_result : RunResult)
    (w : World) (t : Task) :
  tasks w !! tid = Some t →
  let responses := raw_responses run_result in
  ∃ t', tasks (snd (exec_resume tid (Ret run_result) w)) !! tid = Some t'
        ∧ ((0 < usage_total total_tokens responses)%Z →
           token_usage t'
           = Some {| prompt_tokens := usage_total prompt_tokens responses;
                     completion_tokens := usage_total completion_tokens responses;
                     total_tokens := usage_total total_tokens responses |})
        ∧ ((usage_total total_tokens responses ≤ 0)%Z → token_usage t' = token_usage t).
Proof.
  intros E. cbv zeta. rewrite (exec_resume_returned _ _ _ _ E).
  eexists. split; [apply lookup_insert_eq|].
  cbn [token_usage with_completed_at succeeded with_token_usage].
  unfold Extract.extract_usage, Extract.sum_usage.
  destruct (usage_fold (raw_responses run_result)
              {| prompt_tokens := 0; completion_tokens := 0; total_tokens := 0 |})
    as (H1 & H2 & H3).
  cbn [prompt_tokens completion_tokens total_tokens] in H1, H2, H3.
  destruct (raw_responses run_result) as [|r rs] eqn:Er.
  - unfold usage_total. cbn. split; [lia|reflexivity].
  - rewrite <- Er in *. clear Er.
    set (total := fold_left _ _ _) in *. cbv zeta. split.
    + intros Hp. assert ((0 <? total_tokens total)%Z = true) as -> by lia.
      f_equal. destruct total as [a b c]. cbn in H1, H2, H3. subst.
      f_equal; lia.
    + intros Hn. assert ((0 <? total_tokens total)%Z = false) as -> by lia.
      reflexivity.
Qed.

Lemma token_usage_is_summed_witness :
  ∃ t', tasks (snd (exec_resume "t1"
                      (Ret {| new_items := [];
                              raw_responses :=
                                [ {| usage := Some {| prompt_tokens := 10;
                                                      completion_tokens := 5;
                                                      total_tokens := 15 |} |};
                                  {| usage := None |};
                                  {| usage := Some {| prompt_tokens := 1;
                                                      completion_tokens := 2;
                                                      total_tokens := 3 |} |} ] |})
                      (Sample.with_task Sample.echo))) !! "t1" = Some t'
        ∧ token_usage t'
          = Some {| prompt_tokens := 11; completion_tokens := 7; total_tokens := 18 |}.
Proof.
  destruct (token_usage_is_summed "t1"
              {| new_items := [];
                 raw_responses :=
                   [ {| usage := Some {| prompt_tokens := 10; completion_tokens := 5;
                                         total_tokens := 15 |} |};
                     {| usage := None |};
                     {| usage := Some {| prompt_tokens := 1; completion_tokens := 2;
                                         total_tokens := 3 |} |} ] |}
              (Sample.with_task Sample.echo)
              {| id := "t1"; session_id := "s1"; message := "hello"; status := PENDING;
                 created_at := 2; started_at := None; completed_at := None;
                 result := None; error := None; logs := []; tools_used := [];
                 token_usage := None; metadata := metadata_empty |})
    as (t' & E & H & _).
  - vm_compute. reflexivity.
  - exists t'. split; [exact E|]. apply H. vm_compute. reflexivity.
Defined.

End RunRecord.

(** ** Relations that every operation of the task manager keeps *)

Section Preserved.
Import TaskManager TaskManagerApi.

Variable R : World → World → Prop.
Hypothesis R_refl : ∀ w, R w w.
Hypothesis R_trans : ∀ a b c, R a b → R b c → R a c.
Hypothesis R_clock : ∀ w c, R w (set_clock c w).
Hypothesis R_journal : ∀ w j, R w (set_journal j w).
Hypothesis R_handles : ∀ w h, R w (set_running_tasks h w).
Hypothesis R_assign :
  ∀ w tid f, field_update f → R w (set_tasks (alter f tid (tasks w)) w).
Hypothesis R_notify :
  ∀ w session task, R w (snd (broadcast GlobalHub session (TaskUpdate task) w)).

Lemma preserves_ret {A} (a : A) : preserves R (ret a).
Proof. intros w. apply R_refl. Qed.

Lemma preserves_raise {A} e : preserves R (raise e : M A).
Proof. intros w. apply R_refl. Qed.

Lemma preserves_bind {A B} (m : M A) (k : A → M B) :
  preserves R m → (∀ a, preserves R (k a)) → preserves R (bind m k).
Proof.
  intros Hm Hk w. unfold bind. specialize (Hm w).
  destruct (m w) as [[a|e] w1]; cbn [snd] in *; [|exact Hm].
  eapply R_trans; [exact Hm|apply Hk].
Qed.

Lemma preserves_try_except {A} (body : M A) (handler : PyExn → M A) :
  preserves R body → (∀ e, preserves R (handler e)) →
  preserves R (try_except body handler).
Proof.
  intros Hb Hh w. unfold try_except. specialize (Hb w).
  destruct (body w) as [[a|e] w1]; cbn [snd] in *; [exact Hb|].
  eapply R_trans; [exact Hb|apply Hh].
Qed.

Lemma preserves_try_finally {A} (body : M A) (fin : M unit) :
  preserves R body → preserves R fin → preserves R (try_finally body fin).
Proof.
  intros Hb Hf w. unfold try_finally. specialize (Hb w).
  destruct (body w) as [o w1]. cbn [snd] in *. specialize (Hf w1).
  destruct (fin w1) as [[u|e] w2]; cbn [snd] in *; eapply R_trans; eauto.
Qed.

Lemma preserves_utcnow : preserves R utcnow.
Proof. intros w. apply R_clock. Qed.

Lemma preserves_assign tid f : field_update f → preserves R (assign tid f).
Proof. intros Hf w. by apply R_assign. Qed.

Lemma field_update_set (f : Task → Task) :
  (∀ t, id (f t) = id t ∧ session_id (f t) = session_id t ∧ message (f t) = message t
        ∧ created_at (f t) = created_at t) →
  field_update f.
Proof. intros H t. exact (H t). Qed.

Lemma preserves_assign_completed_at tid : preserves R (assign_completed_at tid).
Proof.
  unfold assign_completed_at. apply preserves_bind; [apply preserves_utcnow|].
  intros now. apply preserves_bind.
  - apply preserves_assign, field_update_set. by intros ?.
  - intros _ w. apply R_journal.
Qed.

Lemma preserves_notify tid : preserves R (_notify_task_update tid).
Proof.
  intros w. unfold _notify_task_update.
  destruct (tasks w !! tid) as [t|]; [apply R_notify|apply R_refl].
Qed.

Lemma preserves_exec_prologue tid : preserves R (exec_prologue tid).
Proof.
  unfold exec_prologue.
  apply preserves_bind; [apply preserves_assign, field_update_set; by intros ?|].
  intros _. apply preserves_bind; [apply preserves_utcnow|].
  intros now. apply preserves_bind; [apply preserves_assign, field_update_set; by intros ?|].
  intros _. apply preserves_notify.
Qed.

Lemma preserves_tool_logs tools : preserves R (tool_logs tools).
Proof.
  induction tools as [|x tools IH]; cbn [tool_logs]; [apply preserves_ret|].
  apply preserves_bind; [apply preserves_utcnow|]. intros now.
  apply preserves_bind; [exact IH|]. intros entries. apply preserves_ret.
Qed.

Lemma preserves_exec_success tid result : preserves R (exec_success tid result).
Proof.
  unfold exec_success. cbv zeta.
  repeat first
    [ apply preserves_assign_completed_at
    | apply preserves_tool_logs
    | apply preserves_assign, field_update_set; by intros ?
    | apply preserves_bind; [|intros ?] ].
Qed.

Lemma preserves_exec_handler tid e : preserves R (exec_handler tid e).
Proof.
  assert (Hc : preserves R (on_cancelled tid)).
  { unfold on_cancelled.
    repeat first
      [ apply preserves_raise
      | apply preserves_assign, field_update_set; by intros ?
      | apply preserves_bind; [|intros ?] ]. }
  assert (He : preserves R (on_exception tid e)).
  { unfold on_exception.
    repeat first
      [ apply preserves_utcnow
      | apply preserves_assign, field_update_set; by intros ?
      | apply preserves_bind; [|intros ?] ]. }
  unfold exec_handler. destruct e; cbn [is_Exception]; try exact He; exact Hc.
Qed.

Lemma preserves_finalization tid : preserves R (finalization tid).
Proof.
  unfold finalization. apply preserves_bind; [apply preserves_assign_completed_at|].
  intros _. apply preserves_bind; [intros w; apply R_handles|].
  intros _. apply preserves_notify.
Qed.

Lemma preserves_execute_task tid (run : M RunResult) :
  preserves R run → preserves R (_execute_task tid run).
Proof.
  intros Hr. unfold _execute_task. apply preserves_try_finally.
  - apply preserves_try_except; [|intros e; apply preserves_exec_handler].
    apply preserves_bind; [apply preserves_exec_prologue|]. intros _.
    apply preserves_bind; [exact Hr|]. intros result. apply preserves_exec_success.
  - apply preserves_finalization.
Qed.

Lemma preserves_exec_resume tid resumed : preserves R (exec_resume tid resumed).
Proof.
  unfold exec_resume. apply preserves_try_finally.
  - apply preserves_try_except; [|intros e; apply preserves_exec_handler].
    apply preserves_bind; [intros w; apply R_refl|].
    intros result. apply preserves_exec_success.
  - apply preserves_finalization.
Qed.

Lemma preserves_start tid : preserves R (Loop.start tid).
Proof.
  intros w. unfold Loop.start.
  destruct (running_tasks w !! tid) as [[[| |] a]|]; try apply R_refl.
  revert w. apply preserves_bind; [apply preserves_exec_prologue|].
  intros _ w. apply R_handles.
Qed.

Lemma preserves_finish tid : preserves R (Loop.finish tid).
Proof.
  intros w. unfold Loop.finish.
  destruct (running_tasks w !! tid) as [[[| |] a]|]; try apply R_refl;
    destruct (Loop.awaited_run tid w); try apply R_refl.
  apply preserves_exec_resume.
Qed.

Lemma preserves_cancel tid : preserves R (Loop.cancel tid).
Proof.
  intros w. unfold Loop.cancel.
  destruct (running_tasks w !! tid) as [[[| |] a]|]; try apply R_refl.
  - apply R_handles.
  - cbn [snd]. apply preserves_exec_resume.
Qed.

Lemma preserves_wait_for tid timeout env : preserves R (Loop.wait_for tid timeout env).
Proof.
  intros w. unfold Loop.wait_for.
  destruct (running_tasks w !! tid) as [[[| |] a]|]; try apply R_refl;
    (destruct (timeout =? 0)%nat;
     [revert w; apply preserves_bind; [apply preserves_cancel|intros _; apply preserves_raise]|]);
    (revert w; apply preserves_bind; [apply preserves_start|]; intros _;
     destruct env;
     [intros w1; destruct (Loop.awaited_run tid w1) as [run|]; [|apply R_refl];
      destruct (run_duration run <? timeout)%nat; [apply preserves_finish|];
      revert w1; apply preserves_bind; [apply preserves_cancel|intros _; apply preserves_raise]
     |apply preserves_bind; [apply preserves_cancel|intros _; apply preserves_raise]]).
Qed.

Lemma preserves_on_timeout tid timeout : preserves R (on_timeout tid timeout).
Proof.
  unfold on_timeout. apply preserves_bind.
  { intros w. destruct (running_tasks w !! tid); [apply preserves_cancel|apply R_refl]. }
  intros _. apply preserves_bind; [|intros _; apply preserves_ret].
  intros w. destruct (tasks w !! tid); [|apply R_refl]. revert w.
  repeat first
    [ apply preserves_assign_completed_at
    | apply preserves_assign, field_update_set; by intros ?
    | apply preserves_bind; [|intros ?] ].
Qed.

Lemma preserves_wait_for_task tid timeout env :
  preserves R (wait_for_task tid timeout env).
Proof.
  intros w. unfold wait_for_task.
  destruct (running_tasks w !! tid); [|apply R_refl]. revert w.
  apply preserves_try_except.
  - apply preserves_bind; [apply preserves_wait_for|intros _; apply preserves_ret].
  - intros e. destruct e; cbn [is_Exception];
      first [apply preserves_on_timeout|apply preserves_ret|apply preserves_raise].
Qed.

Lemma preserves_cancel_task tid : preserves R (cancel_task tid).
Proof.
  intros w. unfold cancel_task.
  destruct (running_tasks w !! tid); [|apply R_refl]. revert w.
  apply preserves_bind; [apply preserves_cancel|intros _; apply preserves_ret].
Qed.

Lemma preserves_cleanup : preserves R cleanup.
Proof.
  intros w. unfold cleanup. cbn [snd].
  generalize (map fst (map_to_list (running_tasks w))). intros l.
  assert (G : ∀ w0, R w w0 → R w (fold_left (fun acc tid => snd (Loop.cancel tid acc)) l w0)).
  { induction l as [|tid l IH]; intros w0 H0; cbn [fold_left]; [exact H0|].
    apply IH. eapply R_trans; [exact H0|apply preserves_cancel]. }
  apply G, R_refl.
Qed.

Lemma preserves_task_steps w w' : rtc task_step w w' →
  (∀ uuid session msg a w0, tasks w0 !! uuid = None →
     R w0 (snd (create_task uuid session msg a w0))) →
  R w w'.
Proof.
  intros H Hc. induction H as [|a b c Hs _ IH]; [apply R_refl|].
  eapply R_trans; [|exact IH].
  destruct Hs as [uuid session msg ag w0 Hf|tid w0|tid w0|tid w0|tid timeout w0].
  - by apply Hc.
  - apply preserves_start.
  - apply preserves_finish.
  - apply preserves_cancel.
  - apply preserves_on_timeout.
Qed.

End Preserved.

(** ** What the steps keep *)

Section Kept.
Import TaskManager TaskManagerApi.

Lemma same_identity_refl t : same_identity t t.
Proof. by repeat split. Qed.

Lemma same_identity_trans a b c : same_identity a b → same_identity b c → same_identity a c.
Proof.
  intros (H1 & H2 & H3 & H4) (G1 & G2 & G3 & G4). unfold same_identity.
  rewrite G1, G2, G3, G4. auto.
Qed.

Lemma identity_kept_tasks w w' : tasks w' = tasks w → identity_kept w w'.
Proof. intros E tid t Et. rewrite E. eauto using same_identity_refl. Qed.

Lemma identity_kept_trans a b c : identity_kept a b → identity_kept b c → identity_kept a c.
Proof.
  intros H1 H2 tid t Et. destruct (H1 _ _ Et) as (t1 & E1 & S1).
  destruct (H2 _ _ E1) as (t2 & E2 & S2). eauto using same_identity_trans.
Qed.

Lemma identity_kept_assign w tid f :
  field_update f → identity_kept w (set_tasks (alter f tid (tasks w)) w).
Proof.
  intros Hf tid' t Et. unfold set_tasks. cbn [tasks].
  destruct (decide (tid = tid')) as [<-|Hne].
  - rewrite lookup_alter_eq, Et. cbn. eauto.
  - rewrite lookup_alter_ne by done. eauto using same_identity_refl.
Qed.

Lemma born_before_tasks w w' : tasks w' = tasks w → born_before w w'.
Proof. intros E tid t Et. rewrite E in Et. eauto using same_identity_refl. Qed.

Lemma born_before_trans a b c : born_before a b → born_before b c → born_before a c.
Proof.
  intros H1 H2 tid t Et. destruct (H2 _ _ Et) as (t1 & E1 & S1).
  destruct (H1 _ _ E1) as (t0 & E0 & S0). eauto using same_identity_trans.
Qed.

Lemma born_before_assign w tid f :
  field_update f → born_before w (set_tasks (alter f tid (tasks w)) w).
Proof.
  intros Hf tid' t'. unfold set_tasks. cbn [tasks].
  destruct (decide (tid = tid')) as [<-|Hne].
  - rewrite lookup_alter_eq. destruct (tasks w !! tid) as [t|]; [|discriminate].
    cbn. intros [= <-]. eauto.
  - rewrite lookup_alter_ne by done. eauto using same_identity_refl.
Qed.

Lemma broadcast_tasks hub session data w :
  tasks (snd (broadcast hub session data w)) = tasks w
  ∧ running_tasks (snd (broadcast hub session data w)) = running_tasks w
  ∧ sessions (snd (broadcast hub session data w)) = sessions w
  ∧ global_connections (snd (broadcast hub session data w)) = global_connections w
  ∧ main_connections (snd (broadcast hub session data w)) = main_connections w.
Proof. rewrite broadcast_eq. by repeat split. Qed.

(** The steps of the task manager other than a creation keep each of the
    relations. *)
Lemma task_ops_keep_identity :
  (∀ tid, preserves identity_kept (Loop.start tid))
  ∧ (∀ tid, preserves identity_kept (Loop.finish tid))
  ∧ (∀ tid, preserves identity_kept (Loop.cancel tid))
  ∧ (∀ tid timeout, preserves identity_kept (on_timeout tid timeout)).
Proof.
  repeat match goal with |- _ ∧ _ => split end; intros;
    first [apply preserves_start|apply preserves_finish|apply preserves_cancel
          |apply preserves_on_timeout];
    try (intros; apply identity_kept_tasks; reflexivity);
    try (intros; eapply identity_kept_trans; eassumption);
    try (intros; by apply identity_kept_assign);
    try (intros; apply identity_kept_tasks, broadcast_tasks).
Qed.

Lemma task_ops_born_before :
  (∀ tid, preserves born_before (Loop.start tid))
  ∧ (∀ tid, preserves born_before (Loop.finish tid))
  ∧ (∀ tid, preserves born_before (Loop.cancel tid))
  ∧ (∀ tid timeout, preserves born_before (on_timeout tid timeout)).
Proof.
  repeat match goal with |- _ ∧ _ => split end; intros;
    first [apply preserves_start|apply preserves_finish|apply preserves_cancel
          |apply preserves_on_timeout];
    try (intros; apply born_before_tasks; reflexivity);
    try (intros; eapply born_before_trans; eassumption);
    try (intros; by apply born_before_assign);
    try (intros; apply born_before_tasks, broadcast_tasks).
Qed.

Lemma identity_kept_create uuid session msg a w :
  tasks w !! uuid = None → identity_kept w (snd (create_task uuid session msg a w)).
Proof.
  intros Hf tid t Et. rewrite create_task_eq. unfold set_running_tasks, set_tasks.
  cbn [snd tasks]. rewrite lookup_insert_ne by congruence.
  eauto using same_identity_refl.
Qed.

Lemma identity_kept_step w w' : step w w' → identity_kept w w'.
Proof.
  destruct task_ops_keep_identity as (H1 & H2 & H3 & H4).
  intros [uuid session msg a w0 Hf|tid w0|tid w0|tid w0|tid timeout w0|w0 w1 Et Er].
  - by apply identity_kept_create.
  - apply H1.
  - apply H2.
  - apply H3.
  - apply H4.
  - by apply identity_kept_tasks.
Qed.

(** X12: a task is never removed, and the fields that identify it ([id],
    [session_id], [message], [created_at]) never change: whatever steps
    the backend takes, a task that exists still exists afterwards, under the
    same key and with these four fields as they were. *)
Theorem task_identity_is_kept (w w' : World) :
  rtc step w w' →
  ∀ tid t, tasks w !! tid = Some t →
           ∃ t', tasks w' !! tid = Some t'
                 ∧ id t' = id t ∧ session_id t' = session_id t
                 ∧ message t' = message t ∧ created_at t' = created_at t.
Proof.
  intros H. induction H as [w|a b c Hs _ IH]; intros tid t Et.
  - exists t. by repeat split.
  - destruct (identity_kept_step _ _ Hs _ _ Et) as (t1 & E1 & S1).
    destruct (IH _ _ E1) as (t2 & E2 & S2). exists t2. split; [exact E2|].
    exact (same_identity_trans _ _ _ S1 S2).
Qed.

Lemma with_task_steps a :
  rtc step world_init (Sample.with_task a)
  ∧ rtc step (Sample.with_task a)
      (snd (Loop.finish "t1" (snd (Loop.start "t1" (Sample.with_task a))))).
Proof.
  split.
  - eapply rtc_l; [apply (step_elsewhere world_init (Sample.with_session a)); reflexivity|].
    apply rtc_once. apply (step_create_task "t1" "s1" "hello" a). reflexivity.
  - eapply rtc_l; [apply (step_start "t1")|]. apply rtc_once, (step_finish "t1").
Qed.

Lemma task_identity_is_kept_witness :
  ∃ t', tasks (snd (Loop.finish "t1" (snd (Loop.start "t1" (Sample.with_task Sample.echo)))))
          !! "t1" = Some t'
        ∧ id t' = "t1" ∧ session_id t' = "s1" ∧ message t' = "hello" ∧ created_at t' = 2.
Proof.
  apply (task_identity_is_kept (Sample.with_task Sample.echo) _
           (proj2 (with_task_steps Sample.echo)) "t1"
           {| id := "t1"; session_id := "s1"; message := "hello"; status := PENDING;
              created_at := 2; started_at := None; completed_at := None;
              result := None; error := None; logs := []; tools_used := [];
              token_usage := None; metadata := metadata_empty |}).
  vm_compute. reflexivity.
Defined.

(** X13: every task is stored under its own id: in every reachable world
    the task found under a key has that key as its [id]. *)
Theorem tasks_stored_under_their_id (w : World) :
  reachable w → ∀ tid t, tasks w !! tid = Some t → id t = tid.
Proof.
  unfold reachable. revert w.
  apply (rtc_ind_r (fun w => ∀ tid t, tasks w !! tid = Some t → id t = tid)).
  - intros tid t Et. unfold world_init in Et. cbn in Et. by rewrite lookup_empty in Et.
  - intros a b Hab Hs IH tid t Et. destruct task_ops_born_before as (H1 & H2 & H3 & H4).
    assert (B : born_before a b → id t = tid).
    { intros B. destruct (B _ _ Et) as (t0 & E0 & S0 & _). rewrite S0. eauto. }
    destruct Hs as [uuid session msg ag w0 Hf|tid0 w0|tid0 w0|tid0 w0|tid0 timeout w0
                   |w0 w1 Ht Hr].
    + rewrite create_task_eq in Et. unfold set_running_tasks, set_tasks in Et.
      cbn [snd tasks] in Et. destruct (decide (uuid = tid)) as [<-|Hne].
      * rewrite lookup_insert_eq in Et. by injection Et as <-.
      * rewrite lookup_insert_ne in Et by done. eauto.
    + apply B, H1.
    + apply B, H2.
    + apply B, H3.
    + apply B, H4.
    + rewrite Ht in Et. eauto.
Qed.

Lemma tasks_stored_under_their_id_witness :
  ∃ t,
    tasks (snd (Loop.finish "t1" (snd (Loop.start "t1" (Sample.with_task Sample.echo)))))
      !! "t1" = Some t
    ∧ id t = "t1".
Proof.
  destruct (tasks (snd (Loop.finish "t1" (snd (Loop.start "t1" (Sample.with_task Sample.echo)))))
              !! "t1") as [t|] eqn:Et; [|vm_compute in Et; discriminate].
  exists t. split; [reflexivity|].
  apply (tasks_stored_under_their_id
           (snd (Loop.finish "t1" (snd (Loop.start "t1" (Sample.with_task Sample.echo)))))).
  - unfold reachable. eapply rtc_trans; apply with_task_steps.
  - exact Et.
Defined.

Lemma registry_kept_refl w : registry_kept w w.
Proof. by repeat split. Qed.

Lemma registry_kept_trans a b c : registry_kept a b → registry_kept b c → registry_kept a c.
Proof.
  intros (H1 & H2 & H3) (G1 & G2 & G3). unfold registry_kept.
  rewrite G1, G2, G3. auto.
Qed.

Lemma silent_refl w : silent w w.
Proof. by split. Qed.

Lemma silent_trans a b c : silent a b → silent b c → silent a c.
Proof.
  intros [E1 N1] [E2 N2]. split; [by rewrite E2|].
  intros H0. rewrite N2 by (by rewrite E1). auto.
Qed.

Lemma silent_notify w session task :
  silent w (snd (broadcast GlobalHub session (TaskUpdate task) w)).
Proof.
  rewrite broadcast_eq. split; [reflexivity|]. intros H0.
  unfold set_net, set_journal. cbn [snd net connections_of global_connections].
  unfold WebSocketManager.broadcast_to_session. rewrite H0, lookup_empty. reflexivity.
Qed.

(** Every operation of the task manager keeps the sessions and the two
    maps of connections, and sends nothing while the module-level manager
    has no connection. *)
Lemma task_ops_keep_registry :
  (∀ tid, preserves registry_kept (Loop.start tid))
  ∧ (∀ tid, preserves registry_kept (Loop.finish tid))
  ∧ (∀ tid, preserves registry_kept (Loop.cancel tid))
  ∧ (∀ tid timeout, preserves registry_kept (on_timeout tid timeout))
  ∧ (∀ tid timeout env, preserves registry_kept (wait_for_task tid timeout env))
  ∧ (∀ tid, preserves registry_kept (cancel_task tid))
  ∧ preserves registry_kept cleanup.
Proof.
  repeat match goal with |- _ ∧ _ => split end; intros;
    first [apply preserves_start|apply preserves_finish|apply preserves_cancel
          |apply preserves_on_timeout|apply preserves_wait_for_task
          |apply preserves_cancel_task|apply preserves_cleanup];
    try (intros; apply registry_kept_refl);
    try (intros; eapply registry_kept_trans; eassumption);
    try (intros; hnf; rewrite ?broadcast_eq; by repeat split).
Qed.

Lemma task_ops_silent :
  (∀ tid, preserves silent (Loop.start tid))
  ∧ (∀ tid, preserves silent (Loop.finish tid))
  ∧ (∀ tid, preserves silent (Loop.cancel tid))
  ∧ (∀ tid timeout, preserves silent (on_timeout tid timeout))
  ∧ (∀ tid timeout env, preserves silent (wait_for_task tid timeout env))
  ∧ (∀ tid, preserves silent (cancel_task tid))
  ∧ preserves silent cleanup
  ∧ (∀ tid resumed, preserves silent (_execute_task tid (fun w' => (resumed, w')))).
Proof.
  repeat match goal with |- _ ∧ _ => split end; intros;
    first [apply preserves_start|apply preserves_finish|apply preserves_cancel
          |apply preserves_on_timeout|apply preserves_wait_for_task
          |apply preserves_cancel_task|apply preserves_cleanup
          |apply preserves_execute_task];
    try (intros; apply silent_refl);
    try (intros; eapply silent_trans; eassumption);
    try (intros; apply silent_notify);
    try (intros; by split).
Qed.

Lemma create_task_keeps uuid session msg a w :
  registry_kept w (snd (create_task uuid session msg a w))
  ∧ silent w (snd (create_task uuid session msg a w)).
Proof. rewrite create_task_eq. by repeat split. Qed.

(** X14: task updates are sent through the manager that
    [websocket_manager.py] creates, while the [/ws] endpoint registers its
    observers with the manager that [main.py] creates.  Opening a websocket
    never adds a connection to the first one; and as long as it has none,
    no step of the task manager, and no execution of a task however it
    ends, sends anything to any peer, whoever is registered with the
    second. *)
Theorem task_updates_miss_main_observers :
  (∀ ws session w,
     global_connections (snd (Endpoints.websocket_open ws session w))
     = global_connections w)
  ∧ (∀ w w', rtc task_step w w' →
       global_connections w' = global_connections w
       ∧ main_connections w' = main_connections w
       ∧ (global_connections w = ∅ → net w' = net w))
  ∧ (∀ tid resumed w,
       global_connections w = ∅ →
       net (snd (_execute_task tid (fun w' => (resumed, w')) w)) = net w).
Proof.
  split; [|split].
  - intros ws session w. unfold Endpoints.websocket_open.
    destruct (SessionManager.get_session session w).
    + unfold hub_connect.
      destruct (WebSocketManager.connect _ _ _) as [o [c n]]. reflexivity.
    + by destruct (WebSocketManager.close ws (net w)).
  - intros w w' H.
    assert (S : silent w w').
    { apply (preserves_task_steps silent); auto using silent_refl, silent_notify.
      - intros; eapply silent_trans; eassumption.
      - intros; by split.
      - intros; by split.
      - intros; by split.
      - intros; by split.
      - intros. apply create_task_keeps. }
    assert (K : registry_kept w w').
    { apply (preserves_task_steps registry_kept); auto using registry_kept_refl.
      - intros; eapply registry_kept_trans; eassumption.
      - intros; by repeat split.
      - intros; by repeat split.
      - intros; by repeat split.
      - intros; by repeat split.
      - intros; hnf; rewrite broadcast_eq; by repeat split.
      - intros. apply create_task_keeps. }
    destruct S as [S1 S2], K as (_ & _ & K3). auto.
  - intros tid resumed w H0.
    destruct task_ops_silent as (_ & _ & _ & _ & _ & _ & _ & H).
    exact (proj2 (H tid resumed w) H0).
Qed.

(** The notifications do reach an observer of the module-level manager. *)
Lemma global_observer_is_notified :
  let w := snd (hub_connect GlobalHub {| ws_id := 7 |} "s1"
                  (set_net {[ 7 := {| peer_closed := false; peer_received := [] |} ]}
                     (Sample.with_task Sample.echo))) in
  let w' := snd (_execute_task "t1" (fun w' => (Raise CancelledError, w')) w) in
  (length ∘ peer_received) <$> net w !! 7 = Some 1
  ∧ (length ∘ peer_received) <$> net w' !! 7 = Some 3.
Proof. vm_compute. split; reflexivity. Qed.

End Kept.

(** ** Cancelling, and tasks that have ended *)

Section Lifecycle.
Import TaskManager TaskManagerApi.

Lemma sample_reachable a : reachable (Sample.with_task a).
Proof. apply with_task_steps. Qed.

(** X15: cancelling a task whose execution is suspended in its run: the
    endpoint answers with success, the task is [CANCELLED] with the error
    text of line 205 and [completed_at] set, what it had of [result] and
    [started_at] is kept, its handle is gone, one update is broadcast, and a
    second request to cancel it is refused with status 404 and changes
    nothing. *)
Theorem cancel_task_in_flight (tid : string) (w : World) (a : Agent) (t : Task) :
  running_tasks w !! tid = Some {| h_state := AwaitingRun; h_agent := a |} →
  tasks w !! tid = Some t →
  ∃ w' t',
    Endpoints.cancel_task tid w = (Ret "Task cancelled successfully", w')
    ∧ tasks w' !! tid = Some t'
    ∧ status t' = CANCELLED ∧ error t' = Some "Task was cancelled"
    ∧ completed_at t' = Some (clock w)
    ∧ result t' = result t ∧ started_at t' = started_at t
    ∧ running_tasks w' !! tid = None
    ∧ journal w'
      = journal w ++ [EvCompletedAt tid (clock w);
                      EvBroadcast GlobalHub (session_id t) (TaskUpdate t')]
    ∧ Endpoints.cancel_task tid w'
      = (Raise (HTTPException 404 "Task not found or already completed"), w').
Proof.
  intros Eh Et. unfold Endpoints.cancel_task, cancel_task. cbv [bind ret raise].
  rewrite Eh, (cancel_awaiting _ _ _ _ Eh Et).
  eexists _, _. split; [reflexivity|].
  unfold exited, updated. cbn [tasks running_tasks journal].
  rewrite lookup_insert_eq, lookup_delete_eq. repeat split; reflexivity.
Qed.

Lemma cancel_task_in_flight_witness :
  ∃ w' t',
    Endpoints.cancel_task "t1" (snd (Loop.start "t1" (Sample.with_task Sample.slow)))
    = (Ret "Task cancelled successfully", w')
    ∧ tasks w' !! "t1" = Some t' ∧ status t' = CANCELLED.
Proof.
  destruct (cancel_task_in_flight "t1" (snd (Loop.start "t1" (Sample.with_task Sample.slow)))
              Sample.slow
              {| id := "t1"; session_id := "s1"; message := "hello"; status := RUNNING;
                 created_at := 2; started_at := Some 3; completed_at := None;
                 result := None; error := None; logs := []; tools_used := [];
                 token_usage := None; metadata := metadata_empty |})
    as (w' & t' & E & Et & Hs & _).
  - vm_compute. reflexivity.
  - vm_compute. reflexivity.
  - exists w', t'. auto.
Defined.

(** X16: a task cancelled before its execution has taken its first step
    never leaves [PENDING].  [cancel_task] answers [True]; the task is not
    touched, so it has no [completed_at], and nobody is notified; its handle
    stays in [running_tasks], so a later [cancel_task] answers [True] again;
    the execution never starts; and a wait for it with a positive timeout
    raises [CancelledError]. *)
Theorem cancel_before_start (tid : string) (w : World) (a : Agent) (t : Task) :
  reachable w →
  running_tasks w !! tid = Some {| h_state := Scheduled; h_agent := a |} →
  tasks w !! tid = Some t →
  ∃ w',
    cancel_task tid w = (Ret true, w')
    ∧ status t = PENDING ∧ completed_at t = None
    ∧ tasks w' = tasks w ∧ journal w' = journal w ∧ net w' = net w
    ∧ is_Some (running_tasks w' !! tid)
    ∧ Loop.start tid w' = (Ret tt, w')
    ∧ Loop.finish tid w' = (Ret tt, w')
    ∧ cancel_task tid w' = (Ret true, w')
    ∧ ∀ timeout env, timeout ≠ 0 →
        wait_for_task tid timeout env w' = (Raise CancelledError, w').
Proof.
  intros Hr Eh Et.
  destruct (inv_handles _ (reachable_Inv _ Hr) _ _ Eh) as (t0 & Et0 & Hp).
  rewrite Et in Et0. injection Et0 as <-. destruct (Hp eq_refl) as [Hs Hc].
  unfold cancel_task at 1. cbv [bind ret]. rewrite Eh, (cancel_scheduled _ _ _ Eh).
  eexists. split; [reflexivity|].
  set (w' := set_running_tasks _ w).
  assert (Eh' : running_tasks w' !! tid
                = Some {| h_state := DoneCancelled; h_agent := a |})
    by (unfold w', set_running_tasks; cbn [running_tasks]; apply lookup_insert_eq).
  split; [exact Hs|]. split; [exact Hc|].
  split; [reflexivity|]. split; [reflexivity|]. split; [reflexivity|].
  split; [by rewrite Eh'|].
  split; [unfold Loop.start; by rewrite Eh'|].
  split; [unfold Loop.finish; rewrite Eh'; by destruct (Loop.awaited_run tid w')|].
  split.
  - unfold cancel_task. cbv [bind ret]. rewrite Eh', (cancel_done _ _ _ Eh'). reflexivity.
  - intros timeout env Hz. unfold wait_for_task, try_except, Loop.wait_for.
    cbv [bind]. rewrite Eh'. reflexivity.
Qed.

Lemma cancel_before_start_witness :
  ∃ w',
    cancel_task "t1" (Sample.with_task Sample.echo) = (Ret true, w')
    ∧ tasks w' = tasks (Sample.with_task Sample.echo)
    ∧ wait_for_task "t1" 120 Loop.Undisturbed w' = (Raise CancelledError, w').
Proof.
  destruct (cancel_before_start "t1" (Sample.with_task Sample.echo) Sample.echo
              {| id := "t1"; session_id := "s1"; message := "hello"; status := PENDING;
                 created_at := 2; started_at := None; completed_at := None;
                 result := None; error := None; logs := []; tools_used := [];
                 token_usage := None; metadata := metadata_empty |})
    as (w' & E & _ & _ & Ht & _ & _ & _ & _ & _ & _ & Hw).
  - apply sample_reachable.
  - vm_compute. reflexivity.
  - vm_compute. reflexivity.
  - exists w'. split; [exact E|]. split; [exact Ht|]. apply Hw. discriminate.
Defined.

(** X17: once an execution has ended, however it ended, the task is left
    alone: a wait for it returns [True] at once, [cancel_task] answers
    [False] and the endpoint refuses with status 404, and neither they nor
    the event loop change anything. *)
Theorem finished_task_left_alone (tid : string) (resumed : Outcome RunResult)
    (w : World) (t : Task) :
  tasks w !! tid = Some t →
  let w' := snd (exec_resume tid resumed w) in
  (∃ t', tasks w' !! tid = Some t' ∧ terminal (status t') = true)
  ∧ (∀ timeout env, wait_for_task tid timeout env w' = (Ret true, w'))
  ∧ cancel_task tid w' = (Ret false, w')
  ∧ Endpoints.cancel_task tid w'
    = (Raise (HTTPException 404 "Task not found or already completed"), w')
  ∧ Loop.start tid w' = (Ret tt, w')
  ∧ Loop.finish tid w' = (Ret tt, w')
  ∧ Loop.cancel tid w' = (Ret tt, w').
Proof.
  intros Et. cbv zeta.
  destruct (exec_resume_exits tid resumed w t Et)
    as (o & t' & c & pre & -> & _ & _ & Hs & _ & _).
  cbn [snd]. set (w' := exited _ _ _ _ _).
  assert (Eh : running_tasks w' !! tid = None)
    by (unfold w', exited, updated; cbn [running_tasks]; apply lookup_delete_eq).
  split.
  { exists t'. split.
    - unfold w', exited, updated. cbn [tasks]. apply lookup_insert_eq.
    - rewrite Hs. apply terminal_exit_status. }
  split; [intros timeout env; unfold wait_for_task; by rewrite Eh|].
  split; [unfold cancel_task; by rewrite Eh|].
  split; [unfold Endpoints.cancel_task, cancel_task; cbv [bind raise]; by rewrite Eh|].
  split; [unfold Loop.start; by rewrite Eh|].
  split; [unfold Loop.finish; by rewrite Eh|].
  unfold Loop.cancel. by rewrite Eh.
Qed.

Lemma finished_task_left_alone_witness :
  let w' := snd (exec_resume "t1" (Raise (Exception "boom" ""))
                   (Sample.with_task Sample.echo)) in
  wait_for_task "t1" 120 Loop.Undisturbed w' = (Ret true, w')
  ∧ cancel_task "t1" w' = (Ret false, w').
Proof.
  intros w'.
  destruct (finished_task_left_alone "t1" (Raise (Exception "boom" ""))
              (Sample.with_task Sample.echo)
              {| id := "t1"; session_id := "s1"; message := "hello"; status := PENDING;
                 created_at := 2; started_at := None; completed_at := None;
                 result := None; error := None; logs := []; tools_used := [];
                 token_usage := None; metadata := metadata_empty |})
    as (_ & Hw & Hc & _).
  - vm_compute. reflexivity.
  - split; [apply Hw|exact Hc].
Defined.

(** X18: the times of an execution are in order.  However the run ends,
    [_execute_task] leaves [started_at] at the reading of line 53 and
    [completed_at] at a later reading, the task in a terminal state, and the
    duration [TaskResponse.from_task] reports is defined and not negative. *)
Theorem execution_times_ordered (tid : string) (resumed : Outcome RunResult)
    (w : World) (t : Task) :
  tasks w !! tid = Some t →
  let r := _execute_task tid (fun w' => (resumed, w')) w in
  ∃ t' c,
    tasks (snd r) !! tid = Some t'
    ∧ started_at t' = Some (clock w) ∧ completed_at t' = Some c
    ∧ (clock w < c)%nat ∧ (c < clock (snd r))%nat
    ∧ terminal (status t') = true
    ∧ r_duration (from_task t') = Some (Z.of_nat c - Z.of_nat (clock w))%Z
    ∧ r_completed_at (from_task t') = Some (isoformat c).
Proof.
  intros Et. cbv zeta. rewrite (execute_task_split _ _ _ _ Et).
  rewrite (exec_prologue_eq _ _ _ Et). cbn [snd].
  set (w1 := updated _ _ _ _ _ _).
  assert (Et1 : tasks w1 !! tid = Some (started (clock w) t))
    by (unfold w1, updated; cbn [tasks]; apply lookup_insert_eq).
  assert (Ec1 : clock w1 = S (clock w)) by reflexivity.
  assert (G : ∀ t' c, started_at t' = Some (clock w) → completed_at t' = Some c →
              r_duration (from_task t') = Some (Z.of_nat c - Z.of_nat (clock w))%Z
              ∧ r_completed_at (from_task t') = Some (isoformat c)).
  { intros t' c Hs Hc. unfold from_task. cbn [r_duration r_completed_at].
    by rewrite Hs, Hc. }
  destruct resumed as [run_result|e].
  - rewrite (exec_resume_returned _ _ _ _ Et1). cbn [snd]. rewrite Ec1.
    eexists _, _. split; [unfold exited, updated; cbn [tasks]; apply lookup_insert_eq|].
    split; [reflexivity|]. split; [reflexivity|].
    unfold exited, updated. cbn [clock]. split; [lia|]. split; [lia|].
    split; [reflexivity|]. by apply G.
  - destruct (is_Exception e) eqn:He.
    + rewrite (exec_resume_raised _ _ _ _ Et1 He). cbn [snd]. rewrite Ec1.
      eexists _, _. split; [unfold exited, updated; cbn [tasks]; apply lookup_insert_eq|].
      split; [reflexivity|]. split; [reflexivity|].
      unfold exited, updated. cbn [clock]. split; [lia|]. split; [lia|].
      split; [reflexivity|]. by apply G.
    + destruct e; try discriminate.
      rewrite (exec_resume_cancelled _ _ _ Et1). cbn [snd]. rewrite Ec1.
      eexists _, _. split; [unfold exited, updated; cbn [tasks]; apply lookup_insert_eq|].
      split; [reflexivity|]. split; [reflexivity|].
      unfold exited, updated. cbn [clock]. split; [lia|]. split; [lia|].
      split; [reflexivity|]. by apply G.
Qed.

Lemma execution_times_ordered_witness :
  ∃ t' c,
    tasks (snd (_execute_task "t1" (fun w' => (run_outcome (Sample.echo "hello"), w'))
                  (Sample.with_task Sample.echo))) !! "t1" = Some t'
    ∧ started_at t' = Some 3 ∧ completed_at t' = Some c ∧ (3 < c)%nat.
Proof.
  destruct (execution_times_ordered "t1" (run_outcome (Sample.echo "hello"))
              (Sample.with_task Sample.echo)
              {| id := "t1"; session_id := "s1"; message := "hello"; status := PENDING;
                 created_at := 2; started_at := None; completed_at := None;
                 result := None; error := None; logs := []; tools_used := [];
                 token_usage := None; metadata := metadata_empty |})
    as (t' & c & E & Hs & Hc & Hlt & _).
  - vm_compute. reflexivity.
  - exists t', c. auto.
Defined.

End Lifecycle.

(** ** Terminal states, and the shutdown *)

Section Shutdown.
Import TaskManager TaskManagerApi.

Lemma start_fate tid w k t :
  Inv w → tasks w !! k = Some t → terminal (status t) = true →
  ∃ t', tasks (snd (Loop.start tid w)) !! k = Some t' ∧ terminal (status t') = true.
Proof.
  intros I Et Ht. destruct (running_tasks w !! tid) as [[[| |] a]|] eqn:Eh.
  - destruct (inv_handles _ I _ _ Eh) as (t0 & Et0 & Hp).
    rewrite (start_scheduled _ _ _ _ Eh Et0). unfold updated. cbn [snd tasks].
    destruct (decide (tid = k)) as [->|Hne].
    + rewrite Et in Et0. injection Et0 as <-. destruct (Hp eq_refl) as [Hs _].
      rewrite Hs in Ht. discriminate.
    + rewrite lookup_insert_ne by done. eauto.
  - rewrite (start_awaiting _ _ _ Eh). eauto.
  - unfold Loop.start. rewrite Eh. eauto.
  - unfold Loop.start. rewrite Eh. eauto.
Qed.

Lemma resume_fate tid resumed w t0 k t :
  tasks w !! tid = Some t0 → tasks w !! k = Some t → terminal (status t) = true →
  ∃ t', tasks (snd (exec_resume tid resumed w)) !! k = Some t' ∧ terminal (status t') = true.
Proof.
  intros Et0 Et Ht.
  destruct (exec_resume_exits tid resumed w t0 Et0)
    as (o & t' & c & pre & -> & _ & _ & Hs & _ & _).
  unfold exited, updated. cbn [snd tasks]. destruct (decide (tid = k)) as [->|Hne].
  - rewrite lookup_insert_eq. exists t'. split; [reflexivity|].
    rewrite Hs. apply terminal_exit_status.
  - rewrite lookup_insert_ne by done. eauto.
Qed.

Lemma finish_fate tid w k t :
  Inv w → tasks w !! k = Some t → terminal (status t) = true →
  ∃ t', tasks (snd (Loop.finish tid w)) !! k = Some t' ∧ terminal (status t') = true.
Proof.
  intros I Et Ht. destruct (running_tasks w !! tid) as [[[| |] a]|] eqn:Eh.
  - unfold Loop.finish. rewrite Eh. destruct (Loop.awaited_run tid w); eauto.
  - destruct (inv_handles _ I _ _ Eh) as (t0 & Et0 & _).
    rewrite (finish_awaiting _ _ _ _ Eh Et0). eapply (resume_fate _ _ _ t0); eauto.
  - unfold Loop.finish. rewrite Eh. destruct (Loop.awaited_run tid w); eauto.
  - unfold Loop.finish. rewrite Eh. eauto.
Qed.

(** What a cancellation does to the handles and the tasks. *)
Lemma cancel_effect tid w :
  Inv w →
  let w' := snd (Loop.cancel tid w) in
  (∀ k, k ≠ tid →
     running_tasks w' !! k = running_tasks w !! k ∧ tasks w' !! k = tasks w !! k)
  ∧ (∀ h, running_tasks w' !! tid = Some h →
       h_state h = DoneCancelled ∧ is_Some (running_tasks w !! tid))
  ∧ (∀ a t, running_tasks w !! tid = Some {| h_state := AwaitingRun; h_agent := a |} →
       tasks w !! tid = Some t →
       tasks w' !! tid = Some (with_completed_at (Some (clock w)) (cancelled t))
       ∧ running_tasks w' !! tid = None)
  ∧ ((∀ a, running_tasks w !! tid ≠ Some {| h_state := AwaitingRun; h_agent := a |}) →
     tasks w' = tasks w).
Proof.
  intros I. cbv zeta. destruct (running_tasks w !! tid) as [[[| |] a]|] eqn:Eh.
  - rewrite (cancel_scheduled _ _ _ Eh). unfold set_running_tasks.
    cbn [snd running_tasks tasks]. split; [|split; [|split]].
    + intros k Hk. by rewrite lookup_insert_ne.
    + rewrite lookup_insert_eq. intros h [= <-]. eauto.
    + intros ? ? [=].
    + reflexivity.
  - destruct (inv_handles _ I _ _ Eh) as (t & Et & _).
    rewrite (cancel_awaiting _ _ _ _ Eh Et). unfold exited, updated.
    cbn [snd running_tasks tasks]. split; [|split; [|split]].
    + intros k Hk. by rewrite lookup_delete_ne, lookup_insert_ne.
    + rewrite lookup_delete_eq. discriminate.
    + intros a' t' [= <-] Et'. rewrite Et in Et'. injection Et' as <-.
      by rewrite lookup_insert_eq, lookup_delete_eq.
    + intros H. by destruct (H a).
  - rewrite (cancel_done _ _ _ Eh). cbn [snd]. split; [|split; [|split]]; auto.
    + rewrite Eh. intros h [= <-]. eauto.
    + intros ? ? [=].
  - rewrite (cancel_absent _ _ Eh). cbn [snd]. split; [|split; [|split]]; auto.
    + rewrite Eh. discriminate.
    + intros ? ? [=].
Qed.

Lemma cancel_fate tid w k t :
  Inv w → tasks w !! k = Some t → terminal (status t) = true →
  ∃ t', tasks (snd (Loop.cancel tid w)) !! k = Some t' ∧ terminal (status t') = true.
Proof.
  intros I Et Ht. destruct (cancel_effect tid w I) as (Ho & _ & Ha & Hn).
  destruct (decide (k = tid)) as [->|Hne].
  - destruct (running_tasks w !! tid) as [[[| |] a]|] eqn:Eh;
      try (rewrite Hn by (intros ?; discriminate); eauto).
    destruct (Ha a t eq_refl Et) as [E _]. rewrite E. eauto.
  - destruct (Ho k Hne) as [_ E]. rewrite E. eauto.
Qed.

Lemma timeout_fate tid timeout w k t :
  Inv w → tasks w !! k = Some t → terminal (status t) = true →
  ∃ t', tasks (snd (on_timeout tid timeout w)) !! k = Some t'
        ∧ terminal (status t') = true.
Proof.
  intros I Et Ht. rewrite (on_timeout_split _ _ _ I). cbv zeta.
  destruct (cancel_fate tid w k t I Et Ht) as (t1 & E1 & H1).
  destruct (tasks (snd (Loop.cancel tid w)) !! tid) as [t0|] eqn:E0; [|eauto].
  unfold set_journal, set_clock, set_tasks. cbn [snd tasks].
  destruct (decide (tid = k)) as [->|Hne].
  - rewrite lookup_insert_eq. eauto.
  - rewrite lookup_insert_ne by done. eauto.
Qed.

Lemma step_fate w w' k t :
  Inv w → step w w' → tasks w !! k = Some t → terminal (status t) = true →
  ∃ t', tasks w' !! k = Some t' ∧ terminal (status t') = true.
Proof.
  intros I H Et Ht.
  destruct H as [uuid session msg a w Hf|tid w|tid w|tid w|tid timeout w|w w' E _].
  - rewrite create_task_eq. unfold set_running_tasks, set_tasks. cbn [snd tasks].
    rewrite lookup_insert_ne by congruence. eauto.
  - eapply start_fate; eauto.
  - eapply finish_fate; eauto.
  - eapply cancel_fate; eauto.
  - eapply timeout_fate; eauto.
  - rewrite E. eauto.
Qed.

(** X19: a terminal state is final.  In a reachable world, a task that is
    [COMPLETED], [FAILED] or [CANCELLED] is, after any further steps of the
    backend, still in one of these three states, with [completed_at] set: no
    step takes a task back to [PENDING] or [RUNNING]. *)
Theorem terminal_is_final (w w' : World) :
  reachable w → rtc step w w' →
  ∀ tid t, tasks w !! tid = Some t → terminal (status t) = true →
           ∃ t', tasks w' !! tid = Some t'
                 ∧ terminal (status t') = true ∧ is_Some (completed_at t').
Proof.
  intros Hr H. apply reachable_Inv in Hr.
  induction H as [w|a b c Hs Hbc IH]; intros tid t Et Ht.
  - exists t. split; [exact Et|]. split; [exact Ht|].
    by apply (inv_tasks _ Hr _ _ Et).
  - destruct (step_fate _ _ _ _ Hr Hs Et Ht) as (t1 & E1 & H1).
    apply (IH (step_preserves _ _ Hr Hs) tid t1 E1 H1).
Qed.

Lemma terminal_is_final_witness :
  let w := snd (Loop.finish "t1" (snd (Loop.start "t1" (Sample.with_task Sample.echo)))) in
  ∃ t', tasks (snd (on_timeout "t1" 5 (snd (Loop.start "t1" w)))) !! "t1" = Some t'
        ∧ terminal (status t') = true ∧ is_Some (completed_at t').
Proof.
  intros w.
  apply (terminal_is_final w (snd (on_timeout "t1" 5 (snd (Loop.start "t1" w))))) with
    (t := {| id := "t1"; session_id := "s1"; message := "hello"; status := COMPLETED;
             created_at := 2; started_at := Some 3; completed_at := Some 5;
             result := Some "hi there"; error := None; logs := []; tools_used := [];
             token_usage := None;
             metadata := {| initial_thinking := Some "hi there"; final_response := None;
                            tool_commands := []; tool_outputs := [] |} |}).
  - unfold reachable, w. eapply rtc_trans; apply with_task_steps.
  - eapply rtc_l; [apply (step_start "t1")|]. apply rtc_once, (step_timeout "t1" 5).
  - vm_compute. reflexivity.
  - reflexivity.
Defined.

Lemma cancel_all_spec (l : list string) (w : World) :
  Inv w →
  let w' := fold_left (fun acc tid => snd (Loop.cancel tid acc)) l w in
  Inv w'
  ∧ (∀ k, k ∉ l →
       running_tasks w' !! k = running_tasks w !! k ∧ tasks w' !! k = tasks w !! k)
  ∧ (∀ k h, running_tasks w' !! k = Some h → k ∈ l → h_state h = DoneCancelled)
  ∧ (∀ k h, running_tasks w' !! k = Some h → is_Some (running_tasks w !! k))
  ∧ (∀ k a t, running_tasks w !! k = Some {| h_state := AwaitingRun; h_agent := a |} →
       tasks w !! k = Some t → k ∈ l →
       ∃ c, tasks w' !! k = Some (with_completed_at (Some c) (cancelled t)))
  ∧ (∀ k, (∀ a, running_tasks w !! k ≠ Some {| h_state := AwaitingRun; h_agent := a |}) →
       tasks w' !! k = tasks w !! k).
Proof.
  cbv zeta. revert w. induction l as [|tid l IH]; intros w I; cbn [fold_left].
  { split; [exact I|]. split; [auto|]. split.
    - intros k h _ Hin. by apply elem_of_nil in Hin.
    - split; [eauto|]. split; [|auto].
      intros k a t _ _ Hin. by apply elem_of_nil in Hin. }
  destruct (cancel_cases tid w I) as (_ & I1 & _).
  destruct (cancel_effect tid w I) as (Ho & Hs & Ha & Hn).
  destruct (IH _ I1) as (J & J2 & J3 & J4 & J5 & J6).
  set (w1 := snd (Loop.cancel tid w)) in *.
  set (w' := fold_left _ l w1) in *.
  assert (Hidle : ∀ a, running_tasks w1 !! tid
                       ≠ Some {| h_state := AwaitingRun; h_agent := a |}).
  { intros a E. destruct (Hs _ E) as [D _]. discriminate. }
  split; [exact J|]. split; [|split; [|split; [|split]]].
  - intros k Hk. apply not_elem_of_cons in Hk as [Hk1 Hk2].
    destruct (J2 k Hk2) as [-> ->]. by apply Ho.
  - intros k h Eh Hin. destruct (decide (k ∈ l)) as [Hl|Hl]; [by apply (J3 k)|].
    apply elem_of_cons in Hin as [->|?]; [|done].
    destruct (J2 tid Hl) as [E _]. rewrite E in Eh. by apply Hs.
  - intros k h Eh. destruct (J4 _ _ Eh) as [h1 E1].
    destruct (decide (k = tid)) as [->|Hne].
    + by apply (Hs h1).
    + destruct (Ho k Hne) as [E _]. rewrite <- E. eauto.
  - intros k a t Eh Et Hin. destruct (decide (k = tid)) as [->|Hne].
    + destruct (Ha a t Eh Et) as [E1 _]. exists (clock w).
      rewrite (J6 tid Hidle). exact E1.
    + apply elem_of_cons in Hin as [?|Hin]; [done|].
      destruct (Ho k Hne) as [E1 E2]. apply (J5 k a t); [by rewrite E1|by rewrite E2|done].
  - intros k Hk. destruct (decide (k = tid)) as [->|Hne].
    + by rewrite (J6 tid Hidle), (Hn Hk).
    + destruct (Ho k Hne) as [E1 E2]. rewrite J6; [exact E2|].
      intros a. rewrite E1. apply Hk.
Qed.

Lemma cleanup_spec (w : World) :
  Inv w →
  ∃ w', cleanup w = (Ret tt, w')
        ∧ Inv w' ∧ nothing_running w'
        ∧ (∀ tid t, tasks w !! tid = Some t → status t = RUNNING →
             ∃ c, tasks w' !! tid = Some (with_completed_at (Some c) (cancelled t)))
        ∧ (∀ tid,
             (∀ a, running_tasks w !! tid
                   ≠ Some {| h_state := AwaitingRun; h_agent := a |}) →
             tasks w' !! tid = tasks w !! tid).
Proof.
  intros I. unfold cleanup. eexists. split; [reflexivity|].
  destruct (cancel_all_spec (map fst (map_to_list (running_tasks w))) w I)
    as (J & J2 & J3 & J4 & J5 & J6).
  set (w' := fold_left _ _ w) in *.
  assert (Hkeys : ∀ k h, running_tasks w !! k = Some h →
                         k ∈ map fst (map_to_list (running_tasks w))).
  { intros k h E. apply list_elem_of_fmap. exists (k, h). split; [reflexivity|].
    by apply elem_of_map_to_list. }
  assert (Hdone : ∀ k h, running_tasks w' !! k = Some h → h_state h = DoneCancelled).
  { intros k h E. destruct (J4 _ _ E) as [h0 E0]. apply (J3 k h E). eauto. }
  split; [exact J|]. split; [split|split].
  - intros tid t Et Hs. destruct (inv_running _ J _ _ Et Hs) as [a Eh].
    specialize (Hdone _ _ Eh). discriminate.
  - exact Hdone.
  - intros tid t Et Hs. destruct (inv_running _ I _ _ Et Hs) as [a Eh].
    apply (J5 tid a t Eh Et). eauto.
  - exact J6.
Qed.

Lemma suspended_step w w' : Inv w → suspended_ok w → step w w' → suspended_ok w'.
Proof.
  intros I Hs H.
  destruct H as [uuid session msg a w Hf|tid w|tid w|tid w|tid timeout w|w w' Et Er].
  - rewrite create_task_eq. unfold set_running_tasks, set_tasks. intros k b.
    cbn [snd tasks running_tasks]. destruct (decide (uuid = k)) as [<-|Hne].
    + rewrite lookup_insert_eq. discriminate.
    + rewrite !lookup_insert_ne by done. apply Hs.
  - destruct (running_tasks w !! tid) as [[[| |] a]|] eqn:Eh.
    + destruct (inv_handles _ I _ _ Eh) as (t0 & Et0 & _).
      rewrite (start_scheduled _ _ _ _ Eh Et0). unfold updated. intros k b.
      cbn [snd tasks running_tasks]. destruct (decide (tid = k)) as [<-|Hne].
      * rewrite !lookup_insert_eq. eauto.
      * rewrite !lookup_insert_ne by done. apply Hs.
    + by rewrite (start_awaiting _ _ _ Eh).
    + unfold Loop.start. by rewrite Eh.
    + unfold Loop.start. by rewrite Eh.
  - destruct (running_tasks w !! tid) as [[[| |] a]|] eqn:Eh;
      try (unfold Loop.finish; rewrite Eh; by destruct (Loop.awaited_run tid w)).
    destruct (inv_handles _ I _ _ Eh) as (t0 & Et0 & _).
    rewrite (finish_awaiting _ _ _ _ Eh Et0).
    destruct (exec_resume_exits tid (run_outcome (a (message t0))) w t0 Et0)
      as (o & t' & c & pre & -> & _).
    unfold exited, updated. intros k b. cbn [snd tasks running_tasks].
    destruct (decide (tid = k)) as [<-|Hne].
    + rewrite lookup_delete_eq. discriminate.
    + rewrite lookup_delete_ne, lookup_insert_ne by done. apply Hs.
  - destruct (cancel_effect tid w I) as (Ho & Hd & _ & _). intros k b Ek.
    destruct (decide (k = tid)) as [->|Hne].
    + destruct (Hd _ Ek) as [D _]. discriminate.
    + destruct (Ho k Hne) as [E1 E2]. rewrite E2. apply (Hs k b). by rewrite <- E1.
  - rewrite (on_timeout_split _ _ _ I). cbv zeta.
    destruct (cancel_effect tid w I) as (Ho & Hd & _ & _).
    assert (H1 : suspended_ok (snd (Loop.cancel tid w))).
    { intros k b Ek. destruct (decide (k = tid)) as [->|Hne].
      - destruct (Hd _ Ek) as [D _]. discriminate.
      - destruct (Ho k Hne) as [E1 E2]. rewrite E2. apply (Hs k b). by rewrite <- E1. }
    destruct (tasks (snd (Loop.cancel tid w)) !! tid) as [t0|]; [|exact H1].
    unfold set_journal, set_clock, set_tasks. intros k b. cbn [snd tasks running_tasks].
    intros Ek. destruct (decide (tid = k)) as [<-|Hne].
    + destruct (Hd _ Ek) as [D _]. discriminate.
    + rewrite lookup_insert_ne by done. by apply (H1 k b).
  - intros k b. rewrite Et, Er. apply Hs.
Qed.

Lemma reachable_suspended w : reachable w → suspended_ok w.
Proof.
  unfold reachable. intros H.
  assert (G : ∀ a b, rtc step a b → Inv a → suspended_ok a → suspended_ok b).
  { clear. intros a b H. induction H as [|a b c Hs _ IH]; intros I S; [exact S|].
    apply IH; [by apply (step_preserves a)|by apply (suspended_step a)]. }
  apply (G world_init w H Inv_init).
  intros tid a. unfold world_init. cbn. by rewrite lookup_empty.
Qed.

(** X20: a task is [RUNNING] exactly while its execution is suspended in
    the agent run: in every reachable world, the status of a stored task is
    [RUNNING] if and only if [running_tasks] holds for it an execution that
    has started and has not ended. *)
Theorem running_iff_suspended (w : World) :
  reachable w →
  ∀ tid t, tasks w !! tid = Some t →
           (status t = RUNNING
            ↔ ∃ a, running_tasks w !! tid
                   = Some {| h_state := AwaitingRun; h_agent := a |}).
Proof.
  intros Hr tid t Et. split.
  - apply (inv_running _ (reachable_Inv _ Hr) _ _ Et).
  - intros [a Eh]. destruct (reachable_suspended _ Hr _ _ Eh) as (t0 & Et0 & Hs).
    rewrite Et in Et0. by injection Et0 as <-.
Qed.

Lemma running_iff_suspended_witness :
  ∃ t, tasks (snd (Loop.start "t1" (Sample.with_task Sample.echo))) !! "t1" = Some t
       ∧ status t = RUNNING
       ∧ ∃ a, running_tasks (snd (Loop.start "t1" (Sample.with_task Sample.echo))) !! "t1"
              = Some {| h_state := AwaitingRun; h_agent := a |}.
Proof.
  assert (R : reachable (snd (Loop.start "t1" (Sample.with_task Sample.echo)))).
  { unfold reachable. eapply rtc_r; [apply with_task_steps|apply (step_start "t1")]. }
  eexists. split; [vm_compute; reflexivity|]. split; [reflexivity|].
  apply (proj1 (running_iff_suspended _ R "t1" _ eq_refl)). reflexivity.
Defined.

(** X21: [cleanup] leaves nothing running.  It returns; afterwards no task
    is [RUNNING] and no execution is suspended or can still start; every
    task that was [RUNNING] is [CANCELLED] with the error text of line 205,
    [completed_at] set and [started_at] kept; and every other task is left
    as it was. *)
Theorem cleanup_leaves_nothing_running (w : World) :
  reachable w →
  ∃ w', cleanup w = (Ret tt, w')
        ∧ (∀ tid t, tasks w' !! tid = Some t → status t ≠ RUNNING)
        ∧ (∀ tid h, running_tasks w' !! tid = Some h → h_state h = DoneCancelled)
        ∧ (∀ tid t, tasks w !! tid = Some t → status t = RUNNING →
             ∃ t', tasks w' !! tid = Some t'
                   ∧ status t' = CANCELLED ∧ error t' = Some "Task was cancelled"
                   ∧ is_Some (completed_at t') ∧ started_at t' = started_at t)
        ∧ (∀ tid t, tasks w !! tid = Some t → status t ≠ RUNNING →
             tasks w' !! tid = Some t).
Proof.
  intros Hr. assert (I := reachable_Inv _ Hr).
  destruct (cleanup_spec w I) as (w' & E & I' & [N1 N2] & Hc & Hk).
  exists w'. split; [exact E|]. split; [exact N1|]. split; [exact N2|]. split.
  - intros tid t Et Hs. destruct (Hc tid t Et Hs) as [c Ec].
    eexists. split; [exact Ec|]. cbn. eauto.
  - intros tid t Et Hs. rewrite Hk; [exact Et|].
    intros a Eh. destruct (reachable_suspended _ Hr _ _ Eh) as (t0 & Et0 & Hs0).
    rewrite Et in Et0. injection Et0 as <-. contradiction.
Qed.

Lemma cleanup_leaves_nothing_running_witness :
  ∃ w', cleanup (snd (Loop.start "t1" (Sample.with_task Sample.slow))) = (Ret tt, w')
        ∧ ∀ tid t, tasks w' !! tid = Some t → status t ≠ RUNNING.
Proof.
  destruct (cleanup_leaves_nothing_running
              (snd (Loop.start "t1" (Sample.with_task Sample.slow))))
    as (w' & E & H & _).
  - unfold reachable. eapply rtc_r; [apply with_task_steps|apply (step_start "t1")].
  - exists w'. split; [exact E|exact H].
Defined.

(** X22: the shutdown of the application ([lifespan] after its [yield])
    returns and stops everything: no task is left [RUNNING], the manager of
    [main.py] has no connection left, the peer of every observer that was
    registered with it is closed, and the sessions are not touched. *)
Theorem shutdown_stops_everything (w : World) :
  reachable w →
  ∃ w', Endpoints.shutdown w = (Ret tt, w')
        ∧ (∀ tid t, tasks w' !! tid = Some t → status t ≠ RUNNING)
        ∧ main_connections w' = ∅
        ∧ (∀ session observers ws p',
             main_connections w !! session = Some observers → ws ∈ observers →
             net w' !! ws_id ws = Some p' → peer_closed p' = true)
        ∧ sessions w' = sessions w.
Proof.
  intros Hr. assert (I := reachable_Inv _ Hr).
  destruct (cleanup_spec w I) as (w1 & E & _ & [N1 _] & _ & _).
  destruct task_ops_keep_registry as (_ & _ & _ & _ & _ & _ & K).
  specialize (K w). rewrite E in K. cbn [snd] in K. destruct K as (K1 & _ & K3).
  unfold Endpoints.shutdown, bind. rewrite E.
  unfold hub_disconnect_all, WebSocketManager.disconnect_all.
  cbn [connections_of].
  destruct (close_each_lookup (WebSocketManager.all_observers (main_connections w1)) (net w1))
    as [C1 C2].
  destruct (WebSocketManager.close_each _ (net w1)) as [o n'] eqn:Ec.
  cbn in C1. subst o. eexists. split; [reflexivity|].
  unfold set_net, set_connections. cbn [tasks main_connections net sessions].
  split; [exact N1|]. split; [reflexivity|]. split; [|exact K1].
  intros session observers ws p' Eo Hin. rewrite C2. rewrite <- K3 in Eo.
  pose proof (registrations_pos ws _ (all_observers_elem _ _ _ _ Eo Hin)) as Hp.
  destruct (net w1 !! ws_id ws) as [p|]; [|discriminate]. cbn.
  rewrite decide_False by lia. by intros [= <-].
Qed.

Lemma shutdown_stops_everything_witness :
  ∃ w', Endpoints.shutdown (snd (Loop.start "t1" (Sample.with_task Sample.slow)))
        = (Ret tt, w')
        ∧ main_connections w' = ∅.
Proof.
  destruct (shutdown_stops_everything
              (snd (Loop.start "t1" (Sample.with_task Sample.slow))))
    as (w' & E & _ & H & _).
  - unfold reachable. eapply rtc_r; [apply with_task_steps|apply (step_start "t1")].
  - exists w'. split; [exact E|exact H].
Defined.

End Shutdown.

(** ** What a request leaves in the log, and what it sends *)

Section Requests.
Import TaskManager TaskManagerApi Main.

Lemma add_messages_nil s : add_messages [] s = s.
Proof. destruct s. unfold add_messages. cbn. by rewrite app_nil_r. Qed.

Lemma add_messages_app a b s : add_messages b (add_messages a s) = add_messages (a ++ b) s.
Proof. unfold add_messages. cbn. by rewrite app_assoc. Qed.

Lemma log_extended_same session w w' :
  sessions w' = sessions w → log_extended session [] w w'.
Proof.
  intros E. split; [|intros; by rewrite E]. rewrite E.
  destruct (sessions w !! session) as [s|]; cbn; [|reflexivity].
  by rewrite add_messages_nil.
Qed.

Lemma log_extended_trans session a b w1 w2 w3 :
  log_extended session a w1 w2 → log_extended session b w2 w3 →
  log_extended session (a ++ b) w1 w3.
Proof.
  intros [H1 O1] [H2 O2]. split.
  - rewrite H2, H1. destruct (sessions w1 !! session) as [s|]; cbn; [|reflexivity].
    by rewrite add_messages_app.
  - intros other Ho. by rewrite O2, O1.
Qed.

Lemma append_message_log session m w :
  log_extended session [m] w (snd (append_message session m w)).
Proof.
  unfold append_message, set_sessions. cbn [snd]. split; cbn [sessions].
  - by rewrite lookup_alter_eq.
  - intros other Ho. by rewrite lookup_alter_ne.
Qed.

Lemma sent_only_refl ok (n : Net) : sent_only ok n n.
Proof.
  intros i. exists []. split; [|reflexivity].
  destruct (n !! i) as [p|]; cbn; [|reflexivity]. by rewrite app_nil_r.
Qed.

Lemma sent_only_trans ok (a b c : Net) :
  sent_only ok a b → sent_only ok b c → sent_only ok a c.
Proof.
  intros H1 H2 i. destruct (H1 i) as (e1 & E1 & F1), (H2 i) as (e2 & E2 & F2).
  exists (e1 ++ e2). split; [|by rewrite forallb_app, F1, F2].
  rewrite E2. destruct (a !! i) as [p|], (b !! i) as [q|]; cbn in *; try congruence.
  injection E1 as ->. by rewrite app_assoc.
Qed.

Lemma broadcast_sent_only (ok : Payload → bool) connections session data (n : Net) :
  ok data = true →
  sent_only ok n (snd (WebSocketManager.broadcast_to_session connections session data n)).
Proof.
  intros Hok i. rewrite broadcast_lookup.
  set (k := registrations i _).
  destruct (n !! i) as [p|] eqn:E; cbn.
  - unfold deliver. destruct (peer_closed p).
    + exists []. by rewrite app_nil_r.
    + exists (replicate k data). split; [reflexivity|].
      clear -Hok. induction k as [|k IH]; cbn; [reflexivity|]. by rewrite Hok, IH.
  - exists []. by split.
Qed.

Lemma send_thinking_log session uuid completed_task tools w :
  ∃ w' thinking,
    send_thinking session uuid completed_task tools w = (Ret tt, w')
    ∧ log_extended session thinking w w'
    ∧ tasks w' = tasks w ∧ running_tasks w' = running_tasks w
    ∧ sent_only (fun d => negb (is_task_update d)) (net w) (net w')
    ∧ (length thinking ≤ 1)%nat
    ∧ Forall (fun m => role m = "assistant" ∧ msg_id m = uuid
                       ∧ msg_tools_used m = [] ∧ msg_task_id m = None
                       ∧ tools ≠ []) thinking.
Proof.
  unfold send_thinking.
  assert (Hnone : ∃ w' thinking,
            (Ret tt, w) = (Ret tt, w')
            ∧ log_extended session thinking w w'
            ∧ tasks w' = tasks w ∧ running_tasks w' = running_tasks w
            ∧ sent_only (fun d => negb (is_task_update d)) (net w) (net w')
            ∧ (length thinking ≤ 1)%nat
            ∧ Forall (fun m => role m = "assistant" ∧ msg_id m = uuid
                               ∧ msg_tools_used m = [] ∧ msg_task_id m = None
                               ∧ tools ≠ []) thinking).
  { exists w, []. split; [reflexivity|]. split; [by apply log_extended_same|].
    split; [reflexivity|]. split; [reflexivity|]. split; [apply sent_only_refl|].
    split; [cbn; lia|]. constructor. }
  destruct completed_task as [t|]; [|exact Hnone].
  destruct tools as [|tool tools]; [exact Hnone|].
  destruct (tool_commands (metadata t)) as [|cmd cmds]; [exact Hnone|]. clear Hnone.
  cbv [bind new_message utcnow ret]. cbn [snd fst].
  set (m := {| msg_id := uuid; role := "assistant";
               content := Py.join Py.nl (map snd (cmd :: cmds));
               timestamp := clock w; msg_tools_used := []; msg_task_id := None |}).
  set (w1 := set_clock (S (clock w)) w).
  pose proof (append_message_log session m w1) as L.
  destruct (append_message session m w1) as [o w2] eqn:Ea.
  assert (o = Ret tt) as -> by (unfold append_message in Ea; by injection Ea as <- _).
  assert (Hw2 : tasks w2 = tasks w ∧ running_tasks w2 = running_tasks w ∧ net w2 = net w).
  { unfold append_message in Ea. injection Ea as <-. by repeat split. }
  cbn [snd] in L. rewrite broadcast_eq.
  eexists _, [m]. split; [reflexivity|].
  unfold set_net, set_journal. cbn [sessions tasks running_tasks net].
  destruct Hw2 as (T2 & R2 & N2).
  split; [|split; [exact T2|split; [exact R2|split; [|split]]]].
  - destruct L as [L1 L2]. split; cbn [sessions]; [exact L1|exact L2].
  - rewrite N2. by apply broadcast_sent_only.
  - cbn. lia.
  - constructor; [|constructor]. by repeat split.
Qed.

(** Lines 139-234, with what they append and send. *)
Lemma respond_log session u_thinking u_reply tid success w :
  let tools := match get_task tid w with Some t => tools_used t | None => [] end in
  ∃ w' thinking reply,
    respond session u_thinking u_reply tid success w = (Ret (describe reply), w')
    ∧ log_extended session (thinking ++ [reply]) w w'
    ∧ tasks w' = tasks w ∧ running_tasks w' = running_tasks w
    ∧ sent_only (fun d => negb (is_task_update d)) (net w) (net w')
    ∧ (length thinking ≤ 1)%nat
    ∧ Forall (fun m => role m = "assistant" ∧ msg_id m = u_thinking
                       ∧ msg_tools_used m = [] ∧ msg_task_id m = None
                       ∧ tools ≠ []) thinking
    ∧ msg_id reply = u_reply ∧ role reply = "assistant"
    ∧ content reply = response_content success (get_task tid w)
    ∧ msg_tools_used reply = tools
    ∧ msg_task_id reply
      = match get_task tid w, tools with
        | Some t, _ :: _ => Some (id t)
        | _, _ => None
        end.
Proof.
  cbv zeta. unfold respond. cbv [bind new_message utcnow ret]. cbn [fst snd].
  destruct (send_thinking_log session u_thinking (get_task tid w)
              match get_task tid w with Some t => tools_used t | None => [] end w)
    as (w1 & thinking & -> & L1 & T1 & R1 & S1 & Hlen & Hth).
  cbn [fst snd].
  set (tools := match get_task tid w with Some t => tools_used t | None => [] end) in *.
  set (reply := {| msg_id := u_reply; role := "assistant";
                   content := response_content success (get_task tid w);
                   timestamp := clock w1; msg_tools_used := tools;
                   msg_task_id := match get_task tid w, tools with
                                  | Some t, _ :: _ => Some (id t)
                                  | _, _ => None
                                  end |}).
  set (w2 := set_clock (S (clock w1)) w1).
  pose proof (append_message_log session reply w2) as L2.
  destruct (append_message session reply w2) as [o w3] eqn:Ea.
  assert (o = Ret tt) as -> by (unfold append_message in Ea; by injection Ea as <- _).
  assert (Hw3 : tasks w3 = tasks w1 ∧ running_tasks w3 = running_tasks w1 ∧ net w3 = net w1).
  { unfold append_message in Ea. injection Ea as <-. by repeat split. }
  destruct Hw3 as (T3 & R3 & N3). cbn [snd] in L2.
  assert (L12 : log_extended session (thinking ++ [reply]) w w3).
  { eapply log_extended_trans; [exact L1|].
    destruct L2 as [La Lb]. split; [exact La|exact Lb]. }
  rewrite broadcast_eq. cbn [snd].
  set (w4 := set_net _ (set_journal _ w3)).
  assert (S4 : sent_only (fun d => negb (is_task_update d)) (net w) (net w4)).
  { eapply sent_only_trans; [exact S1|]. unfold w4, set_net, set_journal. cbn [net].
    rewrite N3. by apply broadcast_sent_only. }
  assert (K4 : sessions w4 = sessions w3 ∧ tasks w4 = tasks w ∧ running_tasks w4 = running_tasks w).
  { unfold w4, set_net, set_journal. cbn. rewrite T3, R3, T1, R1. auto. }
  destruct K4 as (K4s & K4t & K4r).
  assert (L4 : log_extended session (thinking ++ [reply]) w w4).
  { destruct L12 as [La Lb]. split; rewrite K4s; [exact La|exact Lb]. }
  assert (Hfin : ∀ (fin : M unit) w5,
            fin w4 = (Ret tt, w5) → sessions w5 = sessions w4 → tasks w5 = tasks w4 →
            running_tasks w5 = running_tasks w4 →
            sent_only (fun d => negb (is_task_update d)) (net w4) (net w5) →
            ∃ w' thinking0 reply0,
              (let (o0, s') := fin w4 in
               match o0 with
               | Ret _ => (Ret (describe reply), s')
               | Raise e => (Raise e, s')
               end) = (Ret (describe reply0), w')
              ∧ log_extended session (thinking0 ++ [reply0]) w w'
              ∧ tasks w' = tasks w ∧ running_tasks w' = running_tasks w
              ∧ sent_only (fun d => negb (is_task_update d)) (net w) (net w')
              ∧ (length thinking0 ≤ 1)%nat
              ∧ Forall (fun m => role m = "assistant" ∧ msg_id m = u_thinking
                                 ∧ msg_tools_used m = [] ∧ msg_task_id m = None
                                 ∧ tools ≠ []) thinking0
              ∧ msg_id reply0 = u_reply ∧ role reply0 = "assistant"
              ∧ content reply0 = response_content success (get_task tid w)
              ∧ msg_tools_used reply0 = tools
              ∧ msg_task_id reply0
                = match get_task tid w, tools with
                  | Some t, _ :: _ => Some (id t)
                  | _, _ => None
                  end).
  { intros fin w5 Ef Es Et Er Sn. rewrite Ef. exists w5, thinking, reply.
    split; [reflexivity|]. split.
    { destruct L4 as [La Lb]. split; rewrite Es; [exact La|exact Lb]. }
    split; [by rewrite Et|]. split; [by rewrite Er|].
    split; [eapply sent_only_trans; eauto|]. by repeat split. }
  destruct (get_task tid w) as [t|] eqn:Eg.
  - destruct (tools_used t) as [|tool rest] eqn:Etools.
    + subst tools. apply (Hfin (ret tt) w4); auto using sent_only_refl.
    + subst tools. eapply (Hfin (broadcast MainHub session (TaskCreated t))).
      * apply broadcast_eq.
      * reflexivity.
      * reflexivity.
      * reflexivity.
      * unfold set_net, set_journal. cbn [net]. by apply broadcast_sent_only.
  - subst tools. apply (Hfin (ret tt) w4); auto using sent_only_refl.
Qed.

Lemma send_message_split session content u_user u_task u_thinking u_reply env w s :
  SessionManager.get_session session w = Some s →
  send_message session content u_user u_task u_thinking u_reply env w
  = match wait_for_task u_task 120 env
            (snd (create_task u_task session content (agent s)
                    (user_message_added session content u_user w))) with
    | (Ret success, w2) => respond session u_thinking u_reply u_task success w2
    | (Raise e, w2) => (Raise e, w2)
    end.
Proof.
  intros Hs. unfold send_message, user_message_added. rewrite Hs.
  cbv [bind new_message utcnow ret append_message]. cbn [snd].
  rewrite create_task_eq. cbn [snd id]. reflexivity.
Qed.

Lemma user_message_log session content u_user w :
  let w0 := user_message_added session content u_user w in
  log_extended session
    [ {| msg_id := u_user; role := "user"; content := content; timestamp := clock w;
         msg_tools_used := []; msg_task_id := None |} ] w w0
  ∧ tasks w0 = tasks w ∧ running_tasks w0 = running_tasks w ∧ net w0 = net w
  ∧ global_connections w0 = global_connections w.
Proof.
  cbv zeta. unfold user_message_added. cbv [bind new_message utcnow ret]. cbn [snd].
  split; [|by repeat split].
  pose proof (append_message_log session
                {| msg_id := u_user; role := "user"; content := content;
                   timestamp := clock w; msg_tools_used := []; msg_task_id := None |}
                (set_clock (S (clock w)) w)) as [L1 L2].
  split; [exact L1|exact L2].
Qed.

Lemma wait_keeps_identity tid timeout env :
  preserves identity_kept (wait_for_task tid timeout env).
Proof.
  apply preserves_wait_for_task.
  - intros; apply identity_kept_tasks; reflexivity.
  - intros; eapply identity_kept_trans; eassumption.
  - intros; apply identity_kept_tasks; reflexivity.
  - intros; apply identity_kept_tasks; reflexivity.
  - intros; apply identity_kept_tasks; reflexivity.
  - intros; by apply identity_kept_assign.
  - intros; apply identity_kept_tasks, broadcast_tasks.
Qed.

(** X23: the log of a session only grows, and in the order of the
    request.  [send_message] to an existing session appends the user's
    message first; when it returns, an intermediate assistant message (at
    most one, and only when tools were used) and then the reply it returns
    follow; when it raises, the user's message is all that was appended.
    The logs of the other sessions are not touched. *)
Theorem send_message_appends_messages (session content : string)
    (u_user u_task u_thinking u_reply : string) (env : Loop.Interference)
    (w : World) (s : Session) :
  SessionManager.get_session session w = Some s →
  let r := send_message session content u_user u_task u_thinking u_reply env w in
  let user_message :=
    {| msg_id := u_user; role := "user"; content := content; timestamp := clock w;
       msg_tools_used := []; msg_task_id := None |} in
  ∃ tail,
    SessionManager.get_session session (snd r)
    = Some (add_messages (user_message :: tail) s)
    ∧ (∀ other, other ≠ session →
         SessionManager.get_session other (snd r) = SessionManager.get_session other w)
    ∧ match fst r with
      | Ret d =>
          ∃ thinking reply,
            tail = thinking ++ [reply] ∧ d = describe reply
            ∧ role reply = "assistant" ∧ msg_id reply = u_reply
            ∧ (length thinking ≤ 1)%nat
            ∧ Forall (fun m => role m = "assistant" ∧ msg_id m = u_thinking
                               ∧ msg_tools_used reply ≠ []) thinking
      | Raise _ => tail = []
      end.
Proof.
  intros Hs. cbv zeta. rewrite (send_message_split _ _ _ _ _ _ _ _ _ Hs).
  destruct (user_message_log session content u_user w) as ([U1 U2] & _).
  set (w0 := user_message_added session content u_user w) in *.
  destruct (create_task_keeps u_task session content (agent s) w0) as [(C1 & _) _].
  set (w1 := snd (create_task u_task session content (agent s) w0)) in *.
  destruct task_ops_keep_registry as (_ & _ & _ & _ & K & _).
  destruct (K u_task 120 env w1) as (K1 & _).
  unfold SessionManager.get_session in *.
  destruct (wait_for_task u_task 120 env w1) as [[success|e] w2]; cbn [snd] in K1.
  - destruct (respond_log session u_thinking u_reply u_task success w2)
      as (w' & thinking & reply & -> & [L1 L2] & _ & _ & _ & Hlen & Hth & Hid & Hr & _ & Ht & _).
    cbn [fst snd]. exists (thinking ++ [reply]). split; [|split].
    + rewrite L1, K1, C1, U1, Hs. cbn. by rewrite add_messages_app.
    + intros other Ho. rewrite L2, K1, C1, U2 by done. reflexivity.
    + exists thinking, reply. repeat split; try done.
      eapply Forall_impl; [exact Hth|]. cbn. intros m (H1 & H2 & _ & _ & H5).
      rewrite Ht. auto.
  - cbn [fst snd]. exists []. split; [|split; [|reflexivity]].
    + by rewrite K1, C1, U1, Hs.
    + intros other Ho. by rewrite K1, C1, U2.
Qed.

Lemma send_message_appends_messages_witness :
  ∃ tail,
    SessionManager.get_session "s1"
      (snd (send_message "s1" "hello" "u1" "t1" "u2" "u3" Loop.CancelledMeanwhile
              (Sample.with_session Sample.echo)))
    = Some (add_messages
              ({| msg_id := "u1"; role := "user"; content := "hello"; timestamp := 2;
                  msg_tools_used := []; msg_task_id := None |} :: tail)
              {| sess_id := "s1"; name := "demo"; agent_type := "echo"; model := "m1";
                 sess_status := ACTIVE; sess_created_at := 0; updated_at := 1;
                 config := []; agent := Sample.echo; messages := [] |}).
Proof.
  destruct (send_message_appends_messages "s1" "hello" "u1" "t1" "u2" "u3"
              Loop.CancelledMeanwhile (Sample.with_session Sample.echo)
              {| sess_id := "s1"; name := "demo"; agent_type := "echo"; model := "m1";
                 sess_status := ACTIVE; sess_created_at := 0; updated_at := 1;
                 config := []; agent := Sample.echo; messages := [] |})
    as (tail & H & _).
  - vm_compute. reflexivity.
  - exists tail. exact H.
Defined.

(** X24: the reply of a request names its task exactly when tools were
    used.  When [send_message] returns, the task it created is stored under
    the id drawn for it, for this session and with the request's text; the
    reply carries the [tools_used] of that task, and its [task_id] is the
    id of the task when [tools_used] is not empty and absent when it is. *)
Theorem reply_names_the_task (session content : string)
    (u_user u_task u_thinking u_reply : string) (env : Loop.Interference)
    (w : World) (s : Session) (d : MessageDescriptor) :
  SessionManager.get_session session w = Some s →
  let r := send_message session content u_user u_task u_thinking u_reply env w in
  fst r = Ret d →
  ∃ t, get_task u_task (snd r) = Some t
       ∧ id t = u_task ∧ session_id t = session ∧ message t = content
       ∧ d_id d = u_reply ∧ d_role d = "assistant"
       ∧ d_tools_used d = tools_used t
       ∧ d_task_id d = match tools_used t with [] => None | _ :: _ => Some u_task end.
Proof.
  intros Hs. cbv zeta. rewrite (send_message_split _ _ _ _ _ _ _ _ _ Hs).
  set (w0 := user_message_added session content u_user w).
  pose proof (wait_keeps_identity u_task 120 env
                (snd (create_task u_task session content (agent s) w0)) u_task) as Hk.
  rewrite create_task_eq in *. cbn [snd] in *.
  set (w1 := set_running_tasks _ _) in *.
  specialize (Hk _ (lookup_insert_eq _ _ _)).
  destruct Hk as (t2 & E2 & Hi & Hse & Hm & _). cbn [id session_id message] in Hi, Hse, Hm.
  destruct (wait_for_task u_task 120 env w1) as [[success|e] w2]; cbn [snd] in E2;
    [|discriminate].
  destruct (respond_log session u_thinking u_reply u_task success w2)
    as (w' & thinking & reply & -> & _ & T & _ & _ & _ & _ & Hid & Hr & _ & Ht & Htid).
  cbn [fst snd]. intros [= <-]. unfold get_task in *. rewrite E2 in Ht, Htid.
  exists t2. rewrite T. split; [exact E2|]. repeat split; try done.
  unfold describe. cbn [d_task_id]. rewrite Htid, Hi. reflexivity.
Qed.

Lemma reply_names_the_task_witness :
  ∃ t, get_task "t1"
         (snd (send_message "s1" "scan" "u1" "t1" "u2" "u3" Loop.Undisturbed
                 (Sample.with_session Sample.scanner))) = Some t
       ∧ tools_used t = ["nmap"] ∧ id t = "t1".
Proof.
  destruct (send_message "s1" "scan" "u1" "t1" "u2" "u3" Loop.Undisturbed
              (Sample.with_session Sample.scanner)) as [[d|e] w'] eqn:E;
    [|vm_compute in E; discriminate].
  destruct (reply_names_the_task "s1" "scan" "u1" "t1" "u2" "u3" Loop.Undisturbed
              (Sample.with_session Sample.scanner)
              {| sess_id := "s1"; name := "demo"; agent_type := "echo"; model := "m1";
                 sess_status := ACTIVE; sess_created_at := 0; updated_at := 1;
                 config := []; agent := Sample.scanner; messages := [] |} d)
    as (t & Et & Hi & _).
  - vm_compute. reflexivity.
  - rewrite E. reflexivity.
  - rewrite E in Et. cbn [snd] in Et. exists t. split; [exact Et|]. split; [|exact Hi].
    vm_compute in E. injection E as _ <-. vm_compute in Et. by injection Et as <-.
Defined.

(** X25: a request sends its observers message and task-creation events
    and no task update.  While the module-level manager has no connection,
    every peer has after [send_message], however it ends, what it had
    received before followed by payloads none of which is a task update, and
    no peer has appeared or disappeared. *)
Theorem send_message_sends_no_task_update (session content : string)
    (u_user u_task u_thinking u_reply : string) (env : Loop.Interference) (w : World) :
  global_connections w = ∅ →
  sent_only (fun data => negb (is_task_update data)) (net w)
    (net (snd (send_message session content u_user u_task u_thinking u_reply env w))).
Proof.
  intros H0. destruct (SessionManager.get_session session w) as [s|] eqn:Hs.
  2:{ unfold send_message. rewrite Hs. apply sent_only_refl. }
  rewrite (send_message_split _ _ _ _ _ _ _ _ _ Hs).
  destruct (user_message_log session content u_user w) as (_ & _ & _ & N0 & G0).
  set (w0 := user_message_added session content u_user w) in *.
  destruct (create_task_keeps u_task session content (agent s) w0) as [_ [G1 N1]].
  set (w1 := snd (create_task u_task session content (agent s) w0)) in *.
  destruct task_ops_silent as (_ & _ & _ & _ & K & _).
  destruct (K u_task 120 env w1) as [_ N2].
  assert (E2 : net (snd (wait_for_task u_task 120 env w1)) = net w).
  { rewrite N2 by (by rewrite G1, G0). rewrite N1 by (by rewrite G0). exact N0. }
  destruct (wait_for_task u_task 120 env w1) as [[success|e] w2]; cbn [snd] in E2.
  - destruct (respond_log session u_thinking u_reply u_task success w2)
      as (w' & thinking & reply & -> & _ & _ & _ & Sn & _).
    cbn [snd]. by rewrite <- E2.
  - cbn [snd]. rewrite E2. apply sent_only_refl.
Qed.

Lemma send_message_sends_no_task_update_witness :
  let w := snd (hub_connect MainHub {| ws_id := 1 |} "s1"
                  (set_net {[ 1 := {| peer_closed := false; peer_received := [] |} ]}
                     (Sample.with_session Sample.scanner))) in
  ∃ extra,
    peer_received
      <$> net (snd (send_message "s1" "scan" "u1" "t1" "u2" "u3" Loop.Undisturbed w)) !! 1
    = (fun p => peer_received p ++ extra) <$> net w !! 1
    ∧ forallb (fun data => negb (is_task_update data)) extra = true.
Proof.
  intros w.
  apply (send_message_sends_no_task_update "s1" "scan" "u1" "t1" "u2" "u3"
           Loop.Undisturbed w).
  vm_compute. reflexivity.
Defined.

(** An observer of the session, registered with the manager of [main.py],
    is sent three events by a request that uses a tool. *)
Lemma main_observer_events :
  let w := snd (hub_connect MainHub {| ws_id := 1 |} "s1"
                  (set_net {[ 1 := {| peer_closed := false; peer_received := [] |} ]}
                     (Sample.with_session Sample.scanner))) in
  (length ∘ peer_received) <$> net w !! 1 = Some 1
  ∧ (length ∘ peer_received)
      <$> net (snd (send_message "s1" "scan" "u1" "t1" "u2" "u3" Loop.Undisturbed w)) !! 1
    = Some 4.
Proof. vm_compute. split; reflexivity. Qed.

End Requests.

(** ** Sessions and the remaining endpoints *)

Section Listing.
Import TaskManager TaskManagerApi.

(** X26: creating a session under a fresh id and deleting it again.  The
    new session is active, has an empty log and is found under its id and in
    the list of all sessions, which has grown by one; the other sessions are
    as they were; deleting it restores the map of sessions; and nothing of
    this touches tasks, executions or connections.  When the agent cannot be
    made, [create_session] raises and changes nothing. *)
Theorem create_delete_round_trip (uuid agent_type model name : string)
    (config : list (string * string)) (made : Outcome Agent) (w : World) :
  sessions w !! uuid = None →
  match made with
  | Raise e =>
      SessionManager.create_session uuid agent_type model name config made w = (Raise e, w)
  | Ret a =>
      ∃ s w1,
        SessionManager.create_session uuid agent_type model name config made w = (Ret s, w1)
        ∧ sess_id s = uuid ∧ sess_status s = ACTIVE ∧ messages s = [] ∧ agent s = a
        ∧ SessionManager.get_session uuid w1 = Some s
        ∧ (∀ other, other ≠ uuid →
             SessionManager.get_session other w1 = SessionManager.get_session other w)
        ∧ s ∈ SessionManager.get_all_sessions w1
        ∧ length (SessionManager.get_all_sessions w1)
          = S (length (SessionManager.get_all_sessions w))
        ∧ ∃ w2, Endpoints.delete_session uuid w1 = (Ret "Session deleted successfully", w2)
                ∧ sessions w2 = sessions w
                ∧ tasks w2 = tasks w ∧ running_tasks w2 = running_tasks w
                ∧ main_connections w2 = main_connections w
                ∧ global_connections w2 = global_connections w
  end.
Proof.
  intros Hf. destruct made as [a|e]; [|reflexivity].
  unfold SessionManager.create_session, SessionManager.get_session,
    SessionManager.get_all_sessions.
  cbv [bind utcnow]. cbn [fst snd]. eexists _, _. split; [reflexivity|].
  unfold set_sessions, set_clock. cbn [sessions sess_id sess_status messages agent].
  split; [reflexivity|]. split; [reflexivity|]. split; [reflexivity|].
  split; [reflexivity|]. split; [apply lookup_insert_eq|]. split.
  { intros other Ho. by rewrite lookup_insert_ne. }
  split.
  { apply list_elem_of_fmap. eexists (uuid, _). split; [reflexivity|].
    apply elem_of_map_to_list, lookup_insert_eq. }
  split.
  { rewrite !length_map. rewrite (map_to_list_insert _ _ _ Hf). reflexivity. }
  unfold Endpoints.delete_session, SessionManager.delete_session. cbv [bind ret].
  cbn [sessions]. rewrite lookup_insert_eq. eexists. split; [reflexivity|].
  unfold set_sessions. cbn. rewrite delete_insert_eq, delete_id by exact Hf.
  by repeat split.
Qed.

Lemma create_delete_round_trip_witness :
  ∃ s w1,
    SessionManager.create_session "s1" "echo" "m1" "demo" [] (Ret Sample.echo) world_init
    = (Ret s, w1)
    ∧ SessionManager.get_session "s1" w1 = Some s
    ∧ ∃ w2, Endpoints.delete_session "s1" w1 = (Ret "Session deleted successfully", w2)
            ∧ sessions w2 = sessions world_init.
Proof.
  destruct (create_delete_round_trip "s1" "echo" "m1" "demo" [] (Ret Sample.echo) world_init)
    as (s & w1 & E & _ & _ & _ & _ & G & _ & _ & _ & w2 & D & Hs & _).
  - reflexivity.
  - exists s, w1. split; [exact E|]. split; [exact G|]. exists w2. auto.
Defined.

(** X27: deleting a session does not cascade.  The tasks of the session,
    their executions and the observers registered for it stay as they are
    and [get_session_tasks] answers as before; a request to the deleted
    session is refused with status 404 and changes nothing, and so is a
    second deletion. *)
Theorem delete_session_does_not_cascade (session : string) (w : World) (s : Session) :
  SessionManager.get_session session w = Some s →
  ∃ w',
    Endpoints.delete_session session w = (Ret "Session deleted successfully", w')
    ∧ SessionManager.get_session session w' = None
    ∧ tasks w' = tasks w ∧ running_tasks w' = running_tasks w
    ∧ main_connections w' = main_connections w
    ∧ global_connections w' = global_connections w
    ∧ get_session_tasks session w' = get_session_tasks session w
    ∧ (∀ content u_user u_task u_thinking u_reply env,
         Main.send_message session content u_user u_task u_thinking u_reply env w'
         = (Raise (HTTPException 404 "Session not found"), w'))
    ∧ Endpoints.delete_session session w'
      = (Raise (HTTPException 404 "Session not found"), w').
Proof.
  unfold SessionManager.get_session. intros Hs.
  unfold Endpoints.delete_session at 1, SessionManager.delete_session. cbv [bind ret].
  rewrite Hs. eexists. split; [reflexivity|].
  unfold set_sessions, SessionManager.get_session, get_session_tasks.
  cbn [sessions tasks running_tasks main_connections global_connections].
  rewrite lookup_delete_eq. repeat split; try reflexivity.
  - intros. unfold Main.send_message, SessionManager.get_session. cbn [sessions].
    by rewrite lookup_delete_eq.
  - unfold Endpoints.delete_session, SessionManager.delete_session. cbv [bind raise].
    cbn [sessions]. by rewrite lookup_delete_eq.
Qed.

Lemma delete_session_does_not_cascade_witness :
  ∃ w',
    Endpoints.delete_session "s1" (Sample.with_task Sample.echo)
    = (Ret "Session deleted successfully", w')
    ∧ tasks w' = tasks (Sample.with_task Sample.echo)
    ∧ length (get_session_tasks "s1" w') = 1.
Proof.
  destruct (delete_session_does_not_cascade "s1" (Sample.with_task Sample.echo)
              {| sess_id := "s1"; name := "demo"; agent_type := "echo"; model := "m1";
                 sess_status := ACTIVE; sess_created_at := 0; updated_at := 1;
                 config := []; agent := Sample.echo; messages := [] |})
    as (w' & E & _ & Ht & _ & _ & _ & Hl & _).
  - vm_compute. reflexivity.
  - exists w'. split; [exact E|]. split; [exact Ht|]. rewrite Hl. vm_compute. reflexivity.
Defined.

(** X28: the task list of a session holds the tasks of that session that
    used tools, and only those: a response is listed exactly when it is the
    response of a stored task of the session whose [tools_used] is not
    empty.  A task that used no tool is found by its id and not listed. *)
Theorem list_session_tasks_lists_tool_tasks (session : string) (w : World)
    (r : TaskResponse) :
  r ∈ Endpoints.list_session_tasks session w
  ↔ ∃ tid t, tasks w !! tid = Some t ∧ session_id t = session
             ∧ tools_used t ≠ [] ∧ r = from_task t.
Proof.
  unfold Endpoints.list_session_tasks, get_session_tasks. cbv zeta.
  rewrite list_elem_of_fmap. split.
  - intros (t & -> & Hin). apply list_elem_of_filter in Hin as [Htools Hin].
    apply list_elem_of_filter in Hin as [Hsess Hin].
    apply list_elem_of_fmap in Hin as ([tid t'] & -> & Hin).
    apply elem_of_map_to_list in Hin. cbn in *. eauto 6.
  - intros (tid & t & Et & Hsess & Htools & ->). exists t. split; [reflexivity|].
    apply list_elem_of_filter. split; [exact Htools|].
    apply list_elem_of_filter. split; [exact Hsess|].
    apply list_elem_of_fmap. exists (tid, t). split; [reflexivity|].
    by apply elem_of_map_to_list.
Qed.

Lemma filter_absent (x : string) (l : list Endpoints.ModelInfo) :
  x ∉ map Endpoints.model_id l →
  filter (fun m => Endpoints.model_id m = x) l = [].
Proof.
  induction l as [|m l IH]; intros Hn; [reflexivity|].
  rewrite filter_cons. cbn [map] in Hn. apply not_elem_of_cons in Hn as [H1 H2].
  rewrite decide_False by congruence. by apply IH.
Qed.

(** X29: the current model is always offered, once.  Whatever the
    environment variable holds, the list of [list_available_models] names
    the model reported as current exactly once; the eight common models are
    always listed, in their order; a current model that is not one of them
    is put in front with provider [custom]; and without the variable the
    current model is the first common one. *)
Theorem current_model_is_listed_once (cai_model : option string) :
  let r := Endpoints.list_available_models cai_model in
  snd r = default "openrouter/z-ai/glm-4.5-air:free" cai_model
  ∧ length (filter (fun m => Endpoints.model_id m = snd r) (fst r)) = 1
  ∧ (∃ extra, fst r = extra ++ Endpoints.common_models
              ∧ (length extra ≤ 1)%nat
              ∧ Forall (fun m => Endpoints.provider m = "custom"
                                 ∧ Endpoints.model_id m = snd r) extra)
  ∧ (cai_model = None → fst r = Endpoints.common_models).
Proof.
  cbv zeta. unfold Endpoints.list_available_models. cbv zeta. cbn [fst snd].
  set (current := default "openrouter/z-ai/glm-4.5-air:free" cai_model).
  split; [reflexivity|]. case_bool_decide as Hin.
  - split; [|split].
    + apply list_elem_of_In in Hin. cbn in Hin.
      repeat (destruct Hin as [<-|Hin]; [vm_compute; reflexivity|]). destruct Hin.
    + exists []. split; [reflexivity|]. split; [cbn; lia|constructor].
    + reflexivity.
  - split; [|split].
    + rewrite filter_cons. cbn [Endpoints.model_id]. rewrite decide_True by reflexivity.
      rewrite (filter_absent _ _ Hin). reflexivity.
    + eexists [_]. split; [reflexivity|]. split; [cbn; lia|].
      constructor; [by split|constructor].
    + intros ->. exfalso. apply Hin. subst current. cbn.
      apply list_elem_of_In. cbn. auto.
Qed.

(** X30: an observer is registered only for a session that exists, and
    with the manager of [main.py].  For an unknown session the endpoint
    closes the connection and registers nothing; for a known one it
    registers the connection at the end of the session's bucket and
    acknowledges it; in both cases sessions, tasks, executions and the
    module-level manager are left as they were. *)
Theorem websocket_open_needs_a_session (ws : WebSocket) (session : string) (w : World) :
  let r := Endpoints.websocket_open ws session w in
  (SessionManager.get_session session w = None →
     main_connections (snd r) = main_connections w
     ∧ ∀ p, net w !! ws_id ws = Some p →
            net (snd r) !! ws_id ws = Some (closed_peer p))
  ∧ (is_Some (SessionManager.get_session session w) →
     fst r = Ret tt
     ∧ main_connections (snd r) !! session
       = Some (default [] (main_connections w !! session) ++ [ws])
     ∧ (∀ other, other ≠ session →
          main_connections (snd r) !! other = main_connections w !! other)
     ∧ ∀ p, net w !! ws_id ws = Some p → peer_closed p = false →
            net (snd r) !! ws_id ws
            = Some {| peer_closed := false;
                      peer_received := peer_received p ++ [Connected session] |})
  ∧ sessions (snd r) = sessions w ∧ tasks (snd r) = tasks w
  ∧ running_tasks (snd r) = running_tasks w
  ∧ global_connections (snd r) = global_connections w.
Proof.
  cbv zeta. unfold Endpoints.websocket_open.
  destruct (SessionManager.get_session session w) as [s|] eqn:Hs.
  - split; [discriminate|]. unfold hub_connect, WebSocketManager.connect.
    cbn [connections_of].
    pose proof (send_returns ws (Connected session) (net w)) as R.
    pose proof (send_lookup ws (Connected session) (net w) (ws_id ws)) as L.
    destruct (WebSocketManager._send_to_websocket ws (Connected session) (net w))
      as [o n']. cbn [fst snd] in *. subst o.
    unfold set_net, set_connections.
    cbn [main_connections net sessions tasks running_tasks global_connections].
    split; [|by repeat split]. intros _. split; [reflexivity|].
    split; [apply lookup_insert_eq|]. split.
    + intros other Ho. by rewrite lookup_insert_ne.
    + intros p Hp Hopen. rewrite L, Hp, decide_True by reflexivity. cbn.
      unfold deliver. by rewrite Hopen.
  - split; [|split; [intros [? [=]]|]].
    + intros _.
      pose proof (close_quietly_lookup ws (net w) (ws_id ws)) as [_ L].
      unfold WebSocketManager.close_quietly, try_except in L.
      destruct (WebSocketManager.close ws (net w)) as [[u|e] n'] eqn:Ec;
        unfold set_net; cbn [snd main_connections net] in *;
        (split; [reflexivity|]); intros p Hp.
      * rewrite L, Hp, decide_True by reflexivity. reflexivity.
      * unfold WebSocketManager.close in Ec. rewrite Hp in Ec.
        destruct (peer_closed p) eqn:C; [|discriminate]. injection Ec as _ <-.
        rewrite Hp. f_equal. destruct p as [c rc]. cbn in C. by subst c.
    + destruct (WebSocketManager.close ws (net w)) as [o n']. by repeat split.
Qed.

End Listing.
